(** * NATE-MCP-SERVER: tool registry, token authorization, agent bridge

    A shallow embedding of the core of [src/mcp_server]:
    - [schemas.py]   ([ExecutionResult], [MCPError]),
    - [utils.py]     ([format_tool_result]),
    - [security.py]  ([verify_api_key], [is_tool_allowed], [filter_allowed_tools], ...),
    - [tools/base.py] ([ToolRegistry]),
    - [app.py]       (exception handlers, [mcp_endpoint] and its method handlers),
    - [remote/connection_manager.py] ([RemoteConnectionManager]).

    Python values are modelled by [PyValue]; a [dict] is an association list
    in insertion order; exceptions are threaded explicitly through the
    [Result] monad; the state of the connection manager, of the sockets and
    of the reply futures is passed explicitly. *)

From Stdlib Require Import ZArith String Ascii DecimalString.
From stdpp Require Import base option list strings gmap.

Set Warnings "-register-all".
Open Scope Z_scope.

(* ===================================================================== *)
(** * The Python runtime, as far as the server uses it *)
(* ===================================================================== *)

Module Py.

(** ** Characters and strings

    A header value is a sequence of latin-1 code points (one [ascii] each);
    text literals of the source are kept as their UTF-8 bytes. *)

Definition code (c : ascii) : nat := nat_of_ascii c.

Definition is_ascii_upper (c : ascii) : bool :=
  (65 <=? code c)%nat && (code c <=? 90)%nat.

Definition is_ascii_lower (c : ascii) : bool :=
  (97 <=? code c)%nat && (code c <=? 122)%nat.

(** Upper-case letters below code point 256: [A-Z], and [À-Þ] without [×]. *)
Definition is_upper (c : ascii) : bool :=
  is_ascii_upper c
  || ((192 <=? code c)%nat && (code c <=? 222)%nat && negb (code c =? 215)%nat).

Definition char_lower (c : ascii) : ascii :=
  if is_upper c then ascii_of_nat (code c + 32) else c.

(** [str.lower()] *)
Fixpoint lower (s : string) : string :=
  match s with
  | EmptyString => EmptyString
  | String c s' => String (char_lower c) (lower s')
  end.

(** [str.isspace()] on one code point below 256. *)
Definition is_space (c : ascii) : bool :=
  ((9 <=? code c)%nat && (code c <=? 13)%nat)
  || ((28 <=? code c)%nat && (code c <=? 32)%nat)
  || (code c =? 133)%nat || (code c =? 160)%nat.

(** [str.split()] without arguments: the maximal runs of non-space
    characters.  [cur] is the word being read, in reverse. *)
Fixpoint split_aux (cur : list ascii) (s : string) : list string :=
  match s with
  | EmptyString =>
      match cur with
      | [] => []
      | _ => [string_of_list_ascii (rev cur)]
      end
  | String c s' =>
      if is_space c then
        match cur with
        | [] => split_aux [] s'
        | _ => string_of_list_ascii (rev cur) :: split_aux [] s'
        end
      else split_aux (c :: cur) s'
  end.

Definition split (s : string) : list string := split_aux [] s.

(** [str.replace(old, new)] for one-character [old] and [new]. *)
Fixpoint replace_char (old new : ascii) (s : string) : string :=
  match s with
  | EmptyString => EmptyString
  | String c s' =>
      String (if Ascii.eqb c old then new else c) (replace_char old new s')
  end.

Definition char_upper (c : ascii) : ascii :=
  if is_ascii_lower c then ascii_of_nat (code c - 32) else c.

(** [str.title()]: a cased character that follows an uncased one is put in
    upper case, every other cased character in lower case.  Only the ASCII
    letters are taken as cased; the bytes of a non-ASCII character are left
    as they are. *)
Fixpoint title_aux (previous_is_cased : bool) (s : string) : string :=
  match s with
  | EmptyString => EmptyString
  | String c s' =>
      if is_ascii_lower c then
        String (if previous_is_cased then c else char_upper c) (title_aux true s')
      else if is_ascii_upper c then
        String (if previous_is_cased then char_lower c else c) (title_aux true s')
      else String c (title_aux false s')
  end.

Definition title (s : string) : string := title_aux false s.

(** [sep.join(lines)] *)
Fixpoint join (sep : string) (lines : list string) : string :=
  match lines with
  | [] => EmptyString
  | [x] => x
  | x :: rest => x +:+ sep +:+ join sep rest
  end.

(** [str.startswith(prefix)] *)
Fixpoint startswith (prefix s : string) : bool :=
  match prefix, s with
  | EmptyString, _ => true
  | String p prefix', String c s' => Ascii.eqb p c && startswith prefix' s'
  | String _ _, EmptyString => false
  end.

(** [s[n:]] *)
Fixpoint drop_chars (n : nat) (s : string) : string :=
  match n, s with
  | O, _ => s
  | S n', String _ s' => drop_chars n' s'
  | S _, EmptyString => EmptyString
  end.

Definition LF : string := String (ascii_of_nat 10) EmptyString.

(** [len(s)]: the number of [ascii] of the text, which is Python's count
    of characters when the text is ASCII (or latin-1 code points). *)
Definition len (s : string) : Z := Z.of_nat (String.length s).

(** The first [n] characters of [s], all of it when it is shorter. *)
Fixpoint take_chars (n : nat) (s : string) : string :=
  match n, s with
  | O, _ => EmptyString
  | S n', String c s' => String c (take_chars n' s')
  | S _, EmptyString => EmptyString
  end.

(** [s[:stop]]: a negative [stop] counts from the end. *)
Definition slice_to (s : string) (stop : Z) : string :=
  if stop <? 0 then take_chars (Z.to_nat (len s + stop)) s
  else take_chars (Z.to_nat stop) s.

(** [x in l] for a list of strings. *)
Definition contains (l : list string) (x : string) : bool :=
  existsb (String.eqb x) l.

(** ** Values

    The values of JSON and of the tables above, without floating point
    numbers. *)

Inductive PyValue : Type :=
  | PyNone
  | PyBool (b : bool)
  | PyInt (n : Z)
  | PyStr (s : string)
  | PyList (items : list PyValue)
  | PyDict (items : list (string * PyValue)).

(** [bool(v)] *)
Definition truthy (v : PyValue) : bool :=
  match v with
  | PyNone => false
  | PyBool b => b
  | PyInt n => negb (n =? 0)
  | PyStr s => negb (String.eqb s "")
  | PyList items => match items with [] => false | _ => true end
  | PyDict items => match items with [] => false | _ => true end
  end.

(** [type(v).__name__] *)
Definition type_name (v : PyValue) : string :=
  match v with
  | PyNone => "NoneType"
  | PyBool _ => "bool"
  | PyInt _ => "int"
  | PyStr _ => "str"
  | PyList _ => "list"
  | PyDict _ => "dict"
  end.

Definition str_of_int (n : Z) : string := NilZero.string_of_int (Z.to_int n).

Definition hex_digit (n : nat) : ascii :=
  if (n <? 10)%nat then ascii_of_nat (48 + n) else ascii_of_nat (87 + n).

Definition SQ : ascii := ascii_of_nat 39.
Definition DQ : ascii := ascii_of_nat 34.
Definition BSL : ascii := ascii_of_nat 92.

Fixpoint has_char (q : ascii) (s : string) : bool :=
  match s with
  | EmptyString => false
  | String c s' => Ascii.eqb c q || has_char q s'
  end.

(** The characters of [repr(s)]: the quote, the backslash and the ASCII
    control characters are escaped; every other [ascii] is kept, also the
    bytes of a non-ASCII character. *)
Fixpoint repr_chars (quote : ascii) (s : string) : string :=
  match s with
  | EmptyString => EmptyString
  | String c s' =>
      let rest := repr_chars quote s' in
      if Ascii.eqb c quote || Ascii.eqb c BSL then String BSL (String c rest)
      else if (code c =? 9)%nat then String BSL (String "t" rest)
      else if (code c =? 10)%nat then String BSL (String "n" rest)
      else if (code c =? 13)%nat then String BSL (String "r" rest)
      else if (code c <? 32)%nat || (code c =? 127)%nat then
        String BSL (String "x"
          (String (hex_digit (code c / 16)) (String (hex_digit (code c mod 16)) rest)))
      else String c rest
  end.

(** [repr(s)] of a string: single quotes, unless the text holds a single
    quote and no double quote. *)
Definition repr_str (s : string) : string :=
  let quote := if has_char SQ s && negb (has_char DQ s) then DQ else SQ in
  String quote (repr_chars quote s) +:+ String quote EmptyString.

(** [repr(v)] *)
Fixpoint repr (v : PyValue) : string :=
  match v with
  | PyNone => "None"
  | PyBool b => if b then "True" else "False"
  | PyInt n => str_of_int n
  | PyStr s => repr_str s
  | PyList items => "[" +:+ join ", " (List.map repr items) +:+ "]"
  | PyDict items =>
      "{" +:+ join ", "
                (List.map (fun kv => let '(k, x) := kv in repr_str k +:+ ": " +:+ repr x)
                          items)
          +:+ "}"
  end.

(** [str(v)], which is what an f-string field renders. *)
Definition str (v : PyValue) : string :=
  match v with
  | PyStr s => s
  | _ => repr v
  end.

(** [v == literal] for a string [literal]. *)
Definition str_eq (v : PyValue) (literal : string) : bool :=
  match v with
  | PyStr s => String.eqb s literal
  | _ => false
  end.

(** ** Dictionaries: association lists in insertion order *)

Section Dict.
Context {V : Type}.

(** [d.get(key)] *)
Fixpoint dict_get (d : list (string * V)) (key : string) : option V :=
  match d with
  | [] => None
  | (k, v) :: d' => if String.eqb k key then Some v else dict_get d' key
  end.

(** [d[key] = v]: an existing key keeps its place, a new key goes last. *)
Fixpoint dict_set (d : list (string * V)) (key : string) (v : V) : list (string * V) :=
  match d with
  | [] => [(key, v)]
  | (k, x) :: d' =>
      if String.eqb k key then (k, v) :: d' else (k, x) :: dict_set d' key v
  end.

(** [d.pop(key, None)] as far as the table is concerned. *)
Fixpoint dict_pop (d : list (string * V)) (key : string) : list (string * V) :=
  match d with
  | [] => []
  | (k, x) :: d' => if String.eqb k key then d' else (k, x) :: dict_pop d' key
  end.

Definition dict_keys (d : list (string * V)) : list string := List.map fst d.
Definition dict_values (d : list (string * V)) : list V := List.map snd d.
End Dict.

(** [d.get(key, default)] on a value that should be a [dict]; any other
    value has no [get] attribute. *)
Definition get_default (d : list (string * PyValue)) (key : string) (default : PyValue)
  : PyValue :=
  match dict_get d key with
  | Some v => v
  | None => default
  end.

(** ** Exceptions *)

Inductive Exn : Type :=
  | HTTPException (status_code : Z) (detail : string) (headers : list (string * string))
  | MCPError (code : Z) (message : string) (data : PyValue)
  | ValueError (msg : string)
  | TypeError (msg : string)
  | AttributeError (msg : string)
  | RuntimeError (msg : string)
  | TimeoutError
  | CancelledError
  | OtherException (msg : string).

(** [str(e)] *)
Definition exn_str (e : Exn) : string :=
  match e with
  | HTTPException status_code detail _ => str_of_int status_code +:+ ": " +:+ detail
  | MCPError _ message _ => message
  | ValueError msg | TypeError msg | AttributeError msg
  | RuntimeError msg | OtherException msg => msg
  | TimeoutError | CancelledError => ""
  end.

(** [isinstance(e, Exception)]: a cancellation is only a [BaseException]. *)
Definition is_exception (e : Exn) : bool :=
  match e with
  | CancelledError => false
  | _ => true
  end.

Inductive Result (A : Type) : Type :=
  | Ok (a : A)
  | Raise (e : Exn).
Arguments Ok {A} a.
Arguments Raise {A} e.

Definition bind {A B : Type} (r : Result A) (k : A -> Result B) : Result B :=
  match r with
  | Ok a => k a
  | Raise e => Raise e
  end.

(** [value.get], for a value that is only expected to be a [dict]. *)
Definition attr_get (v : PyValue) : Result (list (string * PyValue)) :=
  match v with
  | PyDict items => Ok items
  | _ => Raise (AttributeError
                  ("'" +:+ type_name v +:+ "' object has no attribute 'get'"))
  end.

End Py.

Import Py.

#[global] Instance result_ret : MRet Py.Result := @Py.Ok.
#[global] Instance result_bind : MBind Py.Result := fun A B k r => Py.bind r k.
#[global] Instance result_fmap : FMap Py.Result :=
  fun A B f r => Py.bind r (fun a => Py.Ok (f a)).

(* ===================================================================== *)
(** * schemas.py *)
(* ===================================================================== *)

Module Schemas.

(** [@dataclass class ExecutionResult] *)
Record ExecutionResult : Type := {
  success : bool;
  stdout : string;
  stderr : string;
  returncode : Z;
  execution_time : string;
  metadata : list (string * PyValue);
  error_type : string;
  error_message : string
}.

(** One metadata line: [f"📁 {key.replace('_', ' ').title()}: {value}"]. *)
Definition metadata_line (key : string) (value : PyValue) : string :=
  "📁 " +:+ Py.title (Py.replace_char "_" " " key) +:+ ": " +:+ Py.str value.

(** The body of the [for key, value in self.metadata.items()] loop. *)
Definition metadata_step (lines : list string) (item : string * PyValue) : list string :=
  let '(key, value) := item in
  if Py.truthy value && negb (Py.contains ["version_info"%string] key)
  then lines ++ [metadata_line key value]
  else lines.

(** [ExecutionResult.to_text_output]: [lines] is built by successive
    [append]s, then joined. *)
Definition to_text_output (self : ExecutionResult) : string :=
  let lines : list string := [] in
  let lines := fold_left metadata_step (metadata self) lines in
  let lines := lines ++ ["⏱️ Execution Time: " +:+ execution_time self] in
  let lines := lines ++ ["🔢 Return Code: " +:+ Py.str_of_int (returncode self)] in
  let lines :=
    if negb (success self)
    then lines ++ ["❌ Error: [" +:+ error_type self +:+ "] " +:+ error_message self]
    else lines in
  let lines :=
    if negb (String.eqb (stdout self) "")
    then lines ++ ["📤 Standard Output:" +:+ Py.LF +:+ stdout self]
    else lines in
  let lines :=
    if negb (String.eqb (stderr self) "")
    then lines ++ ["⚠️ Standard Error:" +:+ Py.LF +:+ stderr self]
    else lines in
  Py.join Py.LF lines.

End Schemas.

(* ===================================================================== *)
(** * utils.py *)
(* ===================================================================== *)

Module Utils.
Import Schemas.

(** [format_tool_result]: the [tools/call] envelope, a [dict].  The log
    line written before returning has no effect on the result. *)
Definition format_tool_result (result : ExecutionResult) : list (string * PyValue) :=
  let text_output := to_text_output result in
  let response :=
    [ ("content"%string, PyList [PyDict [("type"%string, PyStr "text");
                                         ("text"%string, PyStr text_output)]]);
      ("isError"%string, PyBool (negb (success result))) ] in
  let response :=
    if Py.truthy (PyDict (metadata result))
    then Py.dict_set response "metadata" (PyDict (metadata result))
    else response in
  response.

(** [truncate_string(text, max_length, suffix)] *)
Definition truncate_string (text : string) (max_length : Z) (suffix : string) : string :=
  if Py.len text >? max_length then Py.slice_to text max_length +:+ suffix
  else text.

End Utils.

(* ===================================================================== *)
(** * security.py *)
(* ===================================================================== *)

Module Security.

(** One entry of [API_KEYS]: [{"tools": [...], "exclude_tools": [...],
    "gmail_account": ...}], each key optional. *)
Record KeyConfig : Type := {
  tools : option (list string);
  exclude_tools : option (list string);
  gmail_account : option string
}.

Definition empty_config : KeyConfig :=
  {| tools := None; exclude_tools := None; gmail_account := None |}.

(** [request.state]: the attributes [verify_api_key] may set. *)
Record RequestState : Type := {
  allowed_tools : option (list string);
  excluded_tools : option (list string);
  api_key : option string
}.

Definition empty_state : RequestState :=
  {| allowed_tools := None; excluded_tools := None; api_key := None |}.

(** The parts of a FastAPI [Request] the server reads:
    [headers.get("Authorization")], [url.path], what [await req.json()]
    gives ([None] when the body is not JSON), and [state]. *)
Record Request : Type := {
  authorization : option string;
  url_path : string;
  json_body : option PyValue;
  state : RequestState
}.

Definition HTTP_401_UNAUTHORIZED : Z := 401.
Definition HTTP_403_FORBIDDEN : Z := 403.
Definition HTTP_400_BAD_REQUEST : Z := 400.

Section WithConfig.
Variable API_KEYS : list (string * KeyConfig).
Variable GMAIL_ACCOUNTS : list (string * list (string * string)).
(** [fnmatch.fnmatch] of the standard library, on two strings. *)
Variable fnmatch : string -> string -> bool.

(** [verify_api_key]: the request with its state stamped and the list
    of allowed tools, or an [HTTPException]. *)
Definition verify_api_key (request : Request) : Result (Request * list string) :=
  match API_KEYS with
  | [] =>
      let st := {| allowed_tools := Some ["*"%string];
                   excluded_tools := excluded_tools (state request);
                   api_key := api_key (state request) |} in
      Ok ({| authorization := authorization request; url_path := url_path request;
             json_body := json_body request; state := st |}, ["*"%string])
  | _ :: _ =>
      let auth_header := authorization request in
      match auth_header with
      | None | Some EmptyString =>
          Raise (HTTPException HTTP_401_UNAUTHORIZED
                   "Missing Authorization Header. Expected format: 'Authorization: Bearer <token>'"
                   [("WWW-Authenticate"%string, "Bearer"%string)])
      | Some auth_header =>
          let parts := Py.split auth_header in
          if negb (length parts =? 2)%nat
             || negb (String.eqb (Py.lower (nth 0 parts ""%string)) "bearer")
          then
            Raise (HTTPException HTTP_401_UNAUTHORIZED
                     "Invalid Authorization format. Expected 'Bearer <token>'"
                     [("WWW-Authenticate"%string, "Bearer"%string)])
          else
            let token := nth 1 parts ""%string in
            match Py.dict_get API_KEYS token with
            | None => Raise (HTTPException HTTP_403_FORBIDDEN "Invalid API Key" [])
            | Some config =>
                let allowed : list string := default [] (tools config) in
                let excluded : list string := default [] (exclude_tools config) in
                let st := {| allowed_tools := Some allowed;
                             excluded_tools := Some excluded;
                             api_key := Some token |} in
                Ok ({| authorization := authorization request;
                       url_path := url_path request;
                       json_body := json_body request; state := st |}, allowed)
            end
      end
  end.

(** [getattr(request.state, "allowed_tools", ["*"])] *)
Definition get_allowed_tools (request : Request) : list string :=
  default ["*"%string] (allowed_tools (state request)).

(** [getattr(request.state, "excluded_tools", [])] *)
Definition get_excluded_tools (request : Request) : list string :=
  default [] (excluded_tools (state request)).

(** [fnmatch.fnmatch(tool_name, pattern)] on whatever the caller read as
    the tool name: anything but a string is refused by [os.fspath]. *)
Definition fnmatch_obj (tool_name : PyValue) (pattern : string) : Result bool :=
  match tool_name with
  | PyStr s => Ok (fnmatch s pattern)
  | _ => Raise (TypeError ("expected str, bytes or os.PathLike object, not "
                           +:+ Py.type_name tool_name))
  end.

(** [any(fnmatch.fnmatch(tool_name, pattern) for pattern in patterns)] *)
Fixpoint any_fnmatch (tool_name : PyValue) (patterns : list string) : Result bool :=
  match patterns with
  | [] => Ok false
  | pattern :: rest =>
      b ← fnmatch_obj tool_name pattern;
      if b : bool then Ok true else any_fnmatch tool_name rest
  end.

Definition is_tool_allowed (request : Request) (tool_name : PyValue) : Result bool :=
  let excluded_tools := get_excluded_tools request in
  excluded ← match excluded_tools with
             | [] => Ok false
             | _ :: _ => any_fnmatch tool_name excluded_tools
             end;
  if excluded : bool then Ok false
  else
    let allowed_tools := get_allowed_tools request in
    if Py.contains allowed_tools "*" then Ok true
    else any_fnmatch tool_name allowed_tools.

Section Filter.
Variable request : Request.

Definition is_excluded (tool_name : PyValue) : Result bool :=
  any_fnmatch tool_name (get_excluded_tools request).

Definition is_allowed (tool_name : PyValue) : Result bool :=
  if Py.contains (get_allowed_tools request) "*" then Ok true
  else any_fnmatch tool_name (get_allowed_tools request).

(** The list comprehension of [filter_allowed_tools]. *)
Fixpoint filter_allowed_tools (all_tools : list (list (string * PyValue)))
  : Result (list (list (string * PyValue))) :=
  match all_tools with
  | [] => Ok []
  | tool :: rest =>
      let name := Py.get_default tool "name" (PyStr "") in
      a ← is_allowed name;
      keep ← (if a : bool then e ← is_excluded name; Ok (negb e) else Ok false);
      kept ← filter_allowed_tools rest;
      Ok (if keep : bool then tool :: kept else kept)
  end.
End Filter.

(** [get_api_key_config]: [{}] is [empty_config]. *)
Definition get_api_key_config (request : Request) : KeyConfig :=
  let api_key :=
    match api_key (state request) with
    | Some k => if String.eqb k "" then None else Some k
    | None => None
    end in
  let api_key :=
    match api_key with
    | Some k => Some k
    | None =>
        let auth_header := default ""%string (authorization request) in
        if Py.startswith "Bearer " auth_header
        then Some (Py.drop_chars 7 auth_header) else None
    end in
  match api_key with
  | None | Some EmptyString => empty_config
  | Some k => default empty_config (Py.dict_get API_KEYS k)
  end.

Definition get_gmail_account (request : Request) : option string :=
  gmail_account (get_api_key_config request).

Definition get_gmail_credentials (request : Request) : option (list (string * string)) :=
  match get_gmail_account request with
  | None | Some EmptyString => None
  | Some account_id => Py.dict_get GMAIL_ACCOUNTS account_id
  end.

(** [check_gmail_access]: the account and its credentials, or a
    [ValueError]. *)
Definition check_gmail_access (request : Request)
  : Result (string * list (string * string)) :=
  match get_gmail_account request with
  | None | Some EmptyString =>
      Raise (ValueError "此 API Key 未綁定 Gmail 帳號，無法使用 Gmail 功能")
  | Some account_id =>
      match get_gmail_credentials request with
      | None | Some [] =>
          Raise (ValueError ("Gmail 帳號 '" +:+ account_id
                             +:+ "' 設定不存在，請檢查 GMAIL_ACCOUNTS 環境變數"))
      | Some credentials => Ok (account_id, credentials)
      end
  end.

End WithConfig.

End Security.

(* ===================================================================== *)
(** * tools/base.py *)
(* ===================================================================== *)

Module Tools.
Import Schemas Security.

(** How [execute] calls a handler: [handler(args)] or
    [handler(args, request=request)]. *)
Inductive HandlerCall : Type :=
  | CallArgs (args : PyValue)
  | CallArgsRequest (args : PyValue) (request : Request).

(** A handler: the names in [inspect.signature(handler).parameters] and
    what a call of it returns or raises. *)
Record ToolHandler : Type := {
  parameters : list string;
  call : HandlerCall -> Result ExecutionResult
}.

Record ToolDefinition : Type := {
  name : string;
  description : string;
  input_schema : PyValue;
  handler : ToolHandler
}.

(** [ToolRegistry]: its one attribute [_tools], a [dict]. *)
Record ToolRegistry : Type := { _tools : list (string * ToolDefinition) }.

Definition empty_registry : ToolRegistry := {| _tools := [] |}.

(** [registry.register(name, description, input_schema)(handler)]: the
    registry after the decorator has run. *)
Definition register (self : ToolRegistry) (name description : string)
    (input_schema : PyValue) (handler : ToolHandler) : ToolRegistry :=
  {| _tools := Py.dict_set (_tools self) name
                 {| name := name; description := description;
                    input_schema := input_schema; handler := handler |} |}.

Definition list_tools (self : ToolRegistry) : list (list (string * PyValue)) :=
  List.map (fun t => [ ("name"%string, PyStr (name t));
                       ("description"%string, PyStr (description t));
                       ("inputSchema"%string, input_schema t) ])
           (Py.dict_values (_tools self)).

Definition get_tool_count (self : ToolRegistry) : nat := length (_tools self).

(** [self._tools.get(name)]: a list or a dict cannot be hashed; any other
    value that is not a string is no key of the table. *)
Definition tools_get (self : ToolRegistry) (name : PyValue) : Result (option ToolDefinition) :=
  match name with
  | PyStr s => Ok (Py.dict_get (_tools self) s)
  | PyList _ | PyDict _ =>
      Raise (TypeError ("unhashable type: '" +:+ Py.type_name name +:+ "'"))
  | _ => Ok None
  end.

Definition execute (self : ToolRegistry) (name : PyValue) (args : PyValue)
    (request : option Request) : Result ExecutionResult :=
  tool ← tools_get self name;
  match tool with
  | None => Raise (MCPError (-32601) ("Tool not found: " +:+ Py.str name) PyNone)
  | Some tool =>
      let params := parameters (handler tool) in
      match request with
      | Some request =>
          if Py.contains params "request"
          then call (handler tool) (CallArgsRequest args request)
          else call (handler tool) (CallArgs args)
      | None => call (handler tool) (CallArgs args)
      end
  end.

End Tools.

(* ===================================================================== *)
(** * app.py *)
(* ===================================================================== *)

Module App.
Import Schemas Utils Security Tools.

(** An HTTP response: status, the headers the application hands to the
    response constructor (the framework adds content type and length) and
    the JSON content. *)
Record Response : Type := {
  status_code : Z;
  headers : list (string * string);
  content : PyValue
}.

(** [JSONResponse(status_code=..., content=...)], no [headers] argument. *)
Definition JSONResponse (status_code : Z) (content : PyValue) : Response :=
  {| status_code := status_code; headers := []; content := content |}.

(** [@app.exception_handler(HTTPException)] *)
Definition http_exception_handler (request : Request)
    (exc_status_code : Z) (exc_detail : string) (exc_headers : list (string * string))
  : Response :=
  JSONResponse exc_status_code
    (PyDict
       [ ("jsonrpc"%string,
          if String.eqb (url_path request) "/mcp" then PyStr "2.0" else PyNone);
         ("id"%string, PyNone);
         ("error"%string,
          PyDict [ ("code"%string,
                    PyInt (if exc_status_code =? 401 then -32000 else -32001));
                   ("message"%string, PyStr exc_detail);
                   ("status_code"%string, PyInt exc_status_code) ]) ]).

(** [@app.exception_handler(MCPError)] *)
Definition mcp_exception_handler (request : Request)
    (exc_code : Z) (exc_message : string) (exc_data : PyValue) : Response :=
  JSONResponse HTTP_400_BAD_REQUEST
    (PyDict
       [ ("jsonrpc"%string, PyStr "2.0");
         ("id"%string, PyNone);
         ("error"%string,
          PyDict [ ("code"%string, PyInt exc_code);
                   ("message"%string, PyStr exc_message);
                   ("data"%string, exc_data) ]) ]).

Definition _handle_initialize : PyValue :=
  PyDict
    [ ("protocolVersion"%string, PyStr "2024-11-05");
      ("capabilities"%string,
       PyDict [ ("tools"%string, PyDict []); ("resources"%string, PyDict []);
                ("prompts"%string, PyDict []) ]);
      ("serverInfo"%string,
       PyDict [ ("name"%string, PyStr "NATE-MCP-SERVER");
                ("version"%string, PyStr "4.0.0");
                ("architecture"%string, PyStr "modular");
                ("features"%string,
                 PyList [ PyStr "python_execution"; PyStr "package_management";
                          PyStr "version_query"; PyStr "shell_execution" ]) ]) ].

Section WithServer.
Variable API_KEYS : list (string * KeyConfig).
Variable fnmatch : string -> string -> bool.
(** The module-level [registry], as the imports of the tool modules left it. *)
Variable registry : ToolRegistry.

Definition _handle_tools_list (request : Request) : Result PyValue :=
  let all_tools := list_tools registry in
  filtered_tools ← filter_allowed_tools fnmatch request all_tools;
  Ok (PyDict [("tools"%string, PyList (List.map PyDict filtered_tools))]).

Definition _handle_tools_call (body : list (string * PyValue)) (request : Request)
  : Result PyValue :=
  params ← Py.attr_get (Py.get_default body "params" (PyDict []));
  let tool_name := Py.get_default params "name" PyNone in
  let args := Py.get_default params "arguments" (PyDict []) in
  allowed ← is_tool_allowed fnmatch request tool_name;
  if negb allowed then
    Raise (MCPError (-32603)
             ("Permission denied: Tool '" +:+ Py.str tool_name
              +:+ "' is not allowed for this API Key")
             (PyDict [("tool"%string, tool_name)]))
  else
    exec_result ← execute registry tool_name args (Some request);
    Ok (PyDict (format_tool_result exec_result)).

(** The coroutine [mcp_endpoint]: the [dict] it returns, or the
    exception that leaves it. *)
Definition mcp_endpoint (req : Request) : Result PyValue :=
  '(req, _) ← verify_api_key API_KEYS req;
  match json_body req with
  | None =>
      Ok (PyDict [ ("jsonrpc"%string, PyStr "2.0");
                   ("id"%string, PyNone);
                   ("error"%string,
                    PyDict [ ("code"%string, PyInt (-32700));
                             ("message"%string, PyStr "Parse error: Invalid JSON") ]) ])
  | Some body =>
      body ← Py.attr_get body;
      let req_id := Py.get_default body "id" PyNone in
      let method := Py.get_default body "method" PyNone in
      let attempt : Result PyValue :=
        if Py.str_eq method "initialize" then Ok _handle_initialize
        else if Py.str_eq method "tools/list" then _handle_tools_list req
        else if Py.str_eq method "tools/call" then _handle_tools_call body req
        else Raise (MCPError (-32601) ("Method not found: " +:+ Py.str method) PyNone) in
      match attempt with
      | Ok result =>
          Ok (PyDict [ ("jsonrpc"%string, PyStr "2.0"); ("id"%string, req_id);
                       ("result"%string, result) ])
      | Raise (MCPError code message data) =>
          Ok (PyDict [ ("jsonrpc"%string, PyStr "2.0"); ("id"%string, req_id);
                       ("error"%string,
                        PyDict [ ("code"%string, PyInt code);
                                 ("message"%string, PyStr message);
                                 ("data"%string, data) ]) ])
      | Raise (ValueError msg) =>
          Ok (PyDict [ ("jsonrpc"%string, PyStr "2.0"); ("id"%string, req_id);
                       ("error"%string,
                        PyDict [ ("code"%string, PyInt (-32602));
                                 ("message"%string,
                                  PyStr ("Invalid params: " +:+ msg)) ]) ])
      | Raise e =>
          if Py.is_exception e then
            Ok (PyDict [ ("jsonrpc"%string, PyStr "2.0"); ("id"%string, req_id);
                         ("error"%string,
                          PyDict [ ("code"%string, PyInt (-32603));
                                   ("message"%string,
                                    PyStr ("Internal error: " +:+ Py.exn_str e)) ]) ])
          else Raise e
      end
  end.

(** [POST /mcp] as the framework serves it: a returned [dict] is sent
    with status 200, an [HTTPException] or [MCPError] that leaves the
    endpoint goes to its registered handler, any other exception is
    left to the server. *)
Definition post_mcp (req : Request) : Result Response :=
  match mcp_endpoint req with
  | Ok body => Ok (JSONResponse 200 body)
  | Raise (HTTPException status_code detail headers) =>
      Ok (http_exception_handler req status_code detail headers)
  | Raise (MCPError code message data) =>
      Ok (mcp_exception_handler req code message data)
  | Raise e => Raise e
  end.

End WithServer.

End App.

(* ===================================================================== *)
(** * remote/connection_manager.py *)
(* ===================================================================== *)

Module Remote.

(** An [asyncio.Future] holding a reply. *)
Inductive FutureState : Type :=
  | FPending
  | FResult (data : PyValue)
  | FCancelled.

Definition done (f : FutureState) : bool :=
  match f with
  | FPending => false
  | _ => true
  end.

(** A WebSocket connection: its [open] flag and the frames written to it
    (each frame is the value given to [json.dumps]). *)
Record Socket : Type := { open : bool; sent : list PyValue }.

(** The attributes of [RemoteConnectionManager] the handlers touch;
    [_websocket] refers to a connection, [_pending_requests] to futures. *)
Record RemoteConnectionManager : Type := {
  _websocket : option nat;
  _pending_requests : gmap string nat;
  _connection_info : list (string * PyValue)
}.

(** The manager together with the objects it refers to. *)
Record World : Type := {
  manager : RemoteConnectionManager;
  sockets : gmap nat Socket;
  futures : gmap nat FutureState;
  next_future : nat
}.

Definition with_manager (w : World) (m : RemoteConnectionManager) : World :=
  {| manager := m; sockets := sockets w; futures := futures w;
     next_future := next_future w |}.

Definition with_sockets (w : World) (s : gmap nat Socket) : World :=
  {| manager := manager w; sockets := s; futures := futures w;
     next_future := next_future w |}.

Definition with_futures (w : World) (f : gmap nat FutureState) : World :=
  {| manager := manager w; sockets := sockets w; futures := f;
     next_future := next_future w |}.

Definition with_pending (w : World) (p : gmap string nat) : World :=
  with_manager w {| _websocket := _websocket (manager w);
                    _pending_requests := p;
                    _connection_info := _connection_info (manager w) |}.

Definition with_connection (w : World) (ws : option nat) (info : list (string * PyValue))
  : World :=
  with_manager w {| _websocket := ws;
                    _pending_requests := _pending_requests (manager w);
                    _connection_info := info |}.

(** What the transport makes of a [send]. *)
Inductive SendOutcome : Type :=
  | Sent
  | SendFailed (msg : string).

(** [await websocket.send(json.dumps(frame))] *)
Definition ws_send (w : World) (websocket : nat) (frame : PyValue) (outcome : SendOutcome)
  : Result World :=
  match sockets w !! websocket, outcome with
  | Some s, Sent =>
      if open s
      then Ok (with_sockets w
                 (<[websocket := {| open := true; sent := sent s ++ [frame] |}]> (sockets w)))
      else Raise (OtherException "ConnectionClosed")
  | Some _, SendFailed msg => Raise (OtherException msg)
  | None, _ => Raise (OtherException "ConnectionClosed")
  end.

(** [await websocket.close()], also the peer closing the transport. *)
Definition ws_close (w : World) (websocket : nat) : World :=
  with_sockets w
    (alter (fun s => {| open := false; sent := sent s |}) websocket (sockets w)).

(** [is_connected] *)
Definition is_connected (w : World) : bool :=
  match _websocket (manager w) with
  | None => false
  | Some ws =>
      match sockets w !! ws with
      | Some s => open s
      | None => false
      end
  end.

(** What [asyncio.wait_for(websocket.recv(), timeout=10.0)] followed by
    [json.loads] gives: no frame in time, a failed read, or a frame with
    what [json.loads] makes of it ([None] when it is not JSON). *)
Inductive Recv : Type :=
  | RecvTimeout
  | RecvFailed
  | RecvFrame (parsed : option PyValue).

Section WithToken.
Variable REMOTE_BROWSER_TOKEN : string.

(** [handler(websocket)] up to its message loop: the world after the
    authentication, and whether the loop is entered. *)
Definition handshake (w : World) (websocket : nat) (first : Recv) (reply : SendOutcome)
  : World * bool :=
  match first with
  | RecvTimeout | RecvFailed | RecvFrame None => (ws_close w websocket, false)
  | RecvFrame (Some auth_data) =>
      match Py.attr_get auth_data with
      | Raise _ => (ws_close w websocket, false)
      | Ok auth_data =>
          if negb (Py.str_eq (Py.get_default auth_data "type" PyNone) "auth") then
            match ws_send w websocket
                    (PyDict [("type"%string, PyStr "error");
                             ("message"%string, PyStr "需要認證")]) reply with
            | Ok w' => (ws_close w' websocket, false)
            | Raise _ => (ws_close w websocket, false)
            end
          else if negb (Py.str_eq (Py.get_default auth_data "token" PyNone)
                                  REMOTE_BROWSER_TOKEN) then
            match ws_send w websocket
                    (PyDict [("type"%string, PyStr "auth_failed");
                             ("message"%string, PyStr "Token 無效")]) reply with
            | Ok w' => (ws_close w' websocket, false)
            | Raise _ => (ws_close w websocket, false)
            end
          else
            let w :=
              with_connection w (Some websocket)
                [ ("client_id"%string,
                   Py.get_default auth_data "client_id" (PyStr "unknown"));
                  ("user_agent"%string,
                   Py.get_default auth_data "user_agent" (PyStr "unknown"));
                  ("connected_at"%string,
                   Py.get_default auth_data "timestamp" (PyStr "")) ] in
            match ws_send w websocket (PyDict [("type"%string, PyStr "auth_success")])
                    reply with
            | Ok w => (w, true)
            | Raise _ => (ws_close w websocket, false)
            end
      end
  end.
End WithToken.

(** The [finally] clause after the message loop of a connection. *)
Definition loop_end (w : World) : World := with_connection w None [].

(** [_handle_message], on what [json.loads(message)] gives. *)
Definition _handle_message (w : World) (message : option PyValue) : World :=
  match message with
  | None => w
  | Some data =>
      match Py.attr_get data with
      | Raise _ => w
      | Ok fields =>
          let msg_type := Py.get_default fields "type" PyNone in
          if Py.str_eq msg_type "response" then
            match Py.get_default fields "request_id" PyNone with
            | PyStr request_id =>
                match _pending_requests (manager w) !! request_id with
                | Some future =>
                    let w := with_pending w (delete request_id (_pending_requests (manager w))) in
                    match futures w !! future with
                    | Some FPending =>
                        with_futures w (<[future := FResult data]> (futures w))
                    | _ => w
                    end
                | None => w
                end
            | _ => w
            end
          else w
      end
  end.

(** [self._pending_requests.pop(request_id, None)] *)
Definition pop_pending (w : World) (request_id : string) : World :=
  with_pending w (delete request_id (_pending_requests (manager w))).

(** [future = loop.create_future(); self._pending_requests[request_id] = future] *)
Definition install (w : World) (request_id : string) : World * nat :=
  let future := next_future w in
  let w := {| manager := manager w; sockets := sockets w;
              futures := <[future := FPending]> (futures w);
              next_future := S future |} in
  (with_pending w (<[request_id := future]> (_pending_requests (manager w))), future).

(** [asyncio.Task.cancel] on a task suspended in [await future]: the
    future is cancelled, unless it is done already. *)
Definition cancel_future (w : World) (future : nat) : World :=
  match futures w !! future with
  | Some FPending => with_futures w (<[future := FCancelled]> (futures w))
  | _ => w
  end.

(** What the other tasks of the event loop do while a coroutine is
    suspended: a connection is accepted, a connection handler runs its
    handshake, the message loop hands a frame to [_handle_message], a
    message loop ends, a peer closes its transport, another call of
    [send_command] installs its slot (the frame that call writes is not
    recorded here), removes it again on its way out, or is cancelled
    while it waits for its reply (its future is cancelled, its slot
    stays). *)
Inductive Event : Type :=
  | EvConnect (websocket : nat)
  | EvHandshake (websocket : nat) (first : Recv) (reply : SendOutcome)
  | EvMessage (message : option PyValue)
  | EvLoopEnd (websocket : nat)
  | EvClose (websocket : nat)
  | EvInstall (request_id : string)
  | EvPop (request_id : string)
  | EvCancelled (request_id : string).

(** Whether, and at which of its two [await]s, the task running
    [send_command] is cancelled.  [asyncio.CancelledError] is a
    [BaseException]: neither [except asyncio.TimeoutError] nor
    [except Exception] catches it. *)
Inductive Cancellation : Type :=
  | NotCancelled
  | CancelledInSend
  | CancelledInWait.

Section Scheduling.
Variable REMOTE_BROWSER_TOKEN : string.

Definition step (w : World) (ev : Event) : World :=
  match ev with
  | EvConnect websocket =>
      with_sockets w (<[websocket := {| open := true; sent := [] |}]> (sockets w))
  | EvHandshake websocket first reply =>
      fst (handshake REMOTE_BROWSER_TOKEN w websocket first reply)
  | EvMessage message => _handle_message w message
  | EvLoopEnd _ => loop_end w
  | EvClose websocket => ws_close w websocket
  | EvInstall request_id => if is_connected w then fst (install w request_id) else w
  | EvPop request_id => pop_pending w request_id
  | EvCancelled request_id =>
      match _pending_requests (manager w) !! request_id with
      | Some future => cancel_future w future
      | None => w
      end
  end.

Definition run (w : World) (events : list Event) : World := fold_left step events w.

(** [send_command].  [request_id] is the text of the UUID drawn;
    [outcome] is what the transport makes of the [send]; [events] is
    what the other tasks do until the wait for the reply ends, which it
    does with the reply when the future holds one by then; otherwise the
    wait ends with the cancellation of the task when [cancel] is
    [CancelledInWait], and with a timeout when it is not.  With
    [CancelledInSend] the task is cancelled while the [send] that wrote
    the frame is awaited.  A cancellation leaves through neither
    [except] clause, so nothing is popped on that way out. *)
Definition send_command (w : World) (request_id : string) (action : string)
    (params : PyValue) (outcome : SendOutcome) (cancel : Cancellation)
    (events : list Event)
  : World * Result PyValue :=
  if negb (is_connected w) then (w, Raise (RuntimeError "無遠端 Browser Agent 連線"))
  else
    let '(w, future) := install w request_id in
    let command :=
      PyDict [ ("type"%string, PyStr "command"); ("request_id"%string, PyStr request_id);
               ("action"%string, PyStr action); ("params"%string, params) ] in
    match ws_send w (default O (_websocket (manager w))) command outcome with
    | Raise e => (pop_pending w request_id, Raise e)
    | Ok w =>
        match cancel with
        | CancelledInSend => (w, Raise CancelledError)
        | _ =>
            let w := run w events in
            match futures w !! future with
            | Some (FResult result) =>
                match Py.attr_get result with
                | Raise e => (pop_pending w request_id, Raise e)
                | Ok result =>
                    if negb (Py.truthy (Py.get_default result "success" (PyBool false)))
                    then
                      let error_msg := Py.get_default result "error" (PyStr "未知錯誤") in
                      (pop_pending w request_id,
                       Raise (RuntimeError ("遠端執行失敗: " +:+ Py.str error_msg)))
                    else (w, Ok (Py.get_default result "data" (PyDict [])))
                end
            | Some FPending =>
                match cancel with
                | CancelledInWait => (cancel_future w future, Raise CancelledError)
                | _ =>
                    let w := with_futures w (<[future := FCancelled]> (futures w)) in
                    (pop_pending w request_id, Raise TimeoutError)
                end
            | Some FCancelled | None => (w, Raise CancelledError)
            end
        end
    end.

(** [result.get(key, default)] on what [send_command] returned. *)
Definition reply_field (r : World * Result PyValue) (key : string) (default : PyValue)
  : World * Result PyValue :=
  (fst r, data ← snd r; fields ← Py.attr_get data; Ok (Py.get_default fields key default)).

(** [get_remote_url] (and [PageProxy.get_url]) *)
Definition get_remote_url (w : World) (request_id : string)
    (outcome : SendOutcome) (cancel : Cancellation) (events : list Event)
  : World * Result PyValue :=
  reply_field (send_command w request_id "get_url" (PyDict []) outcome cancel events)
    "url" (PyStr "").

(** [get_remote_title] (and [PageProxy.title]) *)
Definition get_remote_title (w : World) (request_id : string)
    (outcome : SendOutcome) (cancel : Cancellation) (events : list Event)
  : World * Result PyValue :=
  reply_field (send_command w request_id "get_title" (PyDict []) outcome cancel events)
    "title" (PyStr "").

(** [get_remote_viewport] (and [PageProxy.get_viewport_size]) *)
Definition get_remote_viewport (w : World) (request_id : string)
    (outcome : SendOutcome) (cancel : Cancellation) (events : list Event)
  : World * Result PyValue :=
  reply_field (send_command w request_id "get_viewport" (PyDict []) outcome cancel events)
    "viewport" PyNone.

End Scheduling.

End Remote.

(* ===================================================================== *)
(** * Statements of the specification, and sample inputs *)
(* ===================================================================== *)

Module Summary.
Import Schemas Utils.

(** The lines of the summary, part by part. *)
Definition kept (item : string * PyValue) : bool :=
  Py.truthy (snd item) && negb (String.eqb (fst item) "version_info").

Definition metadata_lines (r : ExecutionResult) : list string :=
  List.map (fun item => metadata_line (fst item) (snd item)) (List.filter kept (metadata r)).

Definition time_line (r : ExecutionResult) : string :=
  "⏱️ Execution Time: " +:+ execution_time r.

Definition code_line (r : ExecutionResult) : string :=
  "🔢 Return Code: " +:+ Py.str_of_int (returncode r).

Definition error_lines (r : ExecutionResult) : list string :=
  if success r then []
  else ["❌ Error: [" +:+ error_type r +:+ "] " +:+ error_message r].

Definition stdout_lines (r : ExecutionResult) : list string :=
  if String.eqb (stdout r) "" then []
  else ["📤 Standard Output:" +:+ Py.LF +:+ stdout r].

Definition stderr_lines (r : ExecutionResult) : list string :=
  if String.eqb (stderr r) "" then []
  else ["⚠️ Standard Error:" +:+ Py.LF +:+ stderr r].

Definition summary_lines (r : ExecutionResult) : list string :=
  metadata_lines r ++ [time_line r; code_line r]
  ++ error_lines r ++ stdout_lines r ++ stderr_lines r.

(** The summary as the specification words it: a line for every metadata
    entry whose key is not [version_info]. *)
Definition spec_metadata_lines (r : ExecutionResult) : list string :=
  List.map (fun item => metadata_line (fst item) (snd item))
    (List.filter (fun item => negb (String.eqb (fst item) "version_info")) (metadata r)).

Definition spec_summary (r : ExecutionResult) : string :=
  Py.join Py.LF
    (spec_metadata_lines r ++ [time_line r; code_line r]
     ++ error_lines r ++ stdout_lines r ++ stderr_lines r).

(** A file that was read and found empty, as [read_file] reports it. *)
Definition empty_file_result : ExecutionResult :=
  {| success := true; stdout := ""; stderr := ""; returncode := 0;
     execution_time := "0.001s";
     metadata := [("file_path"%string, PyStr "/tmp/a.txt"); ("total_lines"%string, PyInt 0)];
     error_type := ""; error_message := "" |}.

End Summary.

Module AuthSpec.
Import Security Tools.

(** Some pattern of the list matches the name. *)
Definition matches_any (fnmatch : string -> string -> bool) (tool_name : string)
    (patterns : list string) : bool :=
  existsb (fnmatch tool_name) patterns.

(** [canInvoke] as the specification words it: exclusion first, then the
    wildcard or a matching allowed pattern. *)
Definition canInvoke (fnmatch : string -> string -> bool) (request : Request)
    (tool_name : string) : bool :=
  if matches_any fnmatch tool_name (get_excluded_tools request) then false
  else Py.contains (get_allowed_tools request) "*"
       || matches_any fnmatch tool_name (get_allowed_tools request).

(** The name under which a catalog entry is listed. *)
Definition listed_name (tool : list (string * PyValue)) : string :=
  match Py.get_default tool "name" (PyStr "") with
  | PyStr s => s
  | _ => ""
  end.

(** A token as a header carries it: not empty, no white space. *)
Definition is_token (x : string) : bool :=
  negb (String.eqb x "") && forallb (fun c => negb (Py.is_space c)) (list_ascii_of_string x).

(** The request with another [Authorization] header. *)
Definition with_authorization (request : Request) (header : string) : Request :=
  {| authorization := Some header; url_path := url_path request;
     json_body := json_body request; state := state request |}.

(** The request as [verify_api_key] stamps it for a known token. *)
Definition stamped (request : Request) (token : string) (config : KeyConfig) : Request :=
  {| authorization := authorization request; url_path := url_path request;
     json_body := json_body request;
     state := {| allowed_tools := Some (default [] (tools config));
                 excluded_tools := Some (default [] (exclude_tools config));
                 api_key := Some token |} |}.

(** The call the specification describes for a handler: with the scope
    exactly when the handler declares a [request] parameter. *)
Definition spec_receives_request (h : ToolHandler) : bool :=
  Py.contains (parameters h) "request".

(** What the specification says of a call of [execute] on a registered
    name: the handler receives the request exactly when it declares one. *)
Definition spec_execute (self : ToolRegistry) (name : string) (args : PyValue)
    (request : option Request) : Prop :=
  forall tool,
    Py.dict_get (_tools self) name = Some tool ->
    if spec_receives_request (handler tool)
    then exists r, execute self (PyStr name) args request
                   = call (handler tool) (CallArgsRequest args r)
    else execute self (PyStr name) args request = call (handler tool) (CallArgs args).

(** What the specification says of registering a name that is taken: the
    definition in the catalog stays as it was. *)
Definition spec_register_keeps (self : ToolRegistry) (name description : string)
    (input_schema : PyValue) (handler : ToolHandler) : Prop :=
  is_Some (Py.dict_get (_tools self) name) ->
  Py.dict_get (_tools (register self name description input_schema handler)) name
  = Py.dict_get (_tools self) name.

End AuthSpec.

Module Samples.
Import Schemas Security Tools App.

(** A matcher for the patterns of the examples: [*], [?] and literal
    characters, case-sensitive, against the whole name (what [fnmatch]
    does on a POSIX system for a pattern without bracket expression). *)
Fixpoint glob_match (pattern : string) : string -> bool :=
  match pattern with
  | EmptyString => fun name => String.eqb name ""
  | String p pattern' =>
      if Ascii.eqb p "*" then
        fix star (name : string) : bool :=
          glob_match pattern' name
          || match name with
             | EmptyString => false
             | String _ name' => star name'
             end
      else if Ascii.eqb p "?" then
        fun name =>
          match name with
          | EmptyString => false
          | String _ name' => glob_match pattern' name'
          end
      else
        fun name =>
          match name with
          | EmptyString => false
          | String c name' => Ascii.eqb p c && glob_match pattern' name'
          end
  end.

(** [fnmatch.fnmatch(name, pattern)] for these patterns. *)
Definition glob (name pattern : string) : bool := glob_match pattern name.

Definition result_ok (text : string) : ExecutionResult :=
  {| success := true; stdout := text; stderr := ""; returncode := 0;
     execution_time := "0.000s"; metadata := [];
     error_type := ""; error_message := "" |}.

Definition result_failed (kind message : string) : ExecutionResult :=
  {| success := false; stdout := ""; stderr := ""; returncode := 1;
     execution_time := "0.000s"; metadata := [];
     error_type := kind; error_message := message |}.

(** [async def probe(args, request=None)]: reports how it was called. *)
Definition probe : ToolHandler :=
  {| parameters := ["args"%string; "request"%string];
     call := fun c =>
       match c with
       | CallArgs _ => Ok (result_ok "called with args")
       | CallArgsRequest _ _ => Ok (result_ok "called with args and request")
       end |}.

(** [async def echo(args)] *)
Definition echo : ToolHandler :=
  {| parameters := ["args"%string];
     call := fun c =>
       match c with
       | CallArgs args => Ok (result_ok (Py.str args))
       | CallArgsRequest _ _ =>
           Raise (TypeError "echo() got an unexpected keyword argument 'request'")
       end |}.

(** [async def web_click(args)]: the remote agent does not answer. *)
Definition web_click : ToolHandler :=
  {| parameters := ["args"%string];
     call := fun _ => Ok (result_failed "TimeoutError" "no reply from the agent") |}.

Definition schema : PyValue := PyDict [("type"%string, PyStr "object")].

Definition sample_registry : ToolRegistry :=
  register
    (register
       (register empty_registry "probe" "reports its call" schema probe)
       "echo" "returns its arguments" schema echo)
    "web_click" "clicks in the remote browser" schema web_click.

(** One token [T], allowed everything but the [web_*] tools. *)
Definition config_T : KeyConfig :=
  {| tools := Some ["*"%string]; exclude_tools := Some ["web_*"%string];
     gmail_account := None |}.

Definition sample_keys : list (string * KeyConfig) := [("T"%string, config_T)].

(** One token [W], allowed the [web_*] tools only. *)
Definition config_W : KeyConfig :=
  {| tools := Some ["web_*"%string]; exclude_tools := None; gmail_account := None |}.

Definition web_keys : list (string * KeyConfig) := [("W"%string, config_W)].

Definition tools_call (tool_name : string) : PyValue :=
  PyDict [ ("jsonrpc"%string, PyStr "2.0"); ("id"%string, PyInt 7);
           ("method"%string, PyStr "tools/call");
           ("params"%string,
            PyDict [("name"%string, PyStr tool_name); ("arguments"%string, PyDict [])]) ].

Definition post (header : option string) (body : PyValue) : Request :=
  {| authorization := header; url_path := "/mcp"; json_body := Some body;
     state := empty_state |}.

End Samples.

Module BridgeSpec.
Import Remote.

(** The table of pending calls of a world. *)
Definition pending (w : World) : gmap string nat := _pending_requests (manager w).

(** The frames of a session. *)
Definition auth_fields (token client_id : string) : list (string * PyValue) :=
  [ ("type"%string, PyStr "auth"); ("token"%string, PyStr token);
    ("client_id"%string, PyStr client_id);
    ("user_agent"%string, PyStr "agent/1.0");
    ("timestamp"%string, PyStr "2025-01-01T00:00:00") ].

Definition auth_frame (token client_id : string) : PyValue :=
  PyDict (auth_fields token client_id).

Definition command_frame (request_id action : string) (params : PyValue) : PyValue :=
  PyDict [ ("type"%string, PyStr "command"); ("request_id"%string, PyStr request_id);
           ("action"%string, PyStr action); ("params"%string, params) ].

Definition response_frame (request_id : string) (rest : list (string * PyValue)) : PyValue :=
  PyDict (("type"%string, PyStr "response")
          :: ("request_id"%string, PyStr request_id) :: rest).

(** The frame is an [auth] frame carrying the configured token. *)
Definition authenticates (token : string) (auth_data : list (string * PyValue)) : bool :=
  Py.str_eq (Py.get_default auth_data "type" PyNone) "auth"
  && Py.str_eq (Py.get_default auth_data "token" PyNone) token.

(** The event hands [_handle_message] a response to [request_id]. *)
Definition is_reply_to (request_id : string) (ev : Event) : bool :=
  match ev with
  | EvMessage (Some (PyDict fields)) =>
      Py.str_eq (Py.get_default fields "type" PyNone) "response"
      && Py.str_eq (Py.get_default fields "request_id" PyNone) request_id
  | _ => false
  end.

(** The other calls of [send_command] have drawn other UUIDs. *)
Definition foreign (request_id : string) (ev : Event) : bool :=
  match ev with
  | EvInstall r | EvPop r | EvCancelled r => negb (String.eqb r request_id)
  | _ => true
  end.

(** Every future in the table has been created. *)
Definition well_formed (w : World) : Prop :=
  forall request_id future,
    pending w !! request_id = Some future -> (future < next_future w)%nat.

(** What a call of [send_command] depends on while it is suspended: the
    table, the futures and the counter of futures. *)
Definition calls (w : World) : gmap string nat * gmap nat FutureState * nat :=
  (pending w, futures w, next_future w).

(** The slot of [request_id] is installed and its future waits; no other
    slot refers to that future. *)
Definition Waiting (request_id : string) (future : nat)
    (c : gmap string nat * gmap nat FutureState * nat) : Prop :=
  let '(p, f, n) := c in
  (future < n)%nat /\ p !! request_id = Some future /\ f !! future = Some FPending
  /\ forall r x, p !! r = Some x -> x = future -> r = request_id.

(** The slot of [request_id] is gone and its future holds [data]; no slot
    refers to that future. *)
Definition Settled (request_id : string) (future : nat) (data : PyValue)
    (c : gmap string nat * gmap nat FutureState * nat) : Prop :=
  let '(p, f, n) := c in
  (future < n)%nat /\ p !! request_id = None /\ f !! future = Some (FResult data)
  /\ forall r x, p !! r = Some x -> x <> future.

(** The world before any connection. *)
Definition initial : World :=
  {| manager := {| _websocket := None; _pending_requests := ∅; _connection_info := [] |};
     sockets := ∅; futures := ∅; next_future := O |}.

(** What the specification says of a handshake that succeeds while
    another connection is the active one: that connection is closed and
    none of its pending calls is left waiting. *)
Definition spec_replacement (token : string) (w : World) (websocket : nat)
    (first : Recv) (reply : SendOutcome) : Prop :=
  forall old,
    _websocket (manager w) = Some old -> old <> websocket ->
    snd (handshake token w websocket first reply) = true ->
    let w' := fst (handshake token w websocket first reply) in
    (open <$> sockets w' !! old) = Some false
    /\ forall request_id future,
         pending w !! request_id = Some future ->
         pending w' !! request_id = None
         /\ futures w' !! future <> Some FPending.

(** Agent [A1] is connected and a call [r1] waits for its reply; a second
    agent has just opened a connection. *)
Definition one_call_in_flight : World :=
  run "secret" initial
    [ EvConnect 1; EvHandshake 1 (RecvFrame (Some (auth_frame "secret" "A1"))) Sent;
      EvInstall "r1"; EvConnect 2 ].

(** Agent [A1] is connected and no call is in flight. *)
Definition connected_world : World :=
  run "secret" initial
    [ EvConnect 1; EvHandshake 1 (RecvFrame (Some (auth_frame "secret" "A1"))) Sent ].

End BridgeSpec.

Module RegistrySpec.
Import Security Tools.

(** The catalog has one entry per name, filed under the name it carries. *)
Definition registry_ok (self : ToolRegistry) : Prop :=
  NoDup (Py.dict_keys (_tools self))
  /\ Forall (fun entry => name (snd entry) = fst entry) (_tools self).

(** The registry after the decorators of the tool modules have run, one
    after the other. *)
Definition register_all (self : ToolRegistry) (definitions : list ToolDefinition)
  : ToolRegistry :=
  fold_left
    (fun r d => register r (name d) (description d) (input_schema d) (handler d))
    definitions self.

(** The entry [list_tools] shows for a definition. *)
Definition listing (name description : string) (input_schema : PyValue)
  : list (string * PyValue) :=
  [ ("name"%string, PyStr name); ("description"%string, PyStr description);
    ("inputSchema"%string, input_schema) ].

(** The call [execute] makes when it is given a request. *)
Definition call_with (h : ToolHandler) (args : PyValue) (request : Request)
  : Result Schemas.ExecutionResult :=
  if Py.contains (parameters h) "request"
  then call h (CallArgsRequest args request)
  else call h (CallArgs args).

End RegistrySpec.

Module EndpointSpec.
Import Security Tools App.

Definition has_key (d : list (string * PyValue)) (key : string) : bool :=
  match Py.dict_get d key with
  | Some _ => true
  | None => false
  end.

(** A JSON-RPC 2.0 answer: version ["2.0"] and a [result] or an [error],
    not both. *)
Definition is_envelope (body : PyValue) : bool :=
  match body with
  | PyDict d =>
      Py.str_eq (Py.get_default d "jsonrpc" PyNone) "2.0"
      && xorb (has_key d "result") (has_key d "error")
  | _ => false
  end.

(** The [id] of the body of a request, [None] when there is none. *)
Definition request_id_of (request : Request) : PyValue :=
  match json_body request with
  | Some (PyDict body) => Py.get_default body "id" PyNone
  | _ => PyNone
  end.

(** [error.code] of an answer. *)
Definition error_code (body : PyValue) : option PyValue :=
  match body with
  | PyDict d =>
      match Py.dict_get d "error" with
      | Some (PyDict e) => Py.dict_get e "code"
      | _ => None
      end
  | _ => None
  end.

(** The request with another body. *)
Definition with_body (request : Request) (body : option PyValue) : Request :=
  {| authorization := authorization request; url_path := url_path request;
     json_body := body; state := state request |}.

(** The code under which [mcp_endpoint] reports an exception of the
    dispatch. *)
Definition reported_code (e : Exn) : Z :=
  match e with
  | MCPError code _ _ => code
  | ValueError _ => -32602
  | _ => -32603
  end.

(** The message under which it reports it. *)
Definition reported_message (e : Exn) : string :=
  match e with
  | MCPError _ message _ => message
  | ValueError msg => "Invalid params: " +:+ msg
  | _ => "Internal error: " +:+ Py.exn_str e
  end.

(** How [mcp_endpoint] wraps what the dispatch returns or raises. *)
Definition wrap (req_id : PyValue) (attempt : Result PyValue) : Result PyValue :=
  match attempt with
  | Ok result =>
      Ok (PyDict [ ("jsonrpc"%string, PyStr "2.0"); ("id"%string, req_id);
                   ("result"%string, result) ])
  | Raise e =>
      if Py.is_exception e then
        Ok (PyDict
              [ ("jsonrpc"%string, PyStr "2.0"); ("id"%string, req_id);
                ("error"%string,
                 PyDict (("code"%string, PyInt (reported_code e))
                         :: ("message"%string, PyStr (reported_message e))
                         :: match e with
                            | MCPError _ _ data => [("data"%string, data)]
                            | _ => []
                            end)) ])
      else Raise e
  end.

(** The answer to a body that is not JSON. *)
Definition parse_error : PyValue :=
  PyDict [ ("jsonrpc"%string, PyStr "2.0"); ("id"%string, PyNone);
           ("error"%string,
            PyDict [ ("code"%string, PyInt (-32700));
                     ("message"%string, PyStr "Parse error: Invalid JSON") ]) ].

(** The three methods of the endpoint. *)
Definition known_method (method : PyValue) : bool :=
  Py.str_eq method "initialize" || Py.str_eq method "tools/list"
  || Py.str_eq method "tools/call".

End EndpointSpec.

Module HeaderSpec.

(** Nothing but white space. *)
Definition all_space (s : string) : bool :=
  forallb Py.is_space (list_ascii_of_string s).

End HeaderSpec.

Module TableSpec.
Import Remote BridgeSpec.

(** The table of pending calls is clean: each slot refers to a future
    that has been created and still waits, and no two slots refer to the
    same future. *)
Definition table_ok (w : World) : Prop :=
  forall request_id future,
    pending w !! request_id = Some future ->
    (future < next_future w)%nat
    /\ futures w !! future = Some FPending
    /\ forall other, pending w !! other = Some future -> other = request_id.



(** The event is not the cancellation of a caller. *)
Definition no_cancellation (ev : Event) : bool :=
  match ev with
  | EvCancelled _ => false
  | _ => true
  end.

(** The first frame is an [auth] frame that carries the configured token. *)
Definition accepted (token : string) (first : Recv) : bool :=
  match first with
  | RecvFrame (Some (PyDict auth_data)) => authenticates token auth_data
  | _ => false
  end.

(** A response frame for [request_id]. *)
Definition is_response (request_id : string) (message : option PyValue) : bool :=
  is_reply_to request_id (EvMessage message).

End TableSpec.

Module MoreSamples.
Import Schemas Security Tools App AuthSpec Samples Remote BridgeSpec.

(** [async def strict(args)]: refuses its arguments. *)
Definition strict : ToolHandler :=
  {| parameters := ["args"%string];
     call := fun _ => Raise (ValueError "path is required") |}.

Definition strict_registry : ToolRegistry :=
  register sample_registry "strict" "checks its arguments" schema strict.

(** A [tools/call] whose [params] name no tool, and a call of a method
    the endpoint does not have. *)
Definition nameless_call : PyValue :=
  PyDict [ ("jsonrpc"%string, PyStr "2.0"); ("id"%string, PyInt 8);
           ("method"%string, PyStr "tools/call");
           ("params"%string, PyDict [("arguments"%string, PyDict [])]) ].

Definition ping : PyValue :=
  PyDict [ ("jsonrpc"%string, PyStr "2.0"); ("id"%string, PyStr "a");
           ("method"%string, PyStr "ping") ].

(** One token [M], bound to a mailbox. *)
Definition config_M : KeyConfig :=
  {| tools := Some ["gmail_*"%string]; exclude_tools := None;
     gmail_account := Some "a@example.com"%string |}.

Definition mail_keys : list (string * KeyConfig) := [("M"%string, config_M)].

Definition mail_accounts : list (string * list (string * string)) :=
  [ ("a@example.com"%string,
     [ ("client_id"%string, "id"%string); ("client_secret"%string, "s"%string);
       ("refresh_token"%string, "r"%string) ]) ].

(** Agent [A1] is connected and two calls wait for their replies. *)
Definition two_calls_in_flight : World :=
  run "secret" initial
    [ EvConnect 1; EvHandshake 1 (RecvFrame (Some (auth_frame "secret" "A1"))) Sent;
      EvInstall "r1"; EvInstall "r2" ].

Definition reply_fields (request_id : string) (rest : list (string * PyValue))
  : list (string * PyValue) :=
  ("type"%string, PyStr "response") :: ("request_id"%string, PyStr request_id) :: rest.

End MoreSamples.
(* ===================================================================== *)
(** * The rendered summary and the response envelope: proofs *)
(* ===================================================================== *)

Section SummaryProofs.
Import Schemas Utils Summary.

Lemma metadata_loop (items : list (string * PyValue)) (lines : list string) :
  fold_left metadata_step items lines
  = lines ++ List.map (fun item => metadata_line (fst item) (snd item))
                      (List.filter kept items).
Proof.
  revert lines. induction items as [|[key value] items IH]; intros lines; simpl.
  - by rewrite app_nil_r.
  - rewrite IH. unfold kept at 2. simpl. rewrite orb_false_r.
    destruct (Py.truthy value && negb (String.eqb key "version_info")); simpl.
    + by rewrite <- app_assoc.
    + done.
Qed.

(** C8 (as the code has it): the summary is the join, with newlines, of
    one line per metadata entry whose value is truthy and whose key is not
    [version_info], then the Execution Time line, the Return Code line,
    the Error line exactly when [success] is false, the Standard Output
    block exactly when [stdout] is not empty and the Standard Error block
    exactly when [stderr] is not empty, in this order. *)
Theorem to_text_output_summary (r : ExecutionResult) :
  to_text_output r = Py.join Py.LF (summary_lines r)
  /\ (error_lines r = [] <-> success r = true)
  /\ (stdout_lines r = [] <-> stdout r = ""%string)
  /\ (stderr_lines r = [] <-> stderr r = ""%string).
Proof.
  split.
  - unfold to_text_output, summary_lines, metadata_lines, error_lines,
      stdout_lines, stderr_lines, time_line, code_line.
    rewrite metadata_loop. simpl.
    destruct (success r), (String.eqb (stdout r) ""), (String.eqb (stderr r) "");
      simpl; rewrite <- ?app_assoc; simpl; reflexivity.
  - unfold error_lines, stdout_lines, stderr_lines.
    repeat split; intros H.
    + destruct (success r); [done | discriminate].
    + by rewrite H.
    + destruct (String.eqb_spec (stdout r) ""); [done | discriminate].
    + by rewrite H.
    + destruct (String.eqb_spec (stderr r) ""); [done | discriminate].
    + by rewrite H.
Qed.

(** C8 (as the specification words it) fails: the entry [total_lines = 0]
    of an empty file has a key other than [version_info] and gets no line. *)
Lemma to_text_output_skips_falsy_metadata :
  to_text_output empty_file_result <> spec_summary empty_file_result
  /\ spec_metadata_lines empty_file_result
     = ["📁 File Path: /tmp/a.txt"%string; "📁 Total Lines: 0"%string]
  /\ to_text_output empty_file_result
     = Py.join Py.LF ["📁 File Path: /tmp/a.txt"%string;
                      "⏱️ Execution Time: 0.001s"%string;
                      "🔢 Return Code: 0"%string].
Proof. split; [by vm_compute | split; by vm_compute]. Qed.

Lemma format_tool_result_eq (r : ExecutionResult) :
  format_tool_result r
  = [ ("content"%string,
       PyList [PyDict [("type"%string, PyStr "text");
                       ("text"%string, PyStr (to_text_output r))]]);
      ("isError"%string, PyBool (negb (success r))) ]
    ++ match metadata r with
       | [] => []
       | _ :: _ => [("metadata"%string, PyDict (metadata r))]
       end.
Proof. unfold format_tool_result. by destruct (metadata r). Qed.

(** C10: the envelope holds [content] and [isError], and the key
    [metadata] exactly when the metadata mapping of the record is not
    empty; it then maps to that mapping. *)
Theorem format_tool_result_metadata_key (r : ExecutionResult) :
  format_tool_result r
  = [ ("content"%string,
       PyList [PyDict [("type"%string, PyStr "text");
                       ("text"%string, PyStr (to_text_output r))]]);
      ("isError"%string, PyBool (negb (success r))) ]
    ++ match metadata r with
       | [] => []
       | _ :: _ => [("metadata"%string, PyDict (metadata r))]
       end
  /\ (Py.dict_get (format_tool_result r) "metadata" = None <-> metadata r = [])
  /\ (Py.dict_keys (format_tool_result r) = ["content"%string; "isError"%string]
      <-> metadata r = []).
Proof.
  unfold format_tool_result. destruct (metadata r) as [|item items]; simpl.
  - repeat split; done.
  - repeat split; intros; discriminate.
Qed.

End SummaryProofs.

(* ===================================================================== *)
(** * Authorization: proofs *)
(* ===================================================================== *)

Section AuthorizationProofs.
Import Schemas Utils Security Tools App AuthSpec.

Variable fnmatch : string -> string -> bool.

Lemma bind_ok {A B : Type} (a : A) (k : A -> Result B) : (Ok a ≫= k) = k a.
Proof. reflexivity. Qed.

Lemma any_fnmatch_str (s : string) (patterns : list string) :
  any_fnmatch fnmatch (PyStr s) patterns = Ok (matches_any fnmatch s patterns).
Proof.
  induction patterns as [|pattern rest IH]; simpl; [done|].
  rewrite ?bind_ok. destruct (fnmatch s pattern); simpl; [done | exact IH].
Qed.

Lemma is_tool_allowed_str (request : Request) (s : string) :
  is_tool_allowed fnmatch request (PyStr s) = Ok (canInvoke fnmatch request s).
Proof.
  unfold is_tool_allowed, canInvoke.
  assert (match get_excluded_tools request with
          | [] => Ok false
          | _ :: _ => any_fnmatch fnmatch (PyStr s) (get_excluded_tools request)
          end = Ok (matches_any fnmatch s (get_excluded_tools request))) as ->.
  { destruct (get_excluded_tools request) eqn:E; [done|]. apply any_fnmatch_str. }
  rewrite ?bind_ok.
  destruct (matches_any fnmatch s (get_excluded_tools request)); [done|].
  destruct (Py.contains (get_allowed_tools request) "*"); [done|].
  apply any_fnmatch_str.
Qed.

Lemma filter_allowed_tools_cons (request : Request) (tool : list (string * PyValue))
    (rest kept : list (list (string * PyValue))) (s : string) :
  Py.get_default tool "name" (PyStr "") = PyStr s ->
  filter_allowed_tools fnmatch request rest = Ok kept ->
  filter_allowed_tools fnmatch request (tool :: rest)
  = Ok (if canInvoke fnmatch request s then tool :: kept else kept).
Proof.
  intros Hname Hrest. cbn [filter_allowed_tools]. rewrite Hname, Hrest.
  unfold is_allowed, is_excluded, canInvoke.
  rewrite !any_fnmatch_str.
  destruct (Py.contains (get_allowed_tools request) "*"),
    (matches_any fnmatch s (get_allowed_tools request)),
    (matches_any fnmatch s (get_excluded_tools request)); reflexivity.
Qed.

Lemma filter_allowed_tools_catalog (request : Request) (registry : ToolRegistry) :
  filter_allowed_tools fnmatch request (list_tools registry)
  = Ok (List.filter (fun tool => canInvoke fnmatch request (listed_name tool))
                    (list_tools registry)).
Proof.
  unfold list_tools.
  induction (Py.dict_values (_tools registry)) as [|t ts IH]; [done|].
  cbn [List.map List.filter].
  erewrite filter_allowed_tools_cons; [reflexivity | reflexivity | exact IH].
Qed.

Lemma tools_call_params (body params : list (string * PyValue)) (tool_name : PyValue) :
  Py.dict_get body "params" = Some (PyDict params) ->
  Py.dict_get params "name" = Some tool_name ->
  Py.attr_get (Py.get_default body "params" (PyDict [])) = Ok params
  /\ Py.get_default params "name" PyNone = tool_name.
Proof.
  intros Hp Hn. unfold Py.get_default. by rewrite Hp, Hn.
Qed.

(** C1: exclusion is evaluated before inclusion.  [is_tool_allowed] is
    false as soon as an excluded pattern matches the name, whatever the
    allowed patterns are; otherwise it is true exactly when ["*"] is among
    the allowed patterns or an allowed pattern matches.  [tools/list]
    keeps the catalog entries for which this holds, so a tool matched by
    an excluded pattern is not listed, and [tools/call] on it is denied
    with code -32603. *)
Theorem exclusion_before_inclusion (registry : ToolRegistry) (request : Request)
    (tool_name : string) :
  let excluded := matches_any fnmatch tool_name (get_excluded_tools request) in
  let allowed := Py.contains (get_allowed_tools request) "*"
                 || matches_any fnmatch tool_name (get_allowed_tools request) in
  is_tool_allowed fnmatch request (PyStr tool_name)
  = Ok (if excluded then false else allowed)
  /\ _handle_tools_list fnmatch registry request
     = Ok (PyDict [("tools"%string,
                    PyList (List.map PyDict
                      (List.filter
                         (fun tool => canInvoke fnmatch request (listed_name tool))
                         (list_tools registry))))])
  /\ (excluded = true ->
      is_tool_allowed fnmatch request (PyStr tool_name) = Ok false
      /\ (forall tool,
            In tool (List.filter
                       (fun tool => canInvoke fnmatch request (listed_name tool))
                       (list_tools registry)) ->
            listed_name tool <> tool_name)
      /\ (forall body params,
            Py.dict_get body "params" = Some (PyDict params) ->
            Py.dict_get params "name" = Some (PyStr tool_name) ->
            _handle_tools_call fnmatch registry body request
            = Raise (MCPError (-32603)
                       ("Permission denied: Tool '" +:+ tool_name
                        +:+ "' is not allowed for this API Key")
                       (PyDict [("tool"%string, PyStr tool_name)])))).
Proof.
  intros excluded allowed. split; [|split].
  - apply is_tool_allowed_str.
  - unfold _handle_tools_list. by rewrite filter_allowed_tools_catalog.
  - intros Hex.
    assert (canInvoke fnmatch request tool_name = false) as Hno.
    { unfold canInvoke. fold excluded. by rewrite Hex. }
    split; [|split].
    + by rewrite is_tool_allowed_str, Hno.
    + intros tool Hin Heq. apply filter_In in Hin as [_ Hcan].
      rewrite Heq, Hno in Hcan. discriminate.
    + intros body params Hp Hn. unfold _handle_tools_call.
      destruct (tools_call_params body params (PyStr tool_name) Hp Hn) as [Ha Hb].
      rewrite Ha. cbn [mbind result_bind Py.bind]. rewrite Hb.
      rewrite is_tool_allowed_str, Hno. reflexivity.
Qed.

(** ** The bearer header *)

Lemma split_aux_word (x : string) (cur : list ascii) :
  forallb (fun c => negb (Py.is_space c)) (list_ascii_of_string x) = true ->
  Py.split_aux cur x
  = match cur, x with
    | [], EmptyString => []
    | _, _ => [string_of_list_ascii (rev cur ++ list_ascii_of_string x)]
    end.
Proof.
  revert cur. induction x as [|c x IH]; intros cur Hx.
  - simpl. destruct cur; [done|]. by rewrite app_nil_r.
  - simpl in Hx. apply andb_prop in Hx as [Hc Hx].
    apply negb_true_iff in Hc. cbn [Py.split_aux]. rewrite Hc.
    rewrite (IH (c :: cur) Hx). cbn [rev list_ascii_of_string].
    rewrite <- app_assoc. cbn [app]. by destruct cur.
Qed.

Lemma split_token (x : string) :
  is_token x = true -> Py.split_aux [] x = [x].
Proof.
  unfold is_token. intros H. apply andb_prop in H as [Hne Hx].
  rewrite (split_aux_word x [] Hx). destruct x as [|c x]; [discriminate|].
  cbn [rev app]. by rewrite string_of_list_ascii_of_string.
Qed.

Lemma split_bearer (x : string) :
  is_token x = true -> Py.split ("bearer " +:+ x) = ["bearer"%string; x].
Proof. intros H. unfold Py.split. simpl. by rewrite split_token. Qed.

Lemma split_other_scheme (x : string) :
  is_token x = true -> Py.split ("Token " +:+ x) = ["Token"%string; x].
Proof. intros H. unfold Py.split. simpl. by rewrite split_token. Qed.

(** C9: with tokens configured, the header [bearer X] passes the check of
    the scheme and [X] is looked up in the token table (a known token
    stamps the request, an unknown one is refused with 403), while the
    header [Token X] is refused with 401. *)
Theorem bearer_scheme_any_case (API_KEYS : list (string * KeyConfig))
    (registry : ToolRegistry) (request : Request) (X : string) :
  API_KEYS <> [] ->
  is_token X = true ->
  verify_api_key API_KEYS (with_authorization request ("bearer " +:+ X))
  = match Py.dict_get API_KEYS X with
    | Some config =>
        Ok (stamped (with_authorization request ("bearer " +:+ X)) X config,
            default [] (tools config))
    | None => Raise (HTTPException 403 "Invalid API Key" [])
    end
  /\ verify_api_key API_KEYS (with_authorization request ("Token " +:+ X))
     = Raise (HTTPException 401 "Invalid Authorization format. Expected 'Bearer <token>'"
                [("WWW-Authenticate"%string, "Bearer"%string)])
  /\ status_code <$> post_mcp API_KEYS fnmatch registry
                       (with_authorization request ("Token " +:+ X))
     = Ok 401.
Proof.
  intros Hkeys HX. destruct API_KEYS as [|entry keys]; [done|].
  assert (verify_api_key (entry :: keys) (with_authorization request ("Token " +:+ X))
          = Raise (HTTPException 401
                     "Invalid Authorization format. Expected 'Bearer <token>'"
                     [("WWW-Authenticate"%string, "Bearer"%string)])) as Hother.
  { unfold verify_api_key, with_authorization. cbn [authorization].
    rewrite (split_other_scheme X HX). reflexivity. }
  split; [|split].
  - unfold verify_api_key, with_authorization, stamped. cbn [authorization].
    rewrite (split_bearer X HX). cbn [length nth Nat.eqb negb orb].
    change (Py.lower "bearer") with "bearer"%string. cbn [String.eqb Ascii.eqb Bool.eqb negb].
    destruct (Py.dict_get (entry :: keys) X); reflexivity.
  - exact Hother.
  - unfold post_mcp, mcp_endpoint. rewrite Hother. reflexivity.
Qed.

End AuthorizationProofs.

(* ===================================================================== *)
(** * Registry and dispatch: proofs *)
(* ===================================================================== *)

Section DispatchProofs.
Import Schemas Utils Security Tools App AuthSpec.

Lemma dict_get_set_eq {V : Type} (d : list (string * V)) (key : string) (v : V) :
  Py.dict_get (Py.dict_set d key v) key = Some v.
Proof.
  induction d as [|[k x] d IH]; simpl.
  - by rewrite String.eqb_refl.
  - destruct (String.eqb k key) eqn:E; simpl; rewrite E; [done | exact IH].
Qed.

Lemma dict_get_set_ne {V : Type} (d : list (string * V)) (key other : string) (v : V) :
  key <> other -> Py.dict_get (Py.dict_set d key v) other = Py.dict_get d other.
Proof.
  intros Hne. induction d as [|[k x] d IH]; simpl.
  - destruct (String.eqb_spec key other); [done | reflexivity].
  - destruct (String.eqb_spec k key) as [->|Hk]; simpl.
    + destruct (String.eqb_spec key other); [done | reflexivity].
    + destruct (String.eqb k other); [done | exact IH].
Qed.

Lemma dict_keys_set_present {V : Type} (d : list (string * V)) (key : string) (v : V) :
  is_Some (Py.dict_get d key) ->
  Py.dict_keys (Py.dict_set d key v) = Py.dict_keys d.
Proof.
  induction d as [|[k x] d IH]; simpl; intros H.
  - by destruct H.
  - destruct (String.eqb k key); simpl; [done|]. f_equal. by apply IH.
Qed.

Lemma dict_keys_set_absent {V : Type} (d : list (string * V)) (key : string) (v : V) :
  Py.dict_get d key = None ->
  Py.dict_keys (Py.dict_set d key v) = Py.dict_keys d ++ [key].
Proof.
  induction d as [|[k x] d IH]; simpl; intros H; [done|].
  destruct (String.eqb k key); [discriminate|]. simpl. f_equal. by apply IH.
Qed.

(** C7 (as the code has it): registering a name that is already in the
    catalog does not fail; the new definition takes the place of the old
    one, the catalog keeps its names and their order, and every other
    definition is untouched. *)
Theorem register_twice_replaces (self : ToolRegistry) (name description : string)
    (input_schema : PyValue) (handler : ToolHandler) :
  is_Some (Py.dict_get (_tools self) name) ->
  let registry := register self name description input_schema handler in
  Py.dict_get (_tools registry) name
  = Some {| Tools.name := name; Tools.description := description;
            Tools.input_schema := input_schema; Tools.handler := handler |}
  /\ Py.dict_keys (_tools registry) = Py.dict_keys (_tools self)
  /\ (forall other, name <> other ->
        Py.dict_get (_tools registry) other = Py.dict_get (_tools self) other).
Proof.
  intros Hin registry. unfold registry, register. cbn [_tools].
  split; [apply dict_get_set_eq | split].
  - by apply dict_keys_set_present.
  - intros other Hne. by apply dict_get_set_ne.
Qed.

(** [execute] on a name that is a string, with or without a request. *)
Lemma execute_passes_request (self : ToolRegistry) (name : string) (args : PyValue)
    (request : option Request) :
  execute self (PyStr name) args request
  = match Py.dict_get (_tools self) name with
    | None => Raise (MCPError (-32601) ("Tool not found: " +:+ name) PyNone)
    | Some tool =>
        match request with
        | Some r =>
            if spec_receives_request (handler tool)
            then call (handler tool) (CallArgsRequest args r)
            else call (handler tool) (CallArgs args)
        | None => call (handler tool) (CallArgs args)
        end
    end.
Proof.
  unfold execute, tools_get, spec_receives_request.
  cbn [mbind result_bind Py.bind].
  destruct (Py.dict_get (_tools self) name); reflexivity.
Qed.

(** C6: for every call of [execute] with the request of the endpoint, an
    unknown name fails with code -32601, and a registered handler is
    called with the request as an extra argument exactly when its
    declared parameters include [request], and with the arguments alone
    otherwise. *)
Theorem execute_with_request (self : ToolRegistry) (name : string) (args : PyValue)
    (request : Request) :
  execute self (PyStr name) args (Some request)
  = match Py.dict_get (_tools self) name with
    | None => Raise (MCPError (-32601) ("Tool not found: " +:+ name) PyNone)
    | Some tool =>
        if Py.contains (parameters (handler tool)) "request"
        then call (handler tool) (CallArgsRequest args request)
        else call (handler tool) (CallArgs args)
    end
  /\ spec_execute self name args (Some request).
Proof.
  unfold spec_execute, spec_receives_request, execute, tools_get.
  cbn [mbind result_bind Py.bind]. split.
  - destruct (Py.dict_get (_tools self) name); reflexivity.
  - intros tool ->.
    destruct (Py.contains (parameters (handler tool)) "request");
      [by exists request | reflexivity].
Qed.

Variable fnmatch : string -> string -> bool.

(** The exception handler builds its response without the headers of the
    exception. *)
Lemma refused_request_response (API_KEYS : list (string * KeyConfig))
    (registry : ToolRegistry) (request : Request)
    (status : Z) (detail : string) (exc_headers : list (string * string)) :
  verify_api_key API_KEYS request = Raise (HTTPException status detail exc_headers) ->
  post_mcp API_KEYS fnmatch registry request
  = Ok (http_exception_handler request status detail exc_headers)
  /\ headers (http_exception_handler request status detail exc_headers) = [].
Proof.
  intros H. unfold post_mcp, mcp_endpoint. rewrite H. split; reflexivity.
Qed.

(** With no token configured the request is let through, allowed
    everything, and no mailbox is bound to it. *)
Lemma verify_api_key_development_mode (request : Request) :
  exists request',
    verify_api_key [] request = Ok (request', ["*"%string])
    /\ get_allowed_tools request' = ["*"%string]
    /\ get_gmail_account [] request' = None.
Proof.
  eexists. split; [reflexivity | split; [reflexivity|]].
  unfold get_gmail_account, get_api_key_config. cbn [state api_key authorization].
  destruct (api_key (state request)) as [k|].
  - destruct (String.eqb k "").
    + destruct (Py.startswith "Bearer " (default ""%string (authorization request))).
      * by destruct (Py.drop_chars 7 (default ""%string (authorization request))).
      * done.
    + by destruct k.
  - destruct (Py.startswith "Bearer " (default ""%string (authorization request))).
    + by destruct (Py.drop_chars 7 (default ""%string (authorization request))).
    + done.
Qed.

(** C2: when the request is authorized, names a tool it may call, and the
    handler of that tool returns a record with [success = false], the
    answer is sent with status 200 and is the envelope
    [{jsonrpc, id, result}] whose result has [isError = true] and a
    content list with the one text entry; it has no [error] member. *)
Theorem failed_result_is_a_result (API_KEYS : list (string * KeyConfig))
    (registry : ToolRegistry) (req req' : Request) (allowed : list string)
    (body params : list (string * PyValue)) (tool_name : string)
    (tool : ToolDefinition) (r : ExecutionResult) :
  verify_api_key API_KEYS req = Ok (req', allowed) ->
  json_body req' = Some (PyDict body) ->
  Py.dict_get body "method" = Some (PyStr "tools/call") ->
  Py.dict_get body "params" = Some (PyDict params) ->
  Py.dict_get params "name" = Some (PyStr tool_name) ->
  is_tool_allowed fnmatch req' (PyStr tool_name) = Ok true ->
  Py.dict_get (_tools registry) tool_name = Some tool ->
  call (handler tool)
       (if Py.contains (parameters (handler tool)) "request"
        then CallArgsRequest (Py.get_default params "arguments" (PyDict [])) req'
        else CallArgs (Py.get_default params "arguments" (PyDict []))) = Ok r ->
  success r = false ->
  let result :=
    [ ("content"%string,
       PyList [PyDict [("type"%string, PyStr "text");
                       ("text"%string, PyStr (to_text_output r))]]);
      ("isError"%string, PyBool true) ]
    ++ match metadata r with
       | [] => []
       | _ :: _ => [("metadata"%string, PyDict (metadata r))]
       end in
  let envelope :=
    [ ("jsonrpc"%string, PyStr "2.0"); ("id"%string, Py.get_default body "id" PyNone);
      ("result"%string, PyDict result) ] in
  post_mcp API_KEYS fnmatch registry req
  = Ok {| status_code := 200; headers := []; content := PyDict envelope |}
  /\ Py.dict_get envelope "error" = None
  /\ Py.dict_get result "isError" = Some (PyBool true).
Proof.
  intros Hverify Hbody Hmethod Hparams Hname Hallowed Htool Hcall Hfail result envelope.
  split; [|split; reflexivity].
  unfold post_mcp, mcp_endpoint. rewrite Hverify.
  cbn [mbind result_bind Py.bind]. rewrite Hbody.
  cbn [Py.attr_get mbind result_bind Py.bind].
  assert (Py.get_default body "method" PyNone = PyStr "tools/call") as ->.
  { unfold Py.get_default. by rewrite Hmethod. }
  change (Py.str_eq (PyStr "tools/call") "initialize") with false.
  change (Py.str_eq (PyStr "tools/call") "tools/list") with false.
  change (Py.str_eq (PyStr "tools/call") "tools/call") with true.
  cbn iota.
  assert (_handle_tools_call fnmatch registry body req' = Ok (PyDict result)) as ->.
  { unfold _handle_tools_call.
    destruct (tools_call_params body params (PyStr tool_name) Hparams Hname) as [Ha Hb].
    rewrite Ha. cbn [mbind result_bind Py.bind]. rewrite Hb, Hallowed.
    cbn [mbind result_bind Py.bind negb].
    rewrite execute_passes_request, Htool. unfold spec_receives_request.
    destruct (Py.contains (parameters (handler tool)) "request");
      rewrite Hcall; cbn [mbind result_bind Py.bind];
      unfold result; rewrite format_tool_result_eq; by rewrite Hfail. }
  reflexivity.
Qed.

End DispatchProofs.

(* ===================================================================== *)
(** * The server on sample requests *)
(* ===================================================================== *)

Section SampleRuns.
Import Schemas Utils Security Tools App AuthSpec Samples.

(** The patterns of the specification's boundary cases. *)
Example web_pattern :
  glob "web_click" "web_*" = true /\ glob "web_get_url" "web_*" = true
  /\ glob "webhook" "web_*" = false.
Proof. by vm_compute. Qed.

(** C1 on the token [T], allowed everything but [web_*]: [web_click] is
    matched by the excluded pattern, so it is refused although ["*"] is
    allowed, and [tools/call] on it is denied; [echo] is allowed. *)
Lemma exclusion_before_inclusion_witness :
  let request := stamped (post (Some "Bearer T"%string) (tools_call "web_click")) "T" config_T in
  verify_api_key sample_keys (post (Some "Bearer T"%string) (tools_call "web_click"))
  = Ok (request, ["*"%string])
  /\ matches_any glob "web_click" (get_excluded_tools request) = true
  /\ is_tool_allowed glob request (PyStr "web_click") = Ok false
  /\ _handle_tools_call glob sample_registry
       [ ("params"%string,
          PyDict [("name"%string, PyStr "web_click"); ("arguments"%string, PyDict [])]) ]
       request
     = Raise (MCPError (-32603)
                "Permission denied: Tool 'web_click' is not allowed for this API Key"
                (PyDict [("tool"%string, PyStr "web_click")]))
  /\ is_tool_allowed glob request (PyStr "echo") = Ok true.
Proof.
  intros request.
  assert (matches_any glob "web_click" (get_excluded_tools request) = true) as Hex
    by reflexivity.
  destruct (exclusion_before_inclusion glob sample_registry request "web_click")
    as (_ & _ & Hdenied).
  destruct (Hdenied Hex) as (Hno & _ & Hcall).
  destruct (exclusion_before_inclusion glob sample_registry request "echo")
    as (Hecho & _ & _).
  split; [reflexivity | split; [exact Hex | split; [exact Hno | split]]].
  - exact (Hcall
             [ ("params"%string,
                PyDict [("name"%string, PyStr "web_click");
                        ("arguments"%string, PyDict [])]) ]
             [("name"%string, PyStr "web_click"); ("arguments"%string, PyDict [])]
             eq_refl eq_refl).
  - exact Hecho.
Defined.

(** C3, on a request without [Authorization] header and on one with a
    malformed header, tokens being configured: [verify_api_key] raises the
    401 exception with the [WWW-Authenticate: Bearer] header, and the
    response built by [http_exception_handler] has status 401 and error
    code -32000 but does not carry that header. *)
Theorem missing_authorization_response :
  verify_api_key sample_keys (post None (tools_call "echo"))
  = Raise (HTTPException 401
             "Missing Authorization Header. Expected format: 'Authorization: Bearer <token>'"
             [("WWW-Authenticate"%string, "Bearer"%string)])
  /\ post_mcp sample_keys glob sample_registry (post None (tools_call "echo"))
     = Ok {| status_code := 401;
             headers := [];
             content :=
               PyDict
                 [ ("jsonrpc"%string, PyStr "2.0"); ("id"%string, PyNone);
                   ("error"%string,
                    PyDict
                      [ ("code"%string, PyInt (-32000));
                        ("message"%string,
                         PyStr "Missing Authorization Header. Expected format: 'Authorization: Bearer <token>'");
                        ("status_code"%string, PyInt 401) ]) ] |}
  /\ verify_api_key sample_keys (post (Some "Basic dXNlcg=="%string) (tools_call "echo"))
     = Raise (HTTPException 401 "Invalid Authorization format. Expected 'Bearer <token>'"
                [("WWW-Authenticate"%string, "Bearer"%string)])
  /\ (headers <$> post_mcp sample_keys glob sample_registry
                    (post (Some "Basic dXNlcg=="%string) (tools_call "echo")))
     = Ok [].
Proof. repeat split; by vm_compute. Qed.

(** The other two cases of the authorizer on the same table: an unknown
    token is refused with 403, and with an empty table the request passes
    with the allowed list [["*"]]. *)
Example unknown_token_and_no_table :
  (status_code <$> post_mcp sample_keys glob sample_registry
                     (post (Some "Bearer nobody"%string) (tools_call "echo")))
  = Ok 403
  /\ snd <$> verify_api_key [] (post None (tools_call "echo")) = Ok ["*"%string].
Proof. split; by vm_compute. Qed.

(** C9 on the table with the token [T]. *)
Lemma bearer_scheme_any_case_witness :
  sample_keys <> [] /\ is_token "T" = true
  /\ verify_api_key sample_keys
       (with_authorization (post None (tools_call "echo")) ("bearer " +:+ "T"))
     = match Py.dict_get sample_keys "T" with
       | Some config =>
           Ok (stamped (with_authorization (post None (tools_call "echo"))
                          ("bearer " +:+ "T")) "T" config,
               default [] (tools config))
       | None => Raise (HTTPException 403 "Invalid API Key" [])
       end
  /\ Py.dict_get sample_keys "T" <> None.
Proof.
  split; [discriminate|]. split; [reflexivity|]. split; [|discriminate].
  apply (bearer_scheme_any_case glob sample_keys sample_registry
           (post None (tools_call "echo")) "T");
    [discriminate | reflexivity].
Defined.

(** C2 on a call of [web_click] by the token [W]. *)
Lemma failed_result_is_a_result_witness :
  let req := post (Some "Bearer W"%string) (tools_call "web_click") in
  post_mcp web_keys glob sample_registry req
  = Ok {| status_code := 200; headers := [];
          content :=
            PyDict
              [ ("jsonrpc"%string, PyStr "2.0"); ("id"%string, PyInt 7);
                ("result"%string,
                 PyDict
                   [ ("content"%string,
                      PyList [PyDict [("type"%string, PyStr "text");
                                      ("text"%string,
                                       PyStr (to_text_output
                                                (result_failed "TimeoutError"
                                                   "no reply from the agent")))]]);
                     ("isError"%string, PyBool true) ]) ] |}.
Proof.
  intros req.
  refine (proj1 (failed_result_is_a_result glob web_keys sample_registry req
    (stamped req "W" config_W)
    ["web_*"%string]
    [ ("jsonrpc"%string, PyStr "2.0"); ("id"%string, PyInt 7);
      ("method"%string, PyStr "tools/call");
      ("params"%string,
       PyDict [("name"%string, PyStr "web_click"); ("arguments"%string, PyDict [])]) ]
    [("name"%string, PyStr "web_click"); ("arguments"%string, PyDict [])]
    "web_click"
    {| name := "web_click"; description := "clicks in the remote browser";
       input_schema := schema; handler := web_click |}
    (result_failed "TimeoutError" "no reply from the agent")
    _ _ _ _ _ _ _ _ _)); reflexivity.
Defined.

(** C7 on the sample catalog, where [echo] is registered. *)
Lemma register_twice_replaces_witness :
  is_Some (Py.dict_get (_tools sample_registry) "echo")
  /\ Py.dict_keys (_tools (register sample_registry "echo" "another echo" schema probe))
     = ["probe"%string; "echo"%string; "web_click"%string]
  /\ description <$> Py.dict_get
       (_tools (register sample_registry "echo" "another echo" schema probe)) "echo"
     = Some "another echo"%string.
Proof.
  assert (is_Some (Py.dict_get (_tools sample_registry) "echo")) as Hin.
  { eexists. reflexivity. }
  split; [exact Hin|].
  destruct (register_twice_replaces sample_registry "echo" "another echo" schema probe Hin)
    as (Hget & Hkeys & _).
  split; [by rewrite Hkeys | by rewrite Hget].
Defined.

(** C7 (as the specification words it) fails: the second registration of
    [echo] goes through and the catalog then holds the second definition. *)
Lemma register_twice_counterexample :
  ~ spec_register_keeps sample_registry "echo" "another echo" schema probe.
Proof.
  intros H.
  assert (is_Some (Py.dict_get (_tools sample_registry) "echo")) as Hin.
  { eexists. reflexivity. }
  specialize (H Hin). vm_compute in H. discriminate.
Qed.

(** [execute] called without a request, as its default allows: [probe]
    declares a [request] parameter and is then called with the arguments
    alone. *)
Lemma execute_without_request_example :
  spec_receives_request probe = true
  /\ execute sample_registry (PyStr "probe") (PyDict []) None
     = Ok (result_ok "called with args")
  /\ execute sample_registry (PyStr "probe") (PyDict []) (Some (post None (tools_call "probe")))
     = Ok (result_ok "called with args and request").
Proof.
  repeat split; reflexivity.
Qed.

End SampleRuns.

(* ===================================================================== *)
(** * The agent bridge: proofs *)
(* ===================================================================== *)

Section BridgeProofs.
Import Remote BridgeSpec.

Variable REMOTE_BROWSER_TOKEN : string.

Ltac open_calls :=
  unfold Waiting, Settled, calls, pending in *;
  cbn [with_pending with_manager with_futures with_sockets pop_pending install fst
       manager futures next_future _pending_requests] in *.

(** ** What the connection handlers leave alone *)

Lemma ws_send_calls (w w' : World) (websocket : nat) (frame : PyValue) (o : SendOutcome) :
  ws_send w websocket frame o = Ok w' -> calls w' = calls w.
Proof.
  unfold ws_send. destruct (sockets w !! websocket) as [s|]; [|discriminate].
  destruct o; [|discriminate]. destruct (open s); [|discriminate].
  by intros [= <-].
Qed.

Lemma handshake_calls (w : World) (websocket : nat) (first : Recv) (reply : SendOutcome) :
  calls (fst (handshake REMOTE_BROWSER_TOKEN w websocket first reply)) = calls w.
Proof.
  unfold handshake. destruct first as [| |[auth_data|]]; try reflexivity.
  destruct (Py.attr_get auth_data) as [fields|]; [|reflexivity].
  destruct (negb (Py.str_eq (Py.get_default fields "type" PyNone) "auth")).
  { destruct (ws_send _ _ _ _) eqn:E; [|reflexivity].
    apply ws_send_calls in E. exact E. }
  destruct (negb (Py.str_eq (Py.get_default fields "token" PyNone) REMOTE_BROWSER_TOKEN)).
  { destruct (ws_send _ _ _ _) eqn:E; [|reflexivity].
    apply ws_send_calls in E. exact E. }
  destruct (ws_send _ _ _ _) eqn:E; [|reflexivity].
  apply ws_send_calls in E. exact E.
Qed.

(** ** One event, seen from a suspended call *)

Section OneCall.
Variable request_id : string.
Variable future : nat.

Lemma message_waiting (w : World) (message : option PyValue) :
  Waiting request_id future (calls w) ->
  is_reply_to request_id (EvMessage message) = false ->
  Waiting request_id future (calls (_handle_message w message)).
Proof.
  intros Hw Hno. unfold _handle_message.
  destruct message as [data|]; [|exact Hw].
  destruct data as [| | | |?|fields]; try exact Hw.
  cbn [Py.attr_get]. cbn [is_reply_to] in Hno.
  destruct (Py.str_eq (Py.get_default fields "type" PyNone) "response"); [|exact Hw].
  destruct (Py.get_default fields "request_id" PyNone) as [| | |r| |]; try exact Hw.
  cbn [andb Py.str_eq] in Hno. apply String.eqb_neq in Hno.
  destruct (_pending_requests (manager w) !! r) as [x|] eqn:Hr; [|exact Hw].
  destruct Hw as (Hlt & Hp & Hf & Hinj). unfold pending in *.
  assert (x <> future) as Hx by (intros ->; by apply Hno, (Hinj r future)).
  assert (Waiting request_id future
            (delete r (_pending_requests (manager w)), futures w, next_future w)) as Hdel.
  { repeat split; [done | by rewrite lookup_delete_ne | done |].
    intros r' y Hy. apply lookup_delete_Some in Hy as [_ Hy]. by apply Hinj. }
  cbn [with_pending with_manager futures].
  destruct (futures w !! x) as [[| |]|]; try exact Hdel.
  open_calls. destruct Hdel as (? & ? & ? & ?).
  repeat split; [done | done | by rewrite lookup_insert_ne | done].
Qed.

Lemma message_reply (w : World) (fields : list (string * PyValue)) :
  Waiting request_id future (calls w) ->
  is_reply_to request_id (EvMessage (Some (PyDict fields))) = true ->
  Settled request_id future (PyDict fields)
    (calls (_handle_message w (Some (PyDict fields)))).
Proof.
  intros (Hlt & Hp & Hf & Hinj) Hyes. unfold _handle_message. unfold pending in *.
  cbn [Py.attr_get]. cbn [is_reply_to] in Hyes.
  apply andb_prop in Hyes as [Htype Hid]. rewrite Htype.
  destruct (Py.get_default fields "request_id" PyNone) as [| | |r| |]; try discriminate.
  cbn [Py.str_eq] in Hid. apply String.eqb_eq in Hid as ->.
  rewrite Hp. cbn [with_pending with_manager futures]. rewrite Hf.
  open_calls. repeat split; [done | apply lookup_delete_eq | apply lookup_insert_eq |].
  intros r y Hy ->. apply lookup_delete_Some in Hy as [Hne Hy].
  by apply Hne, eq_sym, (Hinj r future).
Qed.

Lemma message_settled (w : World) (data : PyValue) (message : option PyValue) :
  Settled request_id future data (calls w) ->
  Settled request_id future data (calls (_handle_message w message)).
Proof.
  intros Hs. unfold _handle_message.
  destruct message as [m|]; [|exact Hs].
  destruct m as [| | | |?|fields]; try exact Hs.
  cbn [Py.attr_get].
  destruct (Py.str_eq (Py.get_default fields "type" PyNone) "response"); [|exact Hs].
  destruct (Py.get_default fields "request_id" PyNone) as [| | |r| |]; try exact Hs.
  destruct (_pending_requests (manager w) !! r) as [x|] eqn:Hr; [|exact Hs].
  destruct Hs as (Hlt & Hp & Hf & Hinj). unfold pending in *.
  assert (x <> future) as Hx by (by apply (Hinj r)).
  assert (Settled request_id future data
            (delete r (_pending_requests (manager w)), futures w, next_future w)) as Hdel.
  { repeat split; [done | | done |].
    - destruct (decide (r = request_id)) as [->|Hne];
        [apply lookup_delete_eq | by rewrite lookup_delete_ne].
    - intros r' y Hy. apply lookup_delete_Some in Hy as [_ Hy]. by apply (Hinj r'). }
  cbn [with_pending with_manager futures].
  destruct (futures w !! x) as [[| |]|]; try exact Hdel.
  open_calls. destruct Hdel as (? & ? & ? & ?).
  repeat split; [done | done | by rewrite lookup_insert_ne | done].
Qed.

Lemma install_waiting (w : World) (r : string) :
  r <> request_id ->
  Waiting request_id future (calls w) ->
  Waiting request_id future (calls (fst (install w r))).
Proof.
  intros Hne Hw. open_calls. destruct Hw as (Hlt & Hp & Hf & Hinj).
  repeat split.
  - lia.
  - by rewrite lookup_insert_ne.
  - rewrite lookup_insert_ne; [done | lia].
  - intros r' y Hy ->. apply lookup_insert_Some in Hy as [[_ Hy]|[_ Hy]].
    + lia.
    + by apply (Hinj r' future).
Qed.

Lemma install_settled (w : World) (data : PyValue) (r : string) :
  r <> request_id ->
  Settled request_id future data (calls w) ->
  Settled request_id future data (calls (fst (install w r))).
Proof.
  intros Hne Hw. open_calls. destruct Hw as (Hlt & Hp & Hf & Hinj).
  repeat split.
  - lia.
  - by rewrite lookup_insert_ne.
  - rewrite lookup_insert_ne; [done | lia].
  - intros r' y Hy ->. apply lookup_insert_Some in Hy as [[_ Hy]|[_ Hy]].
    + lia.
    + by apply (Hinj r' future).
Qed.

Lemma pop_waiting (w : World) (r : string) :
  r <> request_id ->
  Waiting request_id future (calls w) ->
  Waiting request_id future (calls (pop_pending w r)).
Proof.
  intros Hne Hw. open_calls. destruct Hw as (Hlt & Hp & Hf & Hinj).
  repeat split; [done | by rewrite lookup_delete_ne | done |].
  intros r' y Hy. apply lookup_delete_Some in Hy as [_ Hy]. by apply Hinj.
Qed.

Lemma pop_settled (w : World) (data : PyValue) (r : string) :
  Settled request_id future data (calls w) ->
  Settled request_id future data (calls (pop_pending w r)).
Proof.
  intros Hw. open_calls. destruct Hw as (Hlt & Hp & Hf & Hinj).
  repeat split; [done | | done |].
  - destruct (decide (r = request_id)) as [->|Hne];
      [apply lookup_delete_eq | by rewrite lookup_delete_ne].
  - intros r' y Hy. apply lookup_delete_Some in Hy as [_ Hy]. by apply (Hinj r').
Qed.

Lemma cancel_waiting (w : World) (x : nat) :
  x <> future ->
  Waiting request_id future (calls w) ->
  Waiting request_id future (calls (cancel_future w x)).
Proof.
  intros Hx Hw. unfold cancel_future.
  destruct (futures w !! x) as [[| |]|]; try exact Hw.
  open_calls. destruct Hw as (? & ? & ? & ?).
  repeat split; [done | done | by rewrite lookup_insert_ne | done].
Qed.

Lemma cancel_settled (w : World) (data : PyValue) (x : nat) :
  x <> future ->
  Settled request_id future data (calls w) ->
  Settled request_id future data (calls (cancel_future w x)).
Proof.
  intros Hx Hw. unfold cancel_future.
  destruct (futures w !! x) as [[| |]|]; try exact Hw.
  open_calls. destruct Hw as (? & ? & ? & ?).
  repeat split; [done | done | by rewrite lookup_insert_ne | done].
Qed.

Lemma step_waiting (w : World) (ev : Event) :
  Waiting request_id future (calls w) ->
  foreign request_id ev = true ->
  is_reply_to request_id ev = false ->
  Waiting request_id future (calls (step REMOTE_BROWSER_TOKEN w ev)).
Proof.
  intros Hw Hforeign Hno. destruct ev as [ws|ws first reply|message|ws|ws|r|r|r]; cbn [step].
  - exact Hw.
  - by rewrite handshake_calls.
  - by apply message_waiting.
  - exact Hw.
  - exact Hw.
  - cbn in Hforeign. apply negb_true_iff, String.eqb_neq in Hforeign.
    destruct (is_connected w); [by apply install_waiting | exact Hw].
  - cbn in Hforeign. apply negb_true_iff, String.eqb_neq in Hforeign.
    by apply pop_waiting.
  - cbn in Hforeign. apply negb_true_iff, String.eqb_neq in Hforeign.
    destruct (_pending_requests (manager w) !! r) as [x|] eqn:Hr; [|exact Hw].
    apply cancel_waiting; [|exact Hw].
    intros ->. apply Hforeign. unfold Waiting, calls, pending in Hw.
    destruct Hw as (_ & _ & _ & Hinj). by apply (Hinj r future).
Qed.

Lemma step_settled (w : World) (data : PyValue) (ev : Event) :
  Settled request_id future data (calls w) ->
  foreign request_id ev = true ->
  Settled request_id future data (calls (step REMOTE_BROWSER_TOKEN w ev)).
Proof.
  intros Hs Hforeign. destruct ev as [ws|ws first reply|message|ws|ws|r|r|r]; cbn [step].
  - exact Hs.
  - by rewrite handshake_calls.
  - by apply message_settled.
  - exact Hs.
  - exact Hs.
  - cbn in Hforeign. apply negb_true_iff, String.eqb_neq in Hforeign.
    destruct (is_connected w); [by apply install_settled | exact Hs].
  - by apply pop_settled.
  - destruct (_pending_requests (manager w) !! r) as [x|] eqn:Hr; [|exact Hs].
    apply cancel_settled; [|exact Hs].
    unfold Settled, calls, pending in Hs. destruct Hs as (_ & _ & _ & Hinj).
    by apply (Hinj r).
Qed.

Lemma run_settled (events : list Event) (w : World) (data : PyValue) :
  Settled request_id future data (calls w) ->
  forallb (foreign request_id) events = true ->
  Settled request_id future data (calls (run REMOTE_BROWSER_TOKEN w events)).
Proof.
  revert w. induction events as [|ev events IH]; intros w Hs Hf; [exact Hs|].
  cbn in Hf. apply andb_prop in Hf as [Hev Hf].
  cbn [run fold_left]. apply IH; [|exact Hf]. by apply step_settled.
Qed.

Lemma run_waiting (events : list Event) (w : World) :
  Waiting request_id future (calls w) ->
  forallb (foreign request_id) events = true ->
  existsb (is_reply_to request_id) events = false ->
  Waiting request_id future (calls (run REMOTE_BROWSER_TOKEN w events)).
Proof.
  revert w. induction events as [|ev events IH]; intros w Hw Hf Hno; [exact Hw|].
  cbn in Hf, Hno. apply andb_prop in Hf as [Hev Hf].
  apply orb_false_elim in Hno as [Hno1 Hno].
  cbn [run fold_left]. apply IH; [|exact Hf|exact Hno]. by apply step_waiting.
Qed.

Lemma run_first_reply (before after : list Event) (fields : list (string * PyValue))
    (w : World) :
  Waiting request_id future (calls w) ->
  forallb (foreign request_id) (before ++ EvMessage (Some (PyDict fields)) :: after) = true ->
  existsb (is_reply_to request_id) before = false ->
  is_reply_to request_id (EvMessage (Some (PyDict fields))) = true ->
  Settled request_id future (PyDict fields)
    (calls (run REMOTE_BROWSER_TOKEN w
              (before ++ EvMessage (Some (PyDict fields)) :: after))).
Proof.
  intros Hw Hf Hno Hyes. rewrite forallb_app in Hf. apply andb_prop in Hf as [Hf1 Hf2].
  cbn [forallb] in Hf2. apply andb_prop in Hf2 as [_ Hf2].
  unfold run. rewrite fold_left_app. cbn [fold_left].
  apply run_settled; [|exact Hf2]. cbn [step].
  apply message_reply; [|exact Hyes]. by apply run_waiting.
Qed.

Lemma run_either (events : list Event) (w : World) :
  Waiting request_id future (calls w) ->
  forallb (foreign request_id) events = true ->
  Waiting request_id future (calls (run REMOTE_BROWSER_TOKEN w events))
  \/ exists fields,
       Settled request_id future (PyDict fields)
         (calls (run REMOTE_BROWSER_TOKEN w events)).
Proof.
  revert w. induction events as [|ev events IH]; intros w Hw Hf; [by left|].
  cbn in Hf. apply andb_prop in Hf as [Hev Hf]. cbn [run fold_left].
  destruct (is_reply_to request_id ev) eqn:Hreply.
  - right. destruct ev as [| |[[| | | | |fields]|]| | | | |]; try discriminate.
    exists fields. apply run_settled; [|exact Hf]. by apply message_reply.
  - apply IH; [|exact Hf]. by apply step_waiting.
Qed.
End OneCall.

(** ** [send_command] *)

Lemma is_connected_inv (w : World) :
  is_connected w = true ->
  exists ws s, _websocket (manager w) = Some ws /\ sockets w !! ws = Some s
               /\ open s = true.
Proof.
  unfold is_connected. destruct (_websocket (manager w)) as [ws|]; [|discriminate].
  destruct (sockets w !! ws) as [s|] eqn:Hs; [|discriminate].
  intros Hopen. by exists ws, s.
Qed.

Lemma install_fresh_waiting (w : World) (request_id : string) :
  well_formed w ->
  Waiting request_id (next_future w) (calls (fst (install w request_id))).
Proof.
  intros Hwf. unfold well_formed in Hwf. open_calls.
  repeat split; [lia | apply lookup_insert_eq | apply lookup_insert_eq |].
  intros r x Hx ->. apply lookup_insert_Some in Hx as [[Hr _]|[_ Hx]]; [done|].
  apply Hwf in Hx. lia.
Qed.

(** The call once the command is on the wire: the world in which the
    other tasks run, and how the call ends from the state of its future. *)
Lemma send_command_sent (w : World) (ws : nat) (s : Socket)
    (request_id action : string) (params : PyValue) (events : list Event) :
  _websocket (manager w) = Some ws -> sockets w !! ws = Some s -> open s = true ->
  exists w2,
    calls w2 = calls (fst (install w request_id))
    /\ send_command REMOTE_BROWSER_TOKEN w request_id action params Sent NotCancelled
         events
       = let w3 := run REMOTE_BROWSER_TOKEN w2 events in
         match futures w3 !! next_future w with
         | Some (FResult result) =>
             match Py.attr_get result with
             | Raise e => (pop_pending w3 request_id, Raise e)
             | Ok result =>
                 if negb (Py.truthy (Py.get_default result "success" (PyBool false)))
                 then (pop_pending w3 request_id,
                       Raise (RuntimeError
                                ("遠端執行失敗: "
                                 +:+ Py.str (Py.get_default result "error"
                                               (PyStr "未知錯誤")))))
                 else (w3, Ok (Py.get_default result "data" (PyDict [])))
             end
         | Some FPending =>
             (pop_pending
                (with_futures w3 (<[next_future w := FCancelled]> (futures w3)))
                request_id,
              Raise TimeoutError)
         | Some FCancelled | None => (w3, Raise CancelledError)
         end.
Proof.
  intros Hws Hs Hopen. unfold send_command, is_connected.
  rewrite Hws, Hs, Hopen. cbn [negb].
  unfold ws_send. cbn [install with_pending with_manager manager _websocket sockets].
  rewrite Hws. cbn [default from_option id]. rewrite Hs, Hopen.
  eexists. split; [|reflexivity]. reflexivity.
Qed.


(** The calls that are not cancelled.  Without an open agent connection
    [send_command] fails with the no-agent error and leaves the world as
    it was; a failed write of the command makes it fail with that error;
    when no response to its request id reaches [_handle_message] before
    the wait ends it fails with a timeout; otherwise the first such
    response decides: its [data] is returned when its [success] is
    truthy, and a remote error carrying its [error] text is raised when
    not.  Whichever of these ways the call ends, the table has no slot
    for its request id then. *)
Lemma send_command_outcomes (w : World) (request_id action : string) (params : PyValue)
    (outcome : SendOutcome) (events : list Event) :
  well_formed w ->
  pending w !! request_id = None ->
  forallb (foreign request_id) events = true ->
  let result :=
    send_command REMOTE_BROWSER_TOKEN w request_id action params outcome NotCancelled
      events in
  pending (fst result) !! request_id = None
  /\ (is_connected w = false ->
      result = (w, Raise (RuntimeError "無遠端 Browser Agent 連線")))
  /\ (is_connected w = true ->
      forall msg, outcome = SendFailed msg -> snd result = Raise (OtherException msg))
  /\ (is_connected w = true -> outcome = Sent ->
      (existsb (is_reply_to request_id) events = false -> snd result = Raise TimeoutError)
      /\ (forall before fields after,
            events = before ++ EvMessage (Some (PyDict fields)) :: after ->
            existsb (is_reply_to request_id) before = false ->
            is_reply_to request_id (EvMessage (Some (PyDict fields))) = true ->
            snd result
            = if Py.truthy (Py.get_default fields "success" (PyBool false))
              then Ok (Py.get_default fields "data" (PyDict []))
              else Raise (RuntimeError
                            ("遠端執行失敗: "
                             +:+ Py.str (Py.get_default fields "error"
                                           (PyStr "未知錯誤")))))).
Proof.
  intros Hwf Hfresh Hforeign result.
  destruct (is_connected w) eqn:Hconn.
  - (* an agent is connected *)
    destruct (is_connected_inv w Hconn) as (ws & s & Hws & Hs & Hopen).
    pose proof (install_fresh_waiting w request_id Hwf) as Hwait.
    destruct outcome as [|msg].
    + (* the command is written *)
      destruct (send_command_sent w ws s request_id action params events Hws Hs Hopen)
        as (w2 & Hcalls & Hsend).
      rewrite <- Hcalls in Hwait.
      subst result. rewrite Hsend. clear Hsend. cbn zeta.
      set (w3 := run REMOTE_BROWSER_TOKEN w2 events).
      split; [|split; [discriminate | split; [intros _ m; discriminate|]]].
      * destruct (run_either request_id (next_future w) events w2 Hwait Hforeign)
          as [Hw3 | [fields Hw3]]; fold w3 in Hw3; open_calls.
        -- destruct Hw3 as (_ & _ & -> & _). cbn. apply lookup_delete_eq.
        -- destruct Hw3 as (_ & Hnone & -> & _). cbn [Py.attr_get].
           destruct (negb _); cbn; [apply lookup_delete_eq | exact Hnone].
      * intros _ _. split.
        -- intros Hno.
           pose proof (run_waiting request_id (next_future w) events w2 Hwait Hforeign Hno)
             as Hw3. fold w3 in Hw3. open_calls.
           by destruct Hw3 as (_ & _ & -> & _).
        -- intros before fields after -> Hno Hyes.
           pose proof (run_first_reply request_id (next_future w) before after fields w2
                         Hwait Hforeign Hno Hyes) as Hw3.
           fold w3 in Hw3. open_calls. destruct Hw3 as (_ & _ & -> & _).
           cbn [Py.attr_get].
           by destruct (Py.truthy (Py.get_default fields "success" (PyBool false))).
    + (* the write fails *)
      assert (result = (pop_pending (fst (install w request_id)) request_id,
                        Raise (OtherException msg))) as ->.
      { subst result. unfold send_command, is_connected. rewrite Hws, Hs, Hopen.
        cbn [negb]. unfold ws_send.
        cbn [install with_pending with_manager manager _websocket sockets].
        rewrite Hws. cbn [default from_option id]. by rewrite Hs. }
      split; [|split; [discriminate | split; [|discriminate]]].
      * open_calls. cbn. apply lookup_delete_eq.
      * intros _ m [= <-]. reflexivity.
  - (* no agent *)
    assert (result = (w, Raise (RuntimeError "無遠端 Browser Agent 連線"))) as ->.
    { subst result. unfold send_command. rewrite Hconn. reflexivity. }
    split; [exact Hfresh | split; [done | split; discriminate]].
Qed.


(** ** The handshake *)

Lemma handshake_success (w : World) (websocket : nat) (s : Socket)
    (auth_data : list (string * PyValue)) :
  authenticates REMOTE_BROWSER_TOKEN auth_data = true ->
  sockets w !! websocket = Some s -> open s = true ->
  handshake REMOTE_BROWSER_TOKEN w websocket (RecvFrame (Some (PyDict auth_data))) Sent
  = (with_sockets
       (with_connection w (Some websocket)
          [ ("client_id"%string, Py.get_default auth_data "client_id" (PyStr "unknown"));
            ("user_agent"%string, Py.get_default auth_data "user_agent" (PyStr "unknown"));
            ("connected_at"%string, Py.get_default auth_data "timestamp" (PyStr "")) ])
       (<[websocket := {| open := true;
                          sent := sent s ++ [PyDict [("type"%string, PyStr "auth_success")]] |}]>
          (sockets w)),
     true).
Proof.
  intros Hauth Hs Hopen. unfold authenticates in Hauth.
  apply andb_prop in Hauth as [Htype Htoken].
  unfold handshake. cbn [Py.attr_get]. rewrite Htype, Htoken. cbn [negb].
  unfold ws_send. cbn [with_connection with_manager sockets]. by rewrite Hs, Hopen.
Qed.

(** C4 (as the code has it): a handshake that succeeds makes the new
    connection the one the manager refers to, so that [is_connected]
    holds and a command issued next, before any other task has run, is
    written to the new connection; it leaves every other connection as it
    was, open if it was open, and it leaves the table of pending calls
    and their futures as they were. *)
Theorem handshake_replaces_reference (w : World) (websocket : nat) (s : Socket)
    (auth_data : list (string * PyValue)) :
  authenticates REMOTE_BROWSER_TOKEN auth_data = true ->
  sockets w !! websocket = Some s ->
  open s = true ->
  let after :=
    handshake REMOTE_BROWSER_TOKEN w websocket (RecvFrame (Some (PyDict auth_data))) Sent in
  snd after = true
  /\ _websocket (manager (fst after)) = Some websocket
  /\ is_connected (fst after) = true
  /\ pending (fst after) = pending w
  /\ futures (fst after) = futures w
  /\ (forall other, other <> websocket ->
        sockets (fst after) !! other = sockets w !! other)
  /\ (forall request_id action params cancel,
        sent <$> sockets (fst (send_command REMOTE_BROWSER_TOKEN (fst after)
                                 request_id action params Sent cancel [])) !! websocket
        = Some (sent s ++ [ PyDict [("type"%string, PyStr "auth_success")];
                            command_frame request_id action params ])).
Proof.
  intros Hauth Hs Hopen after. subst after.
  rewrite (handshake_success w websocket s auth_data Hauth Hs Hopen).
  cbn [fst snd].
  repeat split.
  - unfold is_connected. cbn. by rewrite lookup_insert_eq.
  - intros other Hne. cbn. by rewrite lookup_insert_ne.
  - intros request_id action params cancel.
    unfold send_command, is_connected. cbn. rewrite lookup_insert_eq. cbn.
    unfold ws_send. cbn. rewrite lookup_insert_eq. cbn.
    destruct cancel; cbn; rewrite ?lookup_insert_eq; cbn;
      unfold cancel_future; cbn; rewrite ?lookup_insert_eq; cbn;
      rewrite ?lookup_insert_eq; cbn; by rewrite <- app_assoc.
Qed.

End BridgeProofs.

Section BridgeRuns.
Import Remote BridgeSpec.

(** C4 (as the specification words it) fails: when the second agent
    authenticates, the connection of the first stays open and the call
    [r1] stays in the table, its future still waiting. *)
Lemma second_handshake_counterexample :
  ~ spec_replacement "secret" one_call_in_flight 2
      (RecvFrame (Some (auth_frame "secret" "A2"))) Sent
  /\ (let after := handshake "secret" one_call_in_flight 2
                     (RecvFrame (Some (auth_frame "secret" "A2"))) Sent in
      snd after = true
      /\ _websocket (manager one_call_in_flight) = Some 1%nat
      /\ _websocket (manager (fst after)) = Some 2%nat
      /\ open <$> sockets (fst after) !! 1%nat = Some true
      /\ open <$> sockets (fst after) !! 2%nat = Some true
      /\ pending (fst after) !! "r1" = Some 0%nat
      /\ futures (fst after) !! 0%nat = Some FPending).
Proof.
  split.
  - intros H.
    assert (_websocket (manager one_call_in_flight) = Some 1%nat) as H1 by (by vm_compute).
    assert (snd (handshake "secret" one_call_in_flight 2
                   (RecvFrame (Some (auth_frame "secret" "A2"))) Sent) = true)
      as H2 by (by vm_compute).
    destruct (H 1%nat H1 ltac:(done) H2) as [Hclosed _].
    vm_compute in Hclosed. discriminate.
  - repeat split; by vm_compute.
Qed.

(** A call of [get_url] that the agent answers with a failure. *)
Lemma send_command_outcomes_example :
  let events :=
    [ EvMessage (Some (response_frame "r1"
                         [ ("success"%string, PyBool false);
                           ("error"%string, PyStr "no page") ])) ] in
  let result :=
    send_command "secret" connected_world "r1" "get_url" (PyDict []) Sent NotCancelled
      events in
  well_formed connected_world
  /\ pending connected_world !! "r1" = None
  /\ forallb (foreign "r1") events = true
  /\ pending (fst result) !! "r1" = None
  /\ snd result = Raise (RuntimeError "遠端執行失敗: no page").
Proof.
  intros events result.
  assert (well_formed connected_world) as Hwf.
  { intros r f H. assert (pending connected_world = ∅) as Hp by (by vm_compute).
    rewrite Hp in H. by rewrite lookup_empty in H. }
  assert (pending connected_world !! "r1" = None) as Hfresh by (by vm_compute).
  assert (forallb (foreign "r1") events = true) as Hforeign by reflexivity.
  split; [exact Hwf | split; [exact Hfresh | split; [exact Hforeign|]]].
  destruct (send_command_outcomes "secret" connected_world "r1" "get_url" (PyDict []) Sent
              events Hwf Hfresh Hforeign) as (Hreleased & _ & _ & Hsent).
  split; [exact Hreleased|].
  destruct (Hsent ltac:(by vm_compute) eq_refl) as [_ Hreply].
  exact (Hreply [] _ [] eq_refl eq_refl eq_refl).
Defined.

(** C5: [send_command] does not release its slot on every way out.  An
    agent is connected and the table is empty; a call of [get_url] whose
    task is cancelled while it waits for the reply ends with the
    cancellation and leaves its slot [r1] in the table, referring to a
    cancelled future.  The same call ending with a timeout has removed
    the slot, and so has the call whose write fails. *)
Theorem cancelled_call_keeps_slot :
  let call := send_command "secret" connected_world "r1" "get_url" (PyDict []) in
  is_connected connected_world = true
  /\ pending connected_world = ∅
  /\ snd (call Sent CancelledInWait []) = Raise CancelledError
  /\ pending (fst (call Sent CancelledInWait [])) !! "r1" = Some 0%nat
  /\ futures (fst (call Sent CancelledInWait [])) !! 0%nat = Some FCancelled
  /\ snd (call Sent CancelledInSend []) = Raise CancelledError
  /\ pending (fst (call Sent CancelledInSend [])) !! "r1" = Some 0%nat
  /\ snd (call Sent NotCancelled []) = Raise TimeoutError
  /\ pending (fst (call Sent NotCancelled [])) !! "r1" = None
  /\ snd (call (SendFailed "broken pipe") NotCancelled [])
     = Raise (OtherException "broken pipe")
  /\ pending (fst (call (SendFailed "broken pipe") NotCancelled [])) !! "r1" = None.
Proof.
  repeat split; by vm_compute.
Qed.

(** C4 on the second agent of [one_call_in_flight]. *)
Lemma handshake_replaces_reference_witness :
  let after := handshake "secret" one_call_in_flight 2
                 (RecvFrame (Some (auth_frame "secret" "A2"))) Sent in
  authenticates "secret" (auth_fields "secret" "A2") = true
  /\ sockets one_call_in_flight !! 2%nat = Some {| open := true; sent := [] |}
  /\ is_connected (fst after) = true
  /\ pending (fst after) = pending one_call_in_flight.
Proof.
  intros after.
  assert (sockets one_call_in_flight !! 2%nat = Some {| open := true; sent := [] |}) as Hs
    by (by vm_compute).
  split; [reflexivity | split; [exact Hs|]].
  destruct (handshake_replaces_reference "secret" one_call_in_flight 2
              {| open := true; sent := [] |} (auth_fields "secret" "A2") eq_refl Hs eq_refl)
    as (_ & _ & Hconn & Hpending & _).
  split; [exact Hconn | exact Hpending].
Defined.

End BridgeRuns.

(* ===================================================================== *)
(** * Further properties: text helpers and the registry *)
(* ===================================================================== *)

Section TextProofs.
Import Utils.

Lemma take_chars_length (n : nat) (s : string) :
  String.length (Py.take_chars n s) = Nat.min n (String.length s).
Proof.
  revert s. induction n as [|n IH]; intros [|c s]; simpl; try done.
  by rewrite IH.
Qed.

Lemma take_chars_all (n : nat) (s : string) :
  (String.length s <= n)%nat -> Py.take_chars n s = s.
Proof.
  revert s. induction n as [|n IH]; intros [|c s] H; simpl in *; try done; try lia.
  rewrite IH; [done | lia].
Qed.

Lemma append_length (s1 s2 : string) :
  String.length (s1 +:+ s2) = (String.length s1 + String.length s2)%nat.
Proof. induction s1 as [|c s1 IH]; simpl; [done | by rewrite IH]. Qed.

(** X1: [truncate_string] returns a text of at most [max_length]
    characters unchanged; a longer one is cut to its first [max_length]
    characters and the suffix is added, so the result has exactly
    [max_length + len(suffix)] characters (it can be longer than the
    text was). *)
Theorem truncate_string_bounds (text : string) (max_length : Z) (suffix : string) :
  0 <= max_length ->
  (Py.len text <= max_length -> truncate_string text max_length suffix = text)
  /\ (max_length < Py.len text ->
      truncate_string text max_length suffix
      = Py.take_chars (Z.to_nat max_length) text +:+ suffix
      /\ Py.len (truncate_string text max_length suffix) = max_length + Py.len suffix)
  /\ Py.len (truncate_string text max_length suffix) <= max_length + Py.len suffix.
Proof.
  intros Hmax. unfold truncate_string, Py.slice_to, Py.len.
  destruct (Z.gtb_spec (Z.of_nat (String.length text)) max_length) as [Hlong|Hshort].
  - destruct (Z.ltb_spec max_length 0); [lia|].
    assert (String.length (Py.take_chars (Z.to_nat max_length) text +:+ suffix)
            = (Z.to_nat max_length + String.length suffix)%nat) as Hlen.
    { rewrite append_length, take_chars_length. lia. }
    split; [lia | split; [intros _; split; [done | lia] | lia]].
  - split; [done | split; [lia | lia]].
Qed.

(** X1 on a long and on a short text. *)
Lemma truncate_string_bounds_witness :
  0 <= 5 /\ truncate_string "execute_python" 5 "..." = "execu..."%string
  /\ truncate_string "echo" 5 "..." = "echo"%string.
Proof.
  destruct (truncate_string_bounds "execute_python" 5 "..." ltac:(lia)) as (_ & Hcut & _).
  destruct (truncate_string_bounds "echo" 5 "..." ltac:(lia)) as (Hkeep & _).
  split; [lia | split].
  - destruct (Hcut ltac:(by vm_compute)) as [-> _]. reflexivity.
  - apply Hkeep. by vm_compute.
Defined.

End TextProofs.

Section RegistryProofs.
Import Schemas Security Tools RegistrySpec.

Lemma dict_keys_get_none {V : Type} (d : list (string * V)) (key : string) :
  key ∉ Py.dict_keys d <-> Py.dict_get d key = None.
Proof.
  induction d as [|[k x] d IH]; simpl.
  - split; [done | intros _; apply not_elem_of_nil].
  - rewrite not_elem_of_cons, IH. destruct (String.eqb_spec k key); split.
    + intros [? _]. congruence.
    + discriminate.
    + tauto.
    + intros ?. split; [congruence | done].
Qed.

Lemma dict_set_fresh {V : Type} (d : list (string * V)) (key : string) (v : V) :
  Py.dict_get d key = None -> Py.dict_set d key v = d ++ [(key, v)].
Proof.
  induction d as [|[k x] d IH]; simpl; [done|].
  destruct (String.eqb k key); [discriminate|]. intros H. by rewrite IH.
Qed.

Lemma dict_set_named (d : list (string * ToolDefinition)) (t : ToolDefinition) :
  Forall (fun entry => name (snd entry) = fst entry) d ->
  Forall (fun entry => name (snd entry) = fst entry) (Py.dict_set d (name t) t).
Proof.
  induction d as [|[k x] d IH]; simpl; intros H.
  - by repeat constructor.
  - apply Forall_cons in H as [Hk H]. simpl in Hk.
    destruct (String.eqb_spec k (name t)) as [->|Hne].
    + by constructor.
    + constructor; [done | by apply IH].
Qed.

Lemma dict_set_nodup {V : Type} (d : list (string * V)) (key : string) (v : V) :
  NoDup (Py.dict_keys d) -> NoDup (Py.dict_keys (Py.dict_set d key v)).
Proof.
  intros H. destruct (Py.dict_get d key) eqn:E.
  - rewrite dict_keys_set_present; [done | by eexists].
  - rewrite dict_keys_set_absent by done.
    apply NoDup_app. split; [done | split; [|apply NoDup_singleton]].
    intros x Hx Hin. apply list_elem_of_singleton in Hin as ->.
    by apply dict_keys_get_none in E.
Qed.

Lemma register_ok (self : ToolRegistry) (name description : string)
    (input_schema : PyValue) (handler : ToolHandler) :
  registry_ok self -> registry_ok (register self name description input_schema handler).
Proof.
  intros [Hdup Hnamed]. split; cbn [register _tools].
  - by apply dict_set_nodup.
  - exact (dict_set_named (_tools self)
             {| Tools.name := name; Tools.description := description;
                Tools.input_schema := input_schema; Tools.handler := handler |} Hnamed).
Qed.

(** X2: tool names are unique.  Whatever definitions are registered on
    the empty registry, in whatever order and with whatever repetitions,
    the catalog holds one entry per name, each filed under the name it
    carries, and [list_tools] shows no name twice. *)
Theorem registered_names_unique (definitions : list ToolDefinition) :
  let registry := register_all empty_registry definitions in
  registry_ok registry
  /\ NoDup (List.map AuthSpec.listed_name (list_tools registry))
  /\ get_tool_count registry = length (list_tools registry).
Proof.
  intros registry.
  assert (registry_ok registry) as Hok.
  { subst registry. unfold register_all.
    assert (registry_ok empty_registry) as H0.
    { split; [apply NoDup_nil_2 | apply Forall_nil_2]. }
    revert H0. generalize empty_registry.
    induction definitions as [|d ds IH]; intros r Hr; [exact Hr|].
    cbn [fold_left]. apply IH. by apply register_ok. }
  split; [exact Hok | split].
  - destruct Hok as [Hdup Hnamed]. unfold list_tools, Py.dict_values.
    rewrite !List.map_map. cbn.
    assert (List.map (fun x : string * ToolDefinition => name (snd x)) (_tools registry)
            = Py.dict_keys (_tools registry)) as ->; [|done].
    unfold Py.dict_keys. apply List.map_ext_in. intros entry Hin.
    rewrite List.Forall_forall in Hnamed. by apply Hnamed.
  - unfold get_tool_count, list_tools, Py.dict_values. by rewrite !length_map.
Qed.

(** X3: a registration can be executed at once.  After
    [register(name, ...)(handler)], [execute] on [name] calls exactly
    that handler, whether the name was new or taken, and [execute] on any
    other name does what it did before. *)
Theorem register_then_execute (self : ToolRegistry) (name description : string)
    (input_schema : PyValue) (handler : ToolHandler) (args : PyValue)
    (request : Request) :
  let registry := register self name description input_schema handler in
  execute registry (PyStr name) args (Some request) = call_with handler args request
  /\ execute registry (PyStr name) args None = call handler (CallArgs args)
  /\ forall other caller,
       other <> name ->
       execute registry (PyStr other) args caller = execute self (PyStr other) args caller.
Proof.
  intros registry. subst registry. unfold execute, tools_get, register, call_with.
  cbn [_tools mbind result_bind Py.bind]. rewrite dict_get_set_eq.
  split; [reflexivity | split; [reflexivity|]].
  intros other caller Hne. by rewrite dict_get_set_ne.
Qed.

(** X4: a new name is added at the end.  Registering a name that is not
    in the catalog appends its entry to what [list_tools] returns and
    raises [get_tool_count] by one. *)
Theorem register_fresh_appends (self : ToolRegistry) (name description : string)
    (input_schema : PyValue) (handler : ToolHandler) :
  Py.dict_get (_tools self) name = None ->
  let registry := register self name description input_schema handler in
  list_tools registry = list_tools self ++ [listing name description input_schema]
  /\ get_tool_count registry = S (get_tool_count self).
Proof.
  intros Hfresh registry. subst registry.
  unfold list_tools, get_tool_count, register, Py.dict_values. cbn [_tools].
  rewrite (dict_set_fresh _ _ _ Hfresh). rewrite !List.map_app, length_app. cbn.
  split; [reflexivity | lia].
Qed.

End RegistryProofs.

(* ===================================================================== *)
(** * Further properties: the endpoint *)
(* ===================================================================== *)

Section EndpointProofs.
Import Schemas Utils Security Tools App AuthSpec RegistrySpec EndpointSpec.

Variable API_KEYS : list (string * KeyConfig).
Variable fnmatch : string -> string -> bool.
Variable registry : ToolRegistry.

Lemma verify_api_key_keeps (request request' : Request) (allowed : list string) :
  verify_api_key API_KEYS request = Ok (request', allowed) ->
  authorization request' = authorization request
  /\ url_path request' = url_path request
  /\ json_body request' = json_body request.
Proof.
  unfold verify_api_key. destruct API_KEYS as [|entry keys].
  - by intros [= <- <-].
  - destruct (authorization request) as [[|c h]|]; try discriminate.
    destruct (_ || _); [discriminate|].
    destruct (Py.dict_get _ _); [|discriminate]. by intros [= <- <-].
Qed.

Lemma verify_api_key_errors (request : Request) (e : Exn) :
  verify_api_key API_KEYS request = Raise e ->
  exists status detail headers,
    e = HTTPException status detail headers
    /\ ((status = 401 /\ headers = [("WWW-Authenticate"%string, "Bearer"%string)])
        \/ (status = 403 /\ headers = [])).
Proof.
  unfold verify_api_key. destruct API_KEYS as [|entry keys]; [discriminate|].
  destruct (authorization request) as [[|c h]|].
  - intros [= <-]. eexists _, _, _. split; [reflexivity | by left].
  - destruct (_ || _).
    + intros [= <-]. eexists _, _, _. split; [reflexivity | by left].
    + destruct (Py.dict_get _ _); [discriminate|].
      intros [= <-]. eexists _, _, _. split; [reflexivity | by right].
  - intros [= <-]. eexists _, _, _. split; [reflexivity | by left].
Qed.

Lemma mcp_endpoint_dispatch (req req' : Request) (allowed : list string)
    (body : list (string * PyValue)) :
  verify_api_key API_KEYS req = Ok (req', allowed) ->
  json_body req = Some (PyDict body) ->
  mcp_endpoint API_KEYS fnmatch registry req
  = wrap (Py.get_default body "id" PyNone)
      (if Py.str_eq (Py.get_default body "method" PyNone) "initialize"
       then Ok _handle_initialize
       else if Py.str_eq (Py.get_default body "method" PyNone) "tools/list"
       then _handle_tools_list fnmatch registry req'
       else if Py.str_eq (Py.get_default body "method" PyNone) "tools/call"
       then _handle_tools_call fnmatch registry body req'
       else Raise (MCPError (-32601)
                     ("Method not found: "
                      +:+ Py.str (Py.get_default body "method" PyNone)) PyNone)).
Proof.
  intros Hverify Hbody.
  destruct (verify_api_key_keeps req req' allowed Hverify) as (_ & _ & Hsame).
  unfold mcp_endpoint. rewrite Hverify. cbn [mbind result_bind Py.bind].
  rewrite Hsame, Hbody. cbn [Py.attr_get mbind result_bind Py.bind].
  match goal with |- match ?a with _ => _ end = wrap _ ?b => change b with a; destruct a as [r|e] end.
  - reflexivity.
  - destruct e; reflexivity.
Qed.

Lemma wrap_envelope (req_id : PyValue) (attempt : Result PyValue) :
  match wrap req_id attempt with
  | Ok answer =>
      is_envelope answer = true
      /\ (exists d, answer = PyDict d /\ Py.dict_get d "id" = Some req_id)
  | Raise e => e = CancelledError
  end.
Proof.
  destruct attempt as [r|e]; cbn.
  - split; [reflexivity | by eexists].
  - destruct e; cbn; try (split; [reflexivity | by eexists]). reflexivity.
Qed.

(** X5: whatever [mcp_endpoint] returns is a JSON-RPC 2.0 answer with a
    [result] or an [error], never both and never neither, and its [id]
    is the [id] of the request body, [None] when the body has none or is
    not JSON. *)
Theorem mcp_endpoint_answers (req : Request) :
  match mcp_endpoint API_KEYS fnmatch registry req with
  | Ok answer =>
      is_envelope answer = true
      /\ exists d, answer = PyDict d /\ Py.dict_get d "id" = Some (request_id_of req)
  | Raise _ => True
  end.
Proof.
  destruct (verify_api_key API_KEYS req) as [[req' allowed]|e] eqn:Hverify.
  - destruct (json_body req) as [[| | | | |body]|] eqn:Hbody.
    6: { rewrite (mcp_endpoint_dispatch req req' allowed body Hverify Hbody).
         unfold request_id_of. rewrite Hbody.
         pose proof (wrap_envelope (Py.get_default body "id" PyNone)
           (if Py.str_eq (Py.get_default body "method" PyNone) "initialize"
            then Ok _handle_initialize
            else if Py.str_eq (Py.get_default body "method" PyNone) "tools/list"
            then _handle_tools_list fnmatch registry req'
            else if Py.str_eq (Py.get_default body "method" PyNone) "tools/call"
            then _handle_tools_call fnmatch registry body req'
            else Raise (MCPError (-32601)
                          ("Method not found: "
                           +:+ Py.str (Py.get_default body "method" PyNone)) PyNone)))
           as H.
         destruct (wrap _ _); [exact H | done]. }
    all: destruct (verify_api_key_keeps req req' allowed Hverify) as (_ & _ & Hsame);
      unfold mcp_endpoint; rewrite Hverify; cbn [mbind result_bind Py.bind];
      rewrite Hsame, Hbody; cbn; try done.
    unfold request_id_of. rewrite Hbody. split; [reflexivity | by eexists].
  - unfold mcp_endpoint. by rewrite Hverify.
Qed.


Lemma tools_call_dispatch (body params : list (string * PyValue)) (n : string)
    (request : Request) :
  Py.get_default body "params" (PyDict []) = PyDict params ->
  Py.get_default params "name" PyNone = PyStr n ->
  _handle_tools_call fnmatch registry body request
  = if canInvoke fnmatch request n then
      match Py.dict_get (_tools registry) n with
      | None => Raise (MCPError (-32601) ("Tool not found: " +:+ n) PyNone)
      | Some t =>
          r ← call_with (handler t) (Py.get_default params "arguments" (PyDict [])) request;
          Ok (PyDict (format_tool_result r))
      end
    else Raise (MCPError (-32603)
                  ("Permission denied: Tool '" +:+ n
                   +:+ "' is not allowed for this API Key")
                  (PyDict [("tool"%string, PyStr n)])).
Proof.
  intros Hparams Hname. unfold _handle_tools_call. rewrite Hparams.
  cbn [Py.attr_get mbind result_bind Py.bind]. rewrite Hname, is_tool_allowed_str.
  cbn [mbind result_bind Py.bind].
  destruct (canInvoke fnmatch request n); [|reflexivity].
  cbn [negb]. unfold execute, tools_get, call_with. cbn [mbind result_bind Py.bind].
  destruct (Py.dict_get (_tools registry) n); reflexivity.
Qed.

(** X7: an exception of a handler becomes an [error] answer, sent with
    status 200: a [ValueError] is reported with code -32602 and the
    message ["Invalid params: ..."], an [MCPError] with its own code,
    message and data, any other exception with code -32603 and the
    message ["Internal error: ..."]. *)
Theorem handler_exception_reported (req req' : Request) (allowed : list string)
    (body params : list (string * PyValue)) (n : string) (t : ToolDefinition) (e : Exn) :
  verify_api_key API_KEYS req = Ok (req', allowed) ->
  json_body req = Some (PyDict body) ->
  Py.get_default body "method" PyNone = PyStr "tools/call" ->
  Py.get_default body "params" (PyDict []) = PyDict params ->
  Py.get_default params "name" PyNone = PyStr n ->
  canInvoke fnmatch req' n = true ->
  Py.dict_get (_tools registry) n = Some t ->
  call_with (handler t) (Py.get_default params "arguments" (PyDict [])) req' = Raise e ->
  Py.is_exception e = true ->
  let answer :=
    PyDict
      [ ("jsonrpc"%string, PyStr "2.0"); ("id"%string, Py.get_default body "id" PyNone);
        ("error"%string,
         PyDict (("code"%string, PyInt (reported_code e))
                 :: ("message"%string, PyStr (reported_message e))
                 :: match e with
                    | MCPError _ _ data => [("data"%string, data)]
                    | _ => []
                    end)) ] in
  mcp_endpoint API_KEYS fnmatch registry req = Ok answer
  /\ post_mcp API_KEYS fnmatch registry req = Ok (JSONResponse 200 answer).
Proof.
  intros Hverify Hbody Hmethod Hparams Hname Hcan Htool Hcall Hexc answer.
  assert (mcp_endpoint API_KEYS fnmatch registry req = Ok answer) as Hend.
  { rewrite (mcp_endpoint_dispatch req req' allowed body Hverify Hbody), Hmethod.
    cbn [Py.str_eq String.eqb Ascii.eqb Bool.eqb].
    rewrite (tools_call_dispatch body params n req' Hparams Hname), Hcan, Htool, Hcall.
    cbn [mbind result_bind Py.bind wrap]. by rewrite Hexc. }
  split; [exact Hend|]. unfold post_mcp. by rewrite Hend.
Qed.

Lemma any_fnmatch_other (v : PyValue) (patterns : list string) :
  (forall s, v <> PyStr s) ->
  any_fnmatch fnmatch v patterns
  = match patterns with
    | [] => Ok false
    | _ :: _ => Raise (TypeError ("expected str, bytes or os.PathLike object, not "
                                  +:+ Py.type_name v))
    end.
Proof.
  intros Hv. destruct patterns as [|p ps]; [done|]. cbn.
  destruct v; try reflexivity. by destruct (Hv s).
Qed.

(** X8: a [tools/call] that names no tool calls no handler and is
    answered with an error: with code -32601 ("Tool not found: None")
    when the token has no excluded pattern and ["*"] among its allowed
    ones, with code -32603 in every other case. *)
Theorem tools_call_without_name (req req' : Request) (allowed : list string)
    (body params : list (string * PyValue)) :
  verify_api_key API_KEYS req = Ok (req', allowed) ->
  json_body req = Some (PyDict body) ->
  Py.get_default body "method" PyNone = PyStr "tools/call" ->
  Py.get_default body "params" (PyDict []) = PyDict params ->
  Py.dict_get params "name" = None ->
  exists answer,
    mcp_endpoint API_KEYS fnmatch registry req = Ok answer
    /\ error_code answer
       = Some (PyInt (match get_excluded_tools req' with
                      | [] => if Py.contains (get_allowed_tools req') "*"
                              then -32601 else -32603
                      | _ :: _ => -32603
                      end)).
Proof.
  intros Hverify Hbody Hmethod Hparams Hname.
  rewrite (mcp_endpoint_dispatch req req' allowed body Hverify Hbody), Hmethod.
  cbn [Py.str_eq String.eqb Ascii.eqb Bool.eqb].
  unfold _handle_tools_call. rewrite Hparams.
  cbn [Py.attr_get mbind result_bind Py.bind].
  assert (Py.get_default params "name" PyNone = PyNone) as ->.
  { unfold Py.get_default. by rewrite Hname. }
  unfold is_tool_allowed.
  destruct (get_excluded_tools req') as [|x xs].
  - cbn [mbind result_bind Py.bind].
    destruct (Py.contains (get_allowed_tools req') "*").
    + eexists. split; reflexivity.
    + rewrite any_fnmatch_other by done.
      destruct (get_allowed_tools req'); eexists; split; reflexivity.
  - rewrite any_fnmatch_other by done. eexists. split; reflexivity.
Qed.

(** X9: a method other than [initialize], [tools/list] and [tools/call],
    also a missing one, is answered with code -32601 and the message
    ["Method not found: "] followed by the method as Python prints it
    ([None] when missing), whatever the catalog holds. *)
Theorem unknown_method_reported (req req' : Request) (allowed : list string)
    (body : list (string * PyValue)) :
  verify_api_key API_KEYS req = Ok (req', allowed) ->
  json_body req = Some (PyDict body) ->
  known_method (Py.get_default body "method" PyNone) = false ->
  mcp_endpoint API_KEYS fnmatch registry req
  = Ok (PyDict
          [ ("jsonrpc"%string, PyStr "2.0"); ("id"%string, Py.get_default body "id" PyNone);
            ("error"%string,
             PyDict [ ("code"%string, PyInt (-32601));
                      ("message"%string,
                       PyStr ("Method not found: "
                              +:+ Py.str (Py.get_default body "method" PyNone)));
                      ("data"%string, PyNone) ]) ]).
Proof.
  intros Hverify Hbody Hunknown. unfold known_method in Hunknown.
  apply orb_false_elim in Hunknown as [Hunknown H3].
  apply orb_false_elim in Hunknown as [H1 H2].
  rewrite (mcp_endpoint_dispatch req req' allowed body Hverify Hbody), H1, H2, H3.
  reflexivity.
Qed.

Lemma verify_api_key_ignores_body (request : Request) (body : option PyValue) :
  verify_api_key API_KEYS (with_body request body)
  = match verify_api_key API_KEYS request with
    | Ok (request', allowed) => Ok (with_body request' body, allowed)
    | Raise e => Raise e
    end.
Proof.
  unfold verify_api_key, with_body. cbn [authorization url_path json_body state].
  destruct API_KEYS as [|entry keys]; [reflexivity|].
  destruct (authorization request) as [[|c h]|]; try reflexivity.
  destruct (_ || _); [reflexivity|]. by destruct (Py.dict_get _ _).
Qed.

(** X10: authorization comes before everything else.  When
    [verify_api_key] refuses a request, the answer is the one of the
    exception handler, with status 401 or 403, and it is the same
    whatever the body of the request is, JSON or not, and whatever the
    catalog holds: no method is dispatched and no handler is called. *)
Theorem refused_before_dispatch (req : Request) (e : Exn) :
  verify_api_key API_KEYS req = Raise e ->
  exists response,
    (status_code response = 401 \/ status_code response = 403)
    /\ headers response = []
    /\ forall (other_match : string -> string -> bool) (other_registry : ToolRegistry)
          (body : option PyValue),
         post_mcp API_KEYS other_match other_registry (with_body req body) = Ok response.
Proof.
  intros Hverify.
  destruct (verify_api_key_errors req e Hverify)
    as (status & detail & exc_headers & -> & Hstatus).
  exists (http_exception_handler req status detail exc_headers).
  split; [cbn; destruct Hstatus as [[-> _]|[-> _]]; [by left | by right]
         | split; [reflexivity|]].
  intros other_match other_registry body. unfold post_mcp, mcp_endpoint.
  rewrite verify_api_key_ignores_body, Hverify. reflexivity.
Qed.

Lemma dict_get_in_nodup {V : Type} (d : list (string * V)) (key : string) (v : V) :
  NoDup (Py.dict_keys d) -> (key, v) ∈ d -> Py.dict_get d key = Some v.
Proof.
  induction d as [|[k x] d IH]; cbn; intros Hdup Hin.
  - by apply elem_of_nil in Hin.
  - apply NoDup_cons in Hdup as [Hk Hdup].
    apply elem_of_cons in Hin as [[= <- <-]|Hin].
    + by rewrite String.eqb_refl.
    + destruct (String.eqb_spec k key) as [->|Hne]; [|by apply IH].
      destruct Hk. unfold Py.dict_keys. apply list_elem_of_fmap. by exists (key, v).
Qed.

(** X11: [tools/list] and [tools/call] agree.  On a catalog built by
    registrations, every entry that [tools/list] returns names a
    registered tool, and a [tools/call] on that name by the same request
    passes the permission check and is answered by the handler registered
    under it; a registered tool that [tools/list] leaves out is refused
    by [tools/call] with code -32603. *)
Theorem listed_tools_are_callable (request : Request) :
  registry_ok registry ->
  exists listed,
    filter_allowed_tools fnmatch request (list_tools registry) = Ok listed
    /\ (forall tool, In tool listed ->
          exists t,
            Py.dict_get (_tools registry) (listed_name tool) = Some t
            /\ tool = listing (name t) (description t) (input_schema t)
            /\ is_tool_allowed fnmatch request (PyStr (listed_name tool)) = Ok true
            /\ forall body params,
                 Py.get_default body "params" (PyDict []) = PyDict params ->
                 Py.get_default params "name" PyNone = PyStr (listed_name tool) ->
                 _handle_tools_call fnmatch registry body request
                 = (r ← call_with (handler t)
                          (Py.get_default params "arguments" (PyDict [])) request;
                    Ok (PyDict (format_tool_result r))))
    /\ (forall n t,
          Py.dict_get (_tools registry) n = Some t ->
          ~ In (listing (name t) (description t) (input_schema t)) listed ->
          forall body params,
            Py.get_default body "params" (PyDict []) = PyDict params ->
            Py.get_default params "name" PyNone = PyStr (name t) ->
            exists message data,
              _handle_tools_call fnmatch registry body request
              = Raise (MCPError (-32603) message data)).
Proof.
  intros [Hdup Hnamed]. eexists. split; [apply filter_allowed_tools_catalog | split].
  - intros tool Hin. apply filter_In in Hin as [Hin Hcan].
    unfold list_tools, Py.dict_values in Hin. rewrite List.map_map in Hin.
    apply in_map_iff in Hin as ([k t] & <- & Hin). cbn [snd] in *.
    rewrite List.Forall_forall in Hnamed. pose proof (Hnamed _ Hin) as Hk. cbn in Hk.
    subst k. change (listed_name _) with (name t) in *.
    assert (Py.dict_get (_tools registry) (name t) = Some t) as Hget.
    { apply dict_get_in_nodup; [done | by apply list_elem_of_In]. }
    exists t. split; [exact Hget | split; [reflexivity | split]].
    + by rewrite is_tool_allowed_str, Hcan.
    + intros body params Hparams Hname.
      by rewrite (tools_call_dispatch body params (name t) request Hparams Hname),
        Hcan, Hget.
  - intros n t Hget Hout body params Hparams Hname.
    rewrite (tools_call_dispatch body params (name t) request Hparams Hname).
    destruct (canInvoke fnmatch request (name t)) eqn:Hcan; [|by eexists _, _].
    destruct Hout. apply filter_In. split; [|exact Hcan].
    unfold list_tools, Py.dict_values. rewrite List.map_map.
    apply in_map_iff. exists (n, t). split; [reflexivity|].
    clear -Hget. induction (_tools registry) as [|[k x] d IH]; [discriminate|].
    cbn in Hget. destruct (String.eqb_spec k n) as [->|Hne].
    + injection Hget as ->. by left.
    + right. by apply IH.
Qed.

End EndpointProofs.

(* ===================================================================== *)
(** * Further properties: the authorizer *)
(* ===================================================================== *)

Section AuthorizerProofs.
Import Security AuthSpec HeaderSpec.

Variable API_KEYS : list (string * KeyConfig).

(** ** Words of a header *)

Lemma append_cons (c : ascii) (a s : string) : String c a +:+ s = String c (a +:+ s).
Proof. reflexivity. Qed.

Lemma append_nil_l (s : string) : ""%string +:+ s = s.
Proof. reflexivity. Qed.

Ltac words :=
  rewrite ?append_cons, ?append_nil_l;
  cbn [list_ascii_of_string forallb Py.split_aux] in *.

Lemma split_aux_spaces (a s : string) :
  all_space a = true -> Py.split_aux [] (a +:+ s) = Py.split_aux [] s.
Proof.
  unfold all_space. induction a as [|c a IH]; words; [done|].
  intros H. apply andb_prop in H as [-> H]. by apply IH.
Qed.

Lemma split_aux_only_spaces (a : string) :
  all_space a = true -> Py.split_aux [] a = [].
Proof.
  unfold all_space. induction a as [|c a IH]; words; [done|].
  intros H. apply andb_prop in H as [-> H]. by apply IH.
Qed.

Lemma split_aux_end (cur : list ascii) (c : string) :
  cur <> [] -> all_space c = true ->
  Py.split_aux cur c = [string_of_list_ascii (rev cur)].
Proof.
  intros Hcur Hc. unfold all_space in *. destruct c as [|ch c]; words.
  - by destruct cur.
  - apply andb_prop in Hc as [-> Hc].
    rewrite (split_aux_only_spaces c Hc). by destruct cur.
Qed.

Lemma split_aux_gap (cur : list ascii) (b s : string) :
  cur <> [] -> all_space b = true -> b <> ""%string ->
  Py.split_aux cur (b +:+ s) = string_of_list_ascii (rev cur) :: Py.split_aux [] s.
Proof.
  intros Hcur Hb Hne. destruct b as [|ch b]; [done|].
  assert (all_space b = true /\ Py.is_space ch = true) as [Hb' Hch].
  { unfold all_space in *. words. apply andb_prop in Hb as [? ?]. done. }
  words. rewrite Hch, (split_aux_spaces b s Hb'). by destruct cur.
Qed.

Lemma split_aux_push (w s : string) (cur : list ascii) :
  forallb (fun c => negb (Py.is_space c)) (list_ascii_of_string w) = true ->
  Py.split_aux cur (w +:+ s) = Py.split_aux (rev (list_ascii_of_string w) ++ cur) s.
Proof.
  revert cur. induction w as [|c w IH]; intros cur Hw; words; [done|].
  apply andb_prop in Hw as [Hc Hw]. apply negb_true_iff in Hc.
  rewrite Hc, (IH (c :: cur) Hw). cbn [rev]. by rewrite <- app_assoc.
Qed.

Lemma token_chars (x : string) :
  is_token x = true ->
  forallb (fun c => negb (Py.is_space c)) (list_ascii_of_string x) = true
  /\ rev (list_ascii_of_string x) ++ [] <> []
  /\ string_of_list_ascii (rev (rev (list_ascii_of_string x) ++ [])) = x.
Proof.
  unfold is_token. intros H. apply andb_prop in H as [Hne Hx].
  split; [exact Hx | split].
  - destruct x as [|c x]; [discriminate|]. cbn. rewrite app_nil_r.
    intros H. apply (f_equal length) in H. rewrite length_app in H. cbn in H. lia.
  - by rewrite app_nil_r, rev_involutive, string_of_list_ascii_of_string.
Qed.

Lemma split_two_words (a scheme b x c : string) :
  all_space a = true -> is_token scheme = true ->
  all_space b = true -> b <> ""%string ->
  is_token x = true -> all_space c = true ->
  Py.split (a +:+ scheme +:+ b +:+ x +:+ c) = [scheme; x].
Proof.
  intros Ha Hscheme Hb Hbne Hx Hc. unfold Py.split.
  destruct (token_chars scheme Hscheme) as (Hs1 & Hs2 & Hs3).
  destruct (token_chars x Hx) as (Hx1 & Hx2 & Hx3).
  rewrite (split_aux_spaces a _ Ha), (split_aux_push scheme _ [] Hs1).
  rewrite (split_aux_gap _ b _ Hs2 Hb Hbne), Hs3.
  rewrite (split_aux_push x c [] Hx1), (split_aux_end _ c Hx2 Hc), Hx3. reflexivity.
Qed.

Lemma split_aux_words_nonempty (s : string) (cur : list ascii) :
  Forall (fun w => w <> ""%string) (Py.split_aux cur s).
Proof.
  assert (forall l : list ascii, l <> [] -> string_of_list_ascii (rev l) <> ""%string)
    as Hword.
  { intros l Hl H. apply (f_equal list_ascii_of_string) in H.
    rewrite list_ascii_of_string_of_list_ascii in H. cbn in H.
    apply (f_equal (@rev ascii)) in H. rewrite rev_involutive in H. by cbn in H. }
  revert cur. induction s as [|c s IH]; intros cur; words.
  - destruct cur as [|x cur]; [constructor|].
    constructor; [by apply Hword | constructor].
  - destruct (Py.is_space c); [|apply IH].
    destruct cur as [|x cur]; [apply IH|].
    constructor; [by apply Hword | apply IH].
Qed.

(** ** [verify_api_key] *)

(** X12: the scheme may be written in any case and the header may hold
    more white space.  With tokens configured, a header made of optional
    white space, a word that is [bearer] once put in lower case, white
    space (blanks, tabs, line ends), the token, and optional white space
    is treated as [Bearer token]: the token is looked up, a known one
    stamps the request and an unknown one is refused with 403. *)
Theorem bearer_header_shapes (request : Request) (a scheme b X c : string) :
  API_KEYS <> [] ->
  all_space a = true -> is_token scheme = true -> Py.lower scheme = "bearer"%string ->
  all_space b = true -> b <> ""%string ->
  is_token X = true -> all_space c = true ->
  let header := a +:+ scheme +:+ b +:+ X +:+ c in
  verify_api_key API_KEYS (with_authorization request header)
  = match Py.dict_get API_KEYS X with
    | Some config =>
        Ok (stamped (with_authorization request header) X config,
            default [] (tools config))
    | None => Raise (HTTPException 403 "Invalid API Key" [])
    end.
Proof.
  intros Hkeys Ha Hscheme Hlower Hb Hbne HX Hc header.
  pose proof (split_two_words a scheme b X c Ha Hscheme Hb Hbne HX Hc) as Hsplit.
  fold header in Hsplit.
  destruct API_KEYS as [|entry keys]; [done|].
  unfold verify_api_key, with_authorization, stamped. cbn [authorization].
  destruct header as [|ch rest] eqn:Hheader; [discriminate|].
  rewrite Hsplit. cbn [length nth Nat.eqb negb orb]. rewrite Hlower.
  cbn [String.eqb Ascii.eqb Bool.eqb negb].
  destruct (Py.dict_get (entry :: keys) X); reflexivity.
Qed.

(** X13: what a successful check leaves behind.  The request comes back
    with the same header, path and body; the list returned is the list
    that [get_allowed_tools] then reads from it; and checking the
    returned request again gives the same request and the same list. *)
Theorem verify_api_key_stamps (request request' : Request) (allowed : list string) :
  verify_api_key API_KEYS request = Ok (request', allowed) ->
  authorization request' = authorization request
  /\ url_path request' = url_path request
  /\ json_body request' = json_body request
  /\ get_allowed_tools request' = allowed
  /\ verify_api_key API_KEYS request' = Ok (request', allowed).
Proof.
  unfold verify_api_key. destruct API_KEYS as [|entry keys].
  - intros [= <- <-]. repeat split.
  - destruct (authorization request) as [[|ch h]|] eqn:Hauth; try discriminate.
    destruct (_ || _) eqn:Hshape; [discriminate|].
    destruct (Py.dict_get _ _) as [config|] eqn:Hget; [|discriminate].
    intros [= <- <-]. cbn [authorization url_path json_body state].
    rewrite Hshape, Hget. repeat split; done.
Qed.

(** X14: the only refusals.  [verify_api_key] fails with status 401 and
    the header [WWW-Authenticate: Bearer] on its exception, or with
    status 403 and no header, and with nothing else; with an empty token
    table it does not fail at all. *)
Theorem verify_api_key_refusals (request : Request) :
  (forall e,
     verify_api_key API_KEYS request = Raise e ->
     API_KEYS <> []
     /\ exists detail,
          e = HTTPException 401 detail [("WWW-Authenticate"%string, "Bearer"%string)]
          \/ e = HTTPException 403 detail [])
  /\ (API_KEYS = [] ->
      exists request', verify_api_key API_KEYS request = Ok (request', ["*"%string])).
Proof.
  split.
  - intros e He. split.
    + intros ->. discriminate.
    + destruct (verify_api_key_errors API_KEYS request e He)
        as (status & detail & headers & -> & [[-> ->]|[-> ->]]);
        exists detail; tauto.
  - intros ->. by eexists.
Qed.

Variable GMAIL_ACCOUNTS : list (string * list (string * string)).

(** X15: a token reaches the mailbox of its own entry only.  After a
    successful check against a non-empty table, the request carries a
    token of the table; [get_api_key_config] and [get_gmail_account]
    return the configuration and the account of that token, and
    [check_gmail_access] returns the credentials filed under that account,
    or raises a [ValueError] when the entry names no account or no
    credentials are filed under it (an empty record counts as none). *)
Theorem verified_request_mailbox (request request' : Request) (allowed : list string) :
  API_KEYS <> [] ->
  verify_api_key API_KEYS request = Ok (request', allowed) ->
  exists token config,
    Py.dict_get API_KEYS token = Some config
    /\ api_key (state request') = Some token
    /\ allowed = default [] (tools config)
    /\ get_excluded_tools request' = default [] (exclude_tools config)
    /\ get_api_key_config API_KEYS request' = config
    /\ get_gmail_account API_KEYS request' = gmail_account config
    /\ match check_gmail_access API_KEYS GMAIL_ACCOUNTS request' with
       | Ok (account, credentials) =>
           gmail_account config = Some account
           /\ Py.dict_get GMAIL_ACCOUNTS account = Some credentials
           /\ credentials <> []
       | Raise e =>
           (exists msg, e = ValueError msg)
           /\ match gmail_account config with
              | None | Some EmptyString => True
              | Some account =>
                  Py.dict_get GMAIL_ACCOUNTS account = None
                  \/ Py.dict_get GMAIL_ACCOUNTS account = Some []
              end
       end.
Proof.
  intros Hkeys. unfold verify_api_key. destruct API_KEYS as [|entry keys] eqn:Hk; [done|].
  destruct (authorization request) as [[|ch h]|] eqn:Hauth; try discriminate.
  destruct (_ || _) eqn:Hshape; [discriminate|].
  destruct (Py.dict_get _ _) as [config|] eqn:Hget; [|discriminate].
  intros [= <- <-].
  set (token := nth 1 (Py.split (String ch h)) ""%string) in *.
  assert (token <> ""%string) as Htoken.
  { apply orb_false_elim in Hshape as [Hlen _]. apply negb_false_iff in Hlen.
    apply Nat.eqb_eq in Hlen.
    pose proof (split_aux_words_nonempty (String ch h) []) as Hwords.
    fold (Py.split (String ch h)) in Hwords. subst token.
    destruct (Py.split (String ch h)) as [|p0 [|p1 [|p2 ps]]]; try discriminate.
    cbn. apply Forall_cons in Hwords as [_ Hwords]. by apply Forall_cons in Hwords as [? _]. }
  assert (get_api_key_config (entry :: keys)
            {| authorization := Some (String ch h); url_path := url_path request;
               json_body := json_body request;
               state := {| allowed_tools := Some (default [] (tools config));
                           excluded_tools := Some (default [] (exclude_tools config));
                           api_key := Some token |} |} = config) as Hconfig.
  { unfold get_api_key_config. cbn [state api_key].
    destruct (String.eqb_spec token ""); [done|].
    destruct token; [done|]. by rewrite Hget. }
  exists token, config. split; [exact Hget|].
  split; [reflexivity | split; [reflexivity | split; [reflexivity|]]].
  split; [exact Hconfig|].
  unfold check_gmail_access, get_gmail_credentials, get_gmail_account. rewrite Hconfig.
  split; [reflexivity|].
  destruct (gmail_account config) as [[|c0 account]|].
  - split; [by eexists | done].
  - destruct (Py.dict_get GMAIL_ACCOUNTS (String c0 account)) as [[|cr crs]|] eqn:Hcred.
    + split; [by eexists | by right].
    + repeat split; done.
    + split; [by eexists | by left].
  - split; [by eexists | done].
Qed.

End AuthorizerProofs.

(* ===================================================================== *)
(** * Further properties: the agent bridge *)
(* ===================================================================== *)

Section BridgeExtraProofs.
Import Remote BridgeSpec TableSpec.

Variable REMOTE_BROWSER_TOKEN : string.

Ltac open_world :=
  unfold table_ok, calls, pending in *;
  cbn [with_pending with_manager with_futures with_sockets with_connection pop_pending
       install loop_end ws_close fst snd
       manager sockets futures next_future _pending_requests _websocket] in *.

(** ** The first frame *)

(** X16: only the token opens the bridge.  Unless the first frame is an
    [auth] frame carrying the configured token, the handshake closes the
    new connection and does not enter the message loop, and the manager,
    its active connection, the other connections and the pending calls
    stay as they were. *)
Theorem handshake_rejects (w : World) (websocket : nat) (first : Recv)
    (reply : SendOutcome) :
  accepted REMOTE_BROWSER_TOKEN first = false ->
  let after := handshake REMOTE_BROWSER_TOKEN w websocket first reply in
  snd after = false
  /\ manager (fst after) = manager w
  /\ futures (fst after) = futures w
  /\ open <$> sockets (fst after) !! websocket <> Some true
  /\ forall other, other <> websocket ->
       open <$> sockets (fst after) !! other = open <$> sockets w !! other.
Proof.
  intros Hno after.
  assert (forall v : World,
            manager v = manager w -> futures v = futures w ->
            (forall other, other <> websocket ->
               open <$> sockets v !! other = open <$> sockets w !! other) ->
            let closed := ws_close v websocket in
            manager closed = manager w /\ futures closed = futures w
            /\ open <$> sockets closed !! websocket <> Some true
            /\ forall other, other <> websocket ->
                 open <$> sockets closed !! other = open <$> sockets w !! other)
    as Hclose.
  { intros v Hm Hf Hs closed. subst closed. open_world.
    split; [done | split; [done | split]].
    - rewrite lookup_alter_eq. by destruct (sockets v !! websocket).
    - intros other Hne. rewrite lookup_alter_ne by done. by apply Hs. }
  assert (forall v frame, ws_send w websocket frame reply = Ok v ->
            manager v = manager w /\ futures v = futures w
            /\ forall other, other <> websocket ->
                 open <$> sockets v !! other = open <$> sockets w !! other)
    as Hsend.
  { intros v frame. unfold ws_send.
    destruct (sockets w !! websocket) as [s|]; [|discriminate].
    destruct reply; [|discriminate]. destruct (open s); [|discriminate].
    intros [= <-]. open_world. split; [done | split; [done|]].
    intros other Hne. by rewrite lookup_insert_ne. }
  subst after. unfold handshake.
  destruct first as [| |[auth_data|]]; try (split; [done | by apply Hclose]).
  destruct auth_data as [| | | | |fields]; try (split; [done | by apply Hclose]).
  cbn [Py.attr_get]. cbn [accepted] in Hno. unfold authenticates in Hno.
  destruct (Py.str_eq (Py.get_default fields "type" PyNone) "auth"); cbn [negb].
  - cbn [andb] in Hno. rewrite Hno. cbn [negb].
    destruct (ws_send _ _ _ _) as [v|e] eqn:E; cbn [fst snd].
    + destruct (Hsend v _ E) as (? & ? & ?). split; [done | by apply Hclose].
    + split; [done | by apply Hclose].
  - destruct (ws_send _ _ _ _) as [v|e] eqn:E; cbn [fst snd].
    + destruct (Hsend v _ E) as (? & ? & ?). split; [done | by apply Hclose].
    + split; [done | by apply Hclose].
Qed.

(** X17: the end of a replaced connection cuts off its successor.  When
    a second agent has authenticated and the message loop of the first
    then ends, the manager refers to no connection: [is_connected] is
    false and [send_command] fails with the no-agent error, although the
    connection of the second agent is still open. *)
Theorem loop_end_after_replacement (w : World) (websocket : nat) (s : Socket)
    (auth_data : list (string * PyValue)) :
  authenticates REMOTE_BROWSER_TOKEN auth_data = true ->
  sockets w !! websocket = Some s ->
  open s = true ->
  let replaced :=
    fst (handshake REMOTE_BROWSER_TOKEN w websocket
           (RecvFrame (Some (PyDict auth_data))) Sent) in
  let after := loop_end replaced in
  is_connected replaced = true
  /\ is_connected after = false
  /\ open <$> sockets after !! websocket = Some true
  /\ forall request_id action params outcome cancel events,
       send_command REMOTE_BROWSER_TOKEN after request_id action params outcome cancel
         events
       = (after, Raise (RuntimeError "無遠端 Browser Agent 連線")).
Proof.
  intros Hauth Hs Hopen replaced after. subst after replaced.
  rewrite (handshake_success REMOTE_BROWSER_TOKEN w websocket s auth_data Hauth Hs Hopen).
  cbn [fst]. split; [|split; [reflexivity | split]].
  - unfold is_connected. open_world. by rewrite lookup_insert_eq.
  - open_world. by rewrite lookup_insert_eq.
  - intros request_id action params outcome cancel events. reflexivity.
Qed.

(** ** The table of pending calls *)

Lemma table_ok_calls (w w' : World) :
  calls w' = calls w -> table_ok w -> table_ok w'.
Proof.
  unfold calls, table_ok, pending. intros [= Hp Hf Hn]. by rewrite Hp, Hf, Hn.
Qed.

Lemma handle_response (w : World) (request_id : string) (fields : list (string * PyValue)) :
  is_response request_id (Some (PyDict fields)) = true ->
  _handle_message w (Some (PyDict fields))
  = match pending w !! request_id with
    | Some future =>
        let w' := with_pending w (delete request_id (pending w)) in
        match futures w !! future with
        | Some FPending =>
            with_futures w' (<[future := FResult (PyDict fields)]> (futures w))
        | _ => w'
        end
    | None => w
    end.
Proof.
  unfold is_response, is_reply_to, _handle_message, pending. cbn [Py.attr_get].
  intros H. apply andb_prop in H as [-> Hid].
  destruct (Py.get_default fields "request_id" PyNone) as [| | |r| |]; try discriminate.
  cbn [Py.str_eq] in Hid. apply String.eqb_eq in Hid as ->. reflexivity.
Qed.

Lemma table_ok_message (w : World) (message : option PyValue) :
  table_ok w -> table_ok (_handle_message w message).
Proof.
  intros Hok. unfold _handle_message.
  destruct message as [data|]; [|exact Hok].
  destruct data as [| | | | |fields]; try exact Hok. cbn [Py.attr_get].
  destruct (Py.str_eq (Py.get_default fields "type" PyNone) "response"); [|exact Hok].
  destruct (Py.get_default fields "request_id" PyNone) as [| | |r| |]; try exact Hok.
  destruct (_pending_requests (manager w) !! r) as [x|] eqn:Hr; [|exact Hok].
  destruct (Hok r x Hr) as (Hlt & Hwait & Hinj).
  cbn [with_pending with_manager futures]. rewrite Hwait.
  open_world. intros rid f Hslot.
  apply lookup_delete_Some in Hslot as [Hne Hslot].
  destruct (Hok rid f Hslot) as (Hlt' & Hwait' & Hinj').
  assert (f <> x) as Hfx by (intros ->; by apply Hne, eq_sym, Hinj).
  split; [done | split; [by rewrite lookup_insert_ne|]].
  intros other Hother. apply lookup_delete_Some in Hother as [_ Hother]. by apply Hinj'.
Qed.

Lemma table_ok_install (w : World) (request_id : string) :
  table_ok w -> table_ok (fst (install w request_id)).
Proof.
  intros Hok. open_world. intros rid f Hslot.
  apply lookup_insert_Some in Hslot as [[<- <-]|[Hne Hslot]].
  - split; [lia | split; [apply lookup_insert_eq|]].
    intros other Hother. apply lookup_insert_Some in Hother as [[? _]|[_ Hother]]; [done|].
    destruct (Hok other _ Hother) as (Hlt & _). lia.
  - destruct (Hok rid f Hslot) as (Hlt & Hwait & Hinj).
    split; [lia | split; [rewrite lookup_insert_ne; [done | lia]|]].
    intros other Hother. apply lookup_insert_Some in Hother as [[_ ?]|[_ Hother]]; [lia|].
    by apply Hinj.
Qed.

Lemma table_ok_pop (w : World) (request_id : string) :
  table_ok w -> table_ok (pop_pending w request_id).
Proof.
  intros Hok. open_world. intros rid f Hslot.
  apply lookup_delete_Some in Hslot as [Hne Hslot].
  destruct (Hok rid f Hslot) as (Hlt & Hwait & Hinj).
  split; [done | split; [done|]].
  intros other Hother. apply lookup_delete_Some in Hother as [_ Hother]. by apply Hinj.
Qed.

Lemma table_ok_step (w : World) (ev : Event) :
  no_cancellation ev = true ->
  table_ok w -> table_ok (step REMOTE_BROWSER_TOKEN w ev).
Proof.
  intros Hev Hok. destruct ev as [ws|ws first reply|message|ws|ws|r|r|r]; cbn [step];
    [| | | | | | |discriminate].
  - exact Hok.
  - by apply (table_ok_calls w), Hok; [apply handshake_calls].
  - by apply table_ok_message.
  - exact Hok.
  - exact Hok.
  - destruct (is_connected w); [by apply table_ok_install | exact Hok].
  - by apply table_ok_pop.
Qed.

Lemma table_ok_run (events : list Event) (w : World) :
  forallb no_cancellation events = true ->
  table_ok w -> table_ok (run REMOTE_BROWSER_TOKEN w events).
Proof.
  revert w. induction events as [|ev events IH]; intros w Hev Hok; [exact Hok|].
  cbn in Hev. apply andb_prop in Hev as [Hev Hrest].
  cbn [run fold_left]. apply IH; [exact Hrest|]. by apply table_ok_step.
Qed.

(** ** The table when callers are cancelled *)












Lemma table_ok_initial : table_ok initial.
Proof.
  intros rid f H. unfold pending, initial in H. cbn in H. by rewrite lookup_empty in H.
Qed.



(** X19: the order of replies does not matter.  On a clean table, two
    response frames for different request ids leave the same world
    whichever reaches [_handle_message] first. *)
Theorem replies_commute (w : World) (r1 r2 : string)
    (reply1 reply2 : list (string * PyValue)) :
  table_ok w ->
  r1 <> r2 ->
  is_response r1 (Some (PyDict reply1)) = true ->
  is_response r2 (Some (PyDict reply2)) = true ->
  _handle_message (_handle_message w (Some (PyDict reply1))) (Some (PyDict reply2))
  = _handle_message (_handle_message w (Some (PyDict reply2))) (Some (PyDict reply1)).
Proof.
  intros Hok Hne H1 H2.
  rewrite (handle_response w r1 reply1 H1), (handle_response w r2 reply2 H2).
  destruct (pending w !! r1) as [f1|] eqn:Hr1, (pending w !! r2) as [f2|] eqn:Hr2.
  - destruct (Hok r1 f1 Hr1) as (_ & Hw1 & Hinj1).
    destruct (Hok r2 f2 Hr2) as (_ & Hw2 & _).
    assert (f1 <> f2) as Hf by (intros ->; by apply Hne, eq_sym, Hinj1).
    rewrite Hw1, Hw2. cbn zeta.
    rewrite (handle_response _ r2 reply2 H2), (handle_response _ r1 reply1 H1).
    unfold pending in *. open_world.
    rewrite lookup_delete_ne, Hr2 by done. rewrite (lookup_delete_ne _ r2 r1), Hr1 by done.
    rewrite lookup_insert_ne, Hw2 by done. rewrite (lookup_insert_ne _ f2 f1), Hw1 by done.
    unfold with_futures, with_pending, with_manager. cbn.
    rewrite (delete_delete (_pending_requests (manager w)) r2 r1).
    by rewrite (insert_insert_ne (futures w) f1 f2).
  - destruct (Hok r1 f1 Hr1) as (_ & Hw1 & _). rewrite Hw1. cbn zeta.
    rewrite (handle_response _ r2 reply2 H2), (handle_response _ r1 reply1 H1).
    unfold pending in *. open_world.
    by rewrite lookup_delete_ne, Hr2, Hr1, Hw1 by done.
  - destruct (Hok r2 f2 Hr2) as (_ & Hw2 & _). rewrite Hw2. cbn zeta.
    rewrite (handle_response _ r2 reply2 H2), (handle_response _ r1 reply1 H1).
    unfold pending in *. open_world.
    by rewrite lookup_delete_ne, Hr1, Hr2, Hw2 by done.
  - rewrite (handle_response _ r2 reply2 H2), (handle_response _ r1 reply1 H1).
    by rewrite Hr1, Hr2.
Qed.

(** ** Calls and their replies *)

(** The world a call waits in, once its command is written. *)
Lemma send_command_waiting (w : World) (request_id action : string) (params : PyValue)
    (events : list Event) :
  well_formed w -> is_connected w = true ->
  exists w2,
    Waiting request_id (next_future w) (calls w2)
    /\ send_command REMOTE_BROWSER_TOKEN w request_id action params Sent NotCancelled
         events
       = let w3 := run REMOTE_BROWSER_TOKEN w2 events in
         match futures w3 !! next_future w with
         | Some (FResult result) =>
             match Py.attr_get result with
             | Raise e => (pop_pending w3 request_id, Raise e)
             | Ok result =>
                 if negb (Py.truthy (Py.get_default result "success" (PyBool false)))
                 then (pop_pending w3 request_id,
                       Raise (RuntimeError
                                ("遠端執行失敗: "
                                 +:+ Py.str (Py.get_default result "error"
                                               (PyStr "未知錯誤")))))
                 else (w3, Ok (Py.get_default result "data" (PyDict [])))
             end
         | Some FPending =>
             (pop_pending
                (with_futures w3 (<[next_future w := FCancelled]> (futures w3)))
                request_id,
              Raise TimeoutError)
         | Some FCancelled | None => (w3, Raise CancelledError)
         end.
Proof.
  intros Hwf Hconn.
  destruct (is_connected_inv w Hconn) as (ws & s & Hws & Hs & Hopen).
  destruct (send_command_sent REMOTE_BROWSER_TOKEN w ws s request_id action params events
              Hws Hs Hopen) as (w2 & Hcalls & Hsend).
  exists w2. split; [|exact Hsend].
  rewrite Hcalls. by apply install_fresh_waiting.
Qed.

(** X20: a reply that comes after the timeout is dropped.  When no
    response to its request id arrives before the wait ends, a call of
    [send_command] that is not cancelled fails with a timeout and leaves
    its future cancelled; a response to that id which reaches
    [_handle_message] afterwards changes nothing. *)
Theorem late_reply_is_dropped (w : World) (request_id action : string) (params : PyValue)
    (events : list Event) (message : option PyValue) :
  well_formed w ->
  is_connected w = true ->
  forallb (foreign request_id) events = true ->
  existsb (is_reply_to request_id) events = false ->
  is_response request_id message = true ->
  let result :=
    send_command REMOTE_BROWSER_TOKEN w request_id action params Sent NotCancelled
      events in
  snd result = Raise TimeoutError
  /\ futures (fst result) !! next_future w = Some FCancelled
  /\ _handle_message (fst result) message = fst result.
Proof.
  intros Hwf Hconn Hforeign Hnone Hmessage result.
  destruct (send_command_waiting w request_id action params events Hwf Hconn)
    as (w2 & Hwait & Hsend).
  subst result. rewrite Hsend. clear Hsend. cbn zeta.
  pose proof (run_waiting REMOTE_BROWSER_TOKEN request_id (next_future w) events w2
                Hwait Hforeign Hnone) as Hw3.
  set (w3 := run REMOTE_BROWSER_TOKEN w2 events) in *.
  unfold Waiting, calls in Hw3. destruct Hw3 as (_ & _ & -> & _). cbn [fst snd].
  split; [reflexivity | split].
  - open_world. apply lookup_insert_eq.
  - destruct message as [[| | | | |fields]|]; try discriminate.
    rewrite (handle_response _ request_id fields Hmessage).
    unfold pending. open_world. by rewrite lookup_delete_eq.
Qed.

(** X21: [get_remote_url] reads the reply.  Without an agent it fails
    with the no-agent error; when no response arrives (and the caller is
    not cancelled) it fails with a timeout; otherwise the first response
    to its request id decides: a failure is raised as a remote error, and
    a success gives the [url] of its [data], the empty string when [data]
    has no [url] or the response has no [data]. *)
Theorem get_remote_url_reads_reply (w : World) (request_id : string)
    (events : list Event) :
  well_formed w ->
  forallb (foreign request_id) events = true ->
  (is_connected w = false ->
   snd (get_remote_url REMOTE_BROWSER_TOKEN w request_id Sent NotCancelled events)
   = Raise (RuntimeError "無遠端 Browser Agent 連線"))
  /\ (is_connected w = true ->
      existsb (is_reply_to request_id) events = false ->
      snd (get_remote_url REMOTE_BROWSER_TOKEN w request_id Sent NotCancelled events)
      = Raise TimeoutError)
  /\ (is_connected w = true ->
      forall before fields after,
        events = before ++ EvMessage (Some (PyDict fields)) :: after ->
        existsb (is_reply_to request_id) before = false ->
        is_reply_to request_id (EvMessage (Some (PyDict fields))) = true ->
        snd (get_remote_url REMOTE_BROWSER_TOKEN w request_id Sent NotCancelled events)
        = if Py.truthy (Py.get_default fields "success" (PyBool false))
          then data ← Py.attr_get (Py.get_default fields "data" (PyDict []));
               Ok (Py.get_default data "url" (PyStr ""))
          else Raise (RuntimeError
                        ("遠端執行失敗: "
                         +:+ Py.str (Py.get_default fields "error" (PyStr "未知錯誤"))))).
Proof.
  intros Hwf Hforeign. unfold get_remote_url, reply_field. cbn [snd].
  split; [|split].
  - intros Hconn. unfold send_command. by rewrite Hconn.
  - intros Hconn Hnone.
    destruct (send_command_waiting w request_id "get_url" (PyDict []) events Hwf Hconn)
      as (w2 & Hwait & ->). cbn zeta.
    pose proof (run_waiting REMOTE_BROWSER_TOKEN request_id (next_future w) events w2
                  Hwait Hforeign Hnone) as Hw3.
    unfold Waiting, calls in Hw3. by destruct Hw3 as (_ & _ & -> & _).
  - intros Hconn before fields after -> Hnone Hreply.
    destruct (send_command_waiting w request_id "get_url" (PyDict [])
                (before ++ EvMessage (Some (PyDict fields)) :: after) Hwf Hconn)
      as (w2 & Hwait & ->). cbn zeta.
    pose proof (run_first_reply REMOTE_BROWSER_TOKEN request_id (next_future w)
                  before after fields w2 Hwait Hforeign Hnone Hreply) as Hw3.
    unfold Settled, calls in Hw3. destruct Hw3 as (_ & _ & -> & _).
    cbn [Py.attr_get].
    by destruct (Py.truthy (Py.get_default fields "success" (PyBool false))).
Qed.

End BridgeExtraProofs.

(* ===================================================================== *)
(** * Further properties on sample inputs *)
(* ===================================================================== *)

Section MoreSampleRuns.
Import Schemas Utils Security Tools App AuthSpec Samples Remote BridgeSpec.
Import RegistrySpec EndpointSpec HeaderSpec TableSpec MoreSamples.

Lemma sample_registry_ok : registry_ok sample_registry.
Proof.
  unfold sample_registry. repeat apply register_ok.
  split; [apply NoDup_nil_2 | apply Forall_nil_2].
Qed.

(** X4 on the sample catalog and the new tool [strict]. *)
Lemma register_fresh_appends_witness :
  Py.dict_get (_tools sample_registry) "strict" = None
  /\ get_tool_count strict_registry = 4%nat
  /\ List.map listed_name (list_tools strict_registry)
     = ["probe"%string; "echo"%string; "web_click"%string; "strict"%string].
Proof.
  split; [reflexivity|].
  destruct (register_fresh_appends sample_registry "strict" "checks its arguments"
              schema strict eq_refl) as [Hlist Hcount].
  split; [exact Hcount|]. unfold strict_registry. by rewrite Hlist.
Defined.

(** X7 on a call of [strict], which raises a [ValueError]. *)
Lemma handler_exception_reported_witness :
  post_mcp [] glob strict_registry (post None (tools_call "strict"))
  = Ok (JSONResponse 200
          (PyDict
             [ ("jsonrpc"%string, PyStr "2.0"); ("id"%string, PyInt 7);
               ("error"%string,
                PyDict [ ("code"%string, PyInt (-32602));
                         ("message"%string, PyStr "Invalid params: path is required") ]) ])).
Proof.
  refine (proj2 (handler_exception_reported [] glob strict_registry
    (post None (tools_call "strict"))
    {| authorization := None; url_path := "/mcp";
       json_body := Some (tools_call "strict");
       state := {| allowed_tools := Some ["*"%string]; excluded_tools := None;
                   api_key := None |} |}
    ["*"%string]
    [ ("jsonrpc"%string, PyStr "2.0"); ("id"%string, PyInt 7);
      ("method"%string, PyStr "tools/call");
      ("params"%string,
       PyDict [("name"%string, PyStr "strict"); ("arguments"%string, PyDict [])]) ]
    [("name"%string, PyStr "strict"); ("arguments"%string, PyDict [])]
    "strict"
    {| name := "strict"; description := "checks its arguments";
       input_schema := schema; handler := strict |}
    (ValueError "path is required") _ _ _ _ _ _ _ _ _)); reflexivity.
Defined.

(** X8 on a call without a name, no token being configured. *)
Lemma tools_call_without_name_witness :
  exists answer,
    mcp_endpoint [] glob sample_registry (post None nameless_call) = Ok answer
    /\ error_code answer = Some (PyInt (-32601)).
Proof.
  refine (tools_call_without_name [] glob sample_registry (post None nameless_call)
    {| authorization := None; url_path := "/mcp"; json_body := Some nameless_call;
       state := {| allowed_tools := Some ["*"%string]; excluded_tools := None;
                   api_key := None |} |}
    ["*"%string]
    [ ("jsonrpc"%string, PyStr "2.0"); ("id"%string, PyInt 8);
      ("method"%string, PyStr "tools/call");
      ("params"%string, PyDict [("arguments"%string, PyDict [])]) ]
    [("arguments"%string, PyDict [])] _ _ _ _ _); reflexivity.
Defined.

(** X9 on the method [ping]. *)
Lemma unknown_method_reported_witness :
  mcp_endpoint [] glob sample_registry (post None ping)
  = Ok (PyDict
          [ ("jsonrpc"%string, PyStr "2.0"); ("id"%string, PyStr "a");
            ("error"%string,
             PyDict [ ("code"%string, PyInt (-32601));
                      ("message"%string, PyStr "Method not found: ping");
                      ("data"%string, PyNone) ]) ]).
Proof.
  refine (unknown_method_reported [] glob sample_registry (post None ping)
    {| authorization := None; url_path := "/mcp"; json_body := Some ping;
       state := {| allowed_tools := Some ["*"%string]; excluded_tools := None;
                   api_key := None |} |}
    ["*"%string]
    [ ("jsonrpc"%string, PyStr "2.0"); ("id"%string, PyStr "a");
      ("method"%string, PyStr "ping") ] _ _ _); reflexivity.
Defined.

(** X10 on an unknown token and a body that is not JSON. *)
Lemma refused_before_dispatch_witness :
  exists response,
    (status_code response = 401 \/ status_code response = 403)
    /\ headers response = []
    /\ post_mcp sample_keys glob strict_registry
         (with_body (post (Some "Bearer nobody"%string) ping) None) = Ok response.
Proof.
  destruct (refused_before_dispatch sample_keys (post (Some "Bearer nobody"%string) ping)
              (HTTPException 403 "Invalid API Key" []) eq_refl)
    as (response & Hstatus & Hheaders & Hsame).
  exists response. split; [exact Hstatus | split; [exact Hheaders|]].
  apply Hsame.
Defined.

(** X11 on the token [T]: [probe] and [echo] are listed. *)
Lemma listed_tools_are_callable_witness :
  let request := stamped (post (Some "Bearer T"%string) (tools_call "echo")) "T" config_T in
  registry_ok sample_registry
  /\ exists listed,
       filter_allowed_tools glob request (list_tools sample_registry) = Ok listed
       /\ List.map listed_name listed = ["probe"%string; "echo"%string].
Proof.
  intros request. split; [exact sample_registry_ok|].
  destruct (listed_tools_are_callable glob sample_registry request sample_registry_ok)
    as (listed & Hlisted & _).
  exists listed. split; [exact Hlisted|].
  assert (Ok listed = Ok (A:=list (list (string * PyValue)))
                        [ listing "probe" "reports its call" schema;
                          listing "echo" "returns its arguments" schema ]) as H.
  { rewrite <- Hlisted. reflexivity. }
  injection H as ->. reflexivity.
Defined.

(** X12 on the header [ BEARER   T ]. *)
Lemma bearer_header_shapes_witness :
  sample_keys <> []
  /\ fst <$> verify_api_key sample_keys
               (with_authorization (post None ping) " BEARER   T ")
     = Ok (stamped (with_authorization (post None ping) " BEARER   T ") "T" config_T).
Proof.
  split; [discriminate|].
  pose proof (bearer_header_shapes sample_keys (post None ping) " " "BEARER" "   " "T" " "
                ltac:(discriminate) eq_refl eq_refl eq_refl eq_refl ltac:(discriminate)
                eq_refl eq_refl) as H.
  cbn zeta in H.
  change (" " +:+ "BEARER" +:+ "   " +:+ "T" +:+ " ") with " BEARER   T "%string in H.
  by rewrite H.
Defined.

(** X13 on the token [T]. *)
Lemma verify_api_key_stamps_witness :
  let request := post (Some "Bearer T"%string) ping in
  verify_api_key sample_keys request = Ok (stamped request "T" config_T, ["*"%string])
  /\ verify_api_key sample_keys (stamped request "T" config_T)
     = Ok (stamped request "T" config_T, ["*"%string]).
Proof.
  intros request. split; [reflexivity|].
  by destruct (verify_api_key_stamps sample_keys request (stamped request "T" config_T)
                 ["*"%string] eq_refl) as (_ & _ & _ & _ & H).
Defined.

(** X15 on the token [M] and its mailbox. *)
Lemma verified_request_mailbox_witness :
  let request := post (Some "Bearer M"%string) ping in
  mail_keys <> []
  /\ verify_api_key mail_keys request = Ok (stamped request "M" config_M, ["gmail_*"%string])
  /\ exists credentials,
       check_gmail_access mail_keys mail_accounts (stamped request "M" config_M)
       = Ok ("a@example.com"%string, credentials).
Proof.
  intros request.
  assert (mail_keys <> []) as Hkeys by discriminate.
  split; [exact Hkeys | split; [reflexivity|]].
  destruct (verified_request_mailbox mail_keys mail_accounts request
              (stamped request "M" config_M) ["gmail_*"%string] Hkeys eq_refl)
    as (token & config & _ & _ & _ & _ & _ & _ & Hcheck).
  by eexists.
Defined.

(** X16 on a second agent that guesses the token. *)
Lemma handshake_rejects_witness :
  let after := handshake "secret" one_call_in_flight 2
                 (RecvFrame (Some (auth_frame "guess" "A2"))) Sent in
  accepted "secret" (RecvFrame (Some (auth_frame "guess" "A2"))) = false
  /\ snd after = false
  /\ _websocket (manager (fst after)) = Some 1%nat
  /\ open <$> sockets (fst after) !! 2%nat = Some false.
Proof.
  intros after.
  destruct (handshake_rejects "secret" one_call_in_flight 2
              (RecvFrame (Some (auth_frame "guess" "A2"))) Sent eq_refl)
    as (Hout & Hmanager & _).
  split; [reflexivity | split; [exact Hout | split]].
  - subst after. by rewrite Hmanager.
  - by vm_compute.
Defined.

(** X17 on the two agents of [one_call_in_flight]. *)
Lemma loop_end_after_replacement_witness :
  let replaced :=
    fst (handshake "secret" one_call_in_flight 2
           (RecvFrame (Some (auth_frame "secret" "A2"))) Sent) in
  authenticates "secret" (auth_fields "secret" "A2") = true
  /\ sockets one_call_in_flight !! 2%nat = Some {| open := true; sent := [] |}
  /\ is_connected replaced = true
  /\ is_connected (loop_end replaced) = false
  /\ open <$> sockets (loop_end replaced) !! 2%nat = Some true.
Proof.
  intros replaced.
  assert (sockets one_call_in_flight !! 2%nat = Some {| open := true; sent := [] |}) as Hs
    by (by vm_compute).
  destruct (loop_end_after_replacement "secret" one_call_in_flight 2
              {| open := true; sent := [] |} (auth_fields "secret" "A2") eq_refl Hs eq_refl)
    as (Hbefore & Hafter & Hopen & _).
  split; [reflexivity | split; [exact Hs | split; [exact Hbefore | split]]].
  - exact Hafter.
  - exact Hopen.
Defined.

Lemma two_calls_in_flight_ok : table_ok two_calls_in_flight.
Proof. apply table_ok_run; [reflexivity | apply table_ok_initial]. Qed.

(** X19 on the replies to [r1] and [r2]. *)
Lemma replies_commute_witness :
  table_ok two_calls_in_flight
  /\ pending two_calls_in_flight !! "r1" = Some 0%nat
  /\ pending two_calls_in_flight !! "r2" = Some 1%nat
  /\ _handle_message
       (_handle_message two_calls_in_flight
          (Some (PyDict (reply_fields "r2" [("success"%string, PyBool true)]))))
       (Some (PyDict (reply_fields "r1" [("success"%string, PyBool false)])))
     = _handle_message
         (_handle_message two_calls_in_flight
            (Some (PyDict (reply_fields "r1" [("success"%string, PyBool false)]))))
         (Some (PyDict (reply_fields "r2" [("success"%string, PyBool true)]))).
Proof.
  split; [exact two_calls_in_flight_ok|].
  split; [by vm_compute | split; [by vm_compute|]].
  symmetry.
  apply (replies_commute two_calls_in_flight "r1" "r2"
           (reply_fields "r1" [("success"%string, PyBool false)])
           (reply_fields "r2" [("success"%string, PyBool true)])
           two_calls_in_flight_ok);
    [discriminate | reflexivity | reflexivity].
Defined.

Lemma connected_world_well_formed : well_formed connected_world.
Proof.
  intros r f H. assert (pending connected_world = ∅) as Hp by (by vm_compute).
  rewrite Hp in H. by rewrite lookup_empty in H.
Qed.

(** X20 on a call that nobody answers in time. *)
Lemma late_reply_is_dropped_witness :
  let result :=
    send_command "secret" connected_world "r1" "get_url" (PyDict []) Sent NotCancelled [] in
  is_connected connected_world = true
  /\ snd result = Raise TimeoutError
  /\ _handle_message (fst result)
       (Some (PyDict (reply_fields "r1" [("success"%string, PyBool true)])))
     = fst result.
Proof.
  intros result.
  assert (is_connected connected_world = true) as Hconn by (by vm_compute).
  destruct (late_reply_is_dropped "secret" connected_world "r1" "get_url" (PyDict []) []
              (Some (PyDict (reply_fields "r1" [("success"%string, PyBool true)])))
              connected_world_well_formed Hconn eq_refl eq_refl eq_refl)
    as (Htimeout & _ & Hdropped).
  split; [exact Hconn | split; [exact Htimeout | exact Hdropped]].
Defined.

(** X21 on a reply with a [url] and on one without [data]. *)
Lemma get_remote_url_reads_reply_witness :
  let reply :=
    reply_fields "r1"
      [ ("success"%string, PyBool true);
        ("data"%string, PyDict [("url"%string, PyStr "https://example.com")]) ] in
  well_formed connected_world
  /\ snd (get_remote_url "secret" connected_world "r1" Sent NotCancelled
            [EvMessage (Some (PyDict reply))])
     = Ok (PyStr "https://example.com")
  /\ snd (get_remote_url "secret" connected_world "r1" Sent NotCancelled
            [EvMessage (Some (PyDict (reply_fields "r1" [("success"%string, PyBool true)])))])
     = Ok (PyStr "").
Proof.
  intros reply. split; [exact connected_world_well_formed|].
  assert (is_connected connected_world = true) as Hconn by (by vm_compute).
  split.
  - destruct (get_remote_url_reads_reply "secret" connected_world "r1"
                [EvMessage (Some (PyDict reply))] connected_world_well_formed eq_refl)
      as (_ & _ & Hreply).
    exact (Hreply Hconn [] reply [] eq_refl eq_refl eq_refl).
  - destruct (get_remote_url_reads_reply "secret" connected_world "r1"
                [EvMessage (Some (PyDict (reply_fields "r1" [("success"%string, PyBool true)])))]
                connected_world_well_formed eq_refl)
      as (_ & _ & Hreply).
    exact (Hreply Hconn [] _ [] eq_refl eq_refl eq_refl).
Defined.

End MoreSampleRuns.

(* ===================================================================== *)
(** * Further properties: permissions *)
(* ===================================================================== *)

Section PermissionProofs.
Import Security Tools App AuthSpec Samples.

Variable fnmatch : string -> string -> bool.

Lemma filter_sublist {A : Type} (f : A -> bool) (l : list A) :
  sublist (List.filter f l) l.
Proof.
  induction l as [|x l IH]; cbn; [constructor|].
  destruct (f x); by constructor.
Qed.

Lemma filter_all {A : Type} (f : A -> bool) (l : list A) :
  (forall x, f x = true) -> List.filter f l = l.
Proof.
  intros Hall. induction l as [|x l IH]; cbn; [done|]. by rewrite Hall, IH.
Qed.

(** X22: [tools/list] keeps the order of registration.  What it returns
    is the catalog with some entries left out, the others in the order
    in which they were registered; a token allowed ["*"] with no excluded
    pattern gets the whole catalog. *)
Theorem tools_list_keeps_order (registry : ToolRegistry) (request : Request) :
  exists listed,
    _handle_tools_list fnmatch registry request
    = Ok (PyDict [("tools"%string, PyList (List.map PyDict listed))])
    /\ sublist listed (list_tools registry)
    /\ (Py.contains (get_allowed_tools request) "*" = true ->
        get_excluded_tools request = [] ->
        listed = list_tools registry).
Proof.
  eexists. unfold _handle_tools_list. rewrite filter_allowed_tools_catalog.
  split; [reflexivity | split; [apply filter_sublist|]].
  intros Hstar Hnone. apply filter_all. intros tool.
  unfold canInvoke. by rewrite Hnone, Hstar.
Qed.

Lemma matches_any_incl (name : string) (l1 l2 : list string) :
  incl l1 l2 -> matches_any fnmatch name l1 = true -> matches_any fnmatch name l2 = true.
Proof.
  unfold matches_any. intros Hincl H. apply existsb_exists in H as (p & Hin & Hp).
  apply existsb_exists. exists p. split; [by apply Hincl | exact Hp].
Qed.

Lemma contains_incl (x : string) (l1 l2 : list string) :
  incl l1 l2 -> Py.contains l1 x = true -> Py.contains l2 x = true.
Proof.
  unfold Py.contains. intros Hincl H. apply existsb_exists in H as (p & Hin & Hp).
  apply existsb_exists. exists p. split; [by apply Hincl | exact Hp].
Qed.

(** X23: permissions are monotone.  A tool a request may call stays
    callable when patterns are added to the allowed list or taken from
    the excluded list: an allowed pattern never takes a tool away and an
    excluded pattern never grants one. *)
Theorem permissions_are_monotone (request request' : Request) (tool_name : string) :
  incl (get_allowed_tools request) (get_allowed_tools request') ->
  incl (get_excluded_tools request') (get_excluded_tools request) ->
  is_tool_allowed fnmatch request (PyStr tool_name) = Ok true ->
  is_tool_allowed fnmatch request' (PyStr tool_name) = Ok true.
Proof.
  intros Hallowed Hexcluded. rewrite !is_tool_allowed_str. unfold canInvoke.
  destruct (matches_any fnmatch tool_name (get_excluded_tools request')) eqn:Hex'.
  - by rewrite (matches_any_incl tool_name _ _ Hexcluded Hex').
  - destruct (matches_any fnmatch tool_name (get_excluded_tools request)); [discriminate|].
    intros [= H]. f_equal. apply orb_true_iff in H as [H|H].
    + by rewrite (contains_incl "*" _ _ Hallowed H).
    + rewrite (matches_any_incl tool_name _ _ Hallowed H). apply orb_true_r.
Qed.

End PermissionProofs.

Section PermissionRuns.
Import Security Tools App AuthSpec Samples MoreSamples.

(** X23 on a token that gains an allowed pattern. *)
Lemma permissions_are_monotone_witness :
  let request := stamped (post None ping) "W" config_W in
  let request' := stamped (post None ping) "T"
                    {| tools := Some ["web_*"%string; "echo"%string];
                       exclude_tools := None; gmail_account := None |} in
  is_tool_allowed glob request (PyStr "web_click") = Ok true
  /\ is_tool_allowed glob request' (PyStr "web_click") = Ok true.
Proof.
  intros request request'. split; [reflexivity|].
  apply (permissions_are_monotone glob request request' "web_click").
  - intros p Hp. cbn in *. destruct Hp as [<-|[]]. by left.
  - intros p Hp. exact Hp.
  - reflexivity.
Defined.

End PermissionRuns.
